(** * we-share: the social-graph services over the graph store

  A shallow embedding of the tweet service, the comment service and the
  follow mutation of the user resolver.  Every Cypher statement the
  services send is written out as the list comprehension it denotes over
  an explicit property graph; a service call is a state transformer over
  that graph which either returns a value or throws. *)

From Stdlib Require Import List String Ascii ZArith Bool Arith Lia.
From Stdlib Require Import DecimalString Sorted Permutation.
Import ListNotations.
Open Scope string_scope.
Open Scope list_scope.
Open Scope nat_scope.

Set Implicit Arguments.
Set Warnings "-register-all".

(* ===================================================================== *)
(** * JavaScript values *)
(* ===================================================================== *)

Module Js.

(** A [Date] object: a time value in milliseconds, or NaN ("Invalid
    Date"). *)
Inductive Date : Type :=
| Valid (ms : Z)
| Invalid.

(** Thrown values.  [new Error(message)] and
    [new ApolloError(message, code, { originalError })]. *)
Inductive Error : Type :=
| mkError (message : string)
| ApolloError (message : string) (code : option string)
              (originalError : option Error).

Definition code (e : Error) : option string :=
  match e with
  | mkError _ => None
  | ApolloError _ c _ => c
  end.

Definition originalError (e : Error) : option Error :=
  match e with
  | mkError _ => None
  | ApolloError _ _ o => o
  end.

Definition message (e : Error) : string :=
  match e with
  | mkError m => m
  | ApolloError m _ _ => m
  end.

(** WhiteSpace and LineTerminator code units below 256: TAB, LF, VT, FF,
    CR, SP and NBSP.  Strings are sequences of code units; the embedding
    covers the code units a Rocq [string] can hold. *)
Definition isWhiteSpace (c : ascii) : bool :=
  let n := nat_of_ascii c in
  ((9 <=? n) && (n <=? 13)) || (n =? 32) || (n =? 160).

Fixpoint trimStart (s : string) : string :=
  match s with
  | EmptyString => EmptyString
  | String c s' => if isWhiteSpace c then trimStart s' else s
  end.

Fixpoint rev_append (s acc : string) : string :=
  match s with
  | EmptyString => acc
  | String c s' => rev_append s' (String c acc)
  end.

Definition reverse (s : string) : string := rev_append s EmptyString.

Definition trimEnd (s : string) : string := reverse (trimStart (reverse s)).

(** [String.prototype.trim]. *)
Definition trim (s : string) : string := trimEnd (trimStart s).

(** Truthiness of a string: the empty string is falsy. *)
Definition truthy (s : string) : bool :=
  match s with
  | EmptyString => false
  | String _ _ => true
  end.

(** [a ?? d] and [a || d] on an optional string. *)
Definition nullish {A : Type} (a : option A) (d : A) : A :=
  match a with
  | Some x => x
  | None => d
  end.

Definition or_string (a : option string) (d : string) : string :=
  match a with
  | Some x => if truthy x then x else d
  | None => d
  end.

End Js.

(* ===================================================================== *)
(** * The property graph held by the store *)
(* ===================================================================== *)

Module Neo4j.

(** A temporal value as the driver hands it over: the date part is always
    there, the time part only for [DateTime] and [LocalDateTime]. *)
Record Temporal : Type := mkTemporal {
  year : Z;
  month : Z;
  day : Z;
  hour : option Z;
  minute : option Z;
  second : option Z;
  nanosecond : option Z
}.

(** What a [createdAt]/[updatedAt] property can be when it reaches a
    service: missing, a JS [Date] (the node interfaces admit it), a
    store-native temporal value, or a string timestamp. *)
Inductive DateValue : Type :=
| DVundefined
| DVDate (d : Js.Date)
| DVTemporal (t : Temporal)
| DVString (s : string).

(** [models/base.ts], [RelationshipType]. *)
Inductive RelationshipType : Type :=
| FOLLOWS | LIKES_TWEET | LIKES_COMMENT | POSTED | COMMENTS_ON | HAS_COMMENT.

Definition RelationshipType_eqb (a b : RelationshipType) : bool :=
  match a, b with
  | FOLLOWS, FOLLOWS | LIKES_TWEET, LIKES_TWEET
  | LIKES_COMMENT, LIKES_COMMENT | POSTED, POSTED
  | COMMENTS_ON, COMMENTS_ON | HAS_COMMENT, HAS_COMMENT => true
  | _, _ => false
  end.

(** [UserNode] of [tweet.model.ts]. *)
Record UserNode : Type := mkUserNode {
  u_id : string;
  u_username : string;
  u_name : string;
  u_email : option string;
  u_bio : option string;
  u_pfp : option string;
  u_coverPhoto : option string;
  u_isVerified : option bool;
  u_createdAt : DateValue;
  u_updatedAt : DateValue
}.

(** [TweetNode] of [tweet.model.ts] with the service's [isLiked]
    extension. *)
Record TweetNode : Type := mkTweetNode {
  t_id : string;
  t_text : string;
  t_media : option (list string);
  t_authorId : string;
  t_likesCount : option Z;
  t_commentsCount : option Z;
  t_retweetsCount : option Z;
  t_createdAt : DateValue;
  t_updatedAt : DateValue;
  t_isLiked : option bool
}.

(** [CommentNode] of [comment.model.ts]. *)
Record CommentNode : Type := mkCommentNode {
  c_id : string;
  c_text : string;
  c_authorId : string;
  c_tweetId : option string;
  c_createdAt : DateValue;
  c_updatedAt : DateValue;
  c_isLiked : option bool;
  c_likesCount : option Z
}.

(** A node carries its label together with the properties of that
    label. *)
Inductive Props : Type :=
| User (u : UserNode)
| Tweet (t : TweetNode)
| Comment (c : CommentNode).

(** Nodes and relationships have an identity of their own, handed out by
    the store; the [id] property is ordinary data. *)
Record Node : Type := mkNode {
  nid : nat;
  props : Props
}.

Record Rel : Type := mkRel {
  rid : nat;
  rtype : RelationshipType;
  rfrom : nat;
  rto : nat;
  r_createdAt : DateValue
}.

Record Graph : Type := mkGraph {
  nodes : list Node;
  rels : list Rel;
  next : nat
}.

Definition empty : Graph := mkGraph [] [] 0.

(** ** Scans *)

Definition users (g : Graph) : list (nat * UserNode) :=
  flat_map (fun n => match props n with
                     | User u => [(nid n, u)]
                     | _ => []
                     end) (nodes g).

Definition tweets (g : Graph) : list (nat * TweetNode) :=
  flat_map (fun n => match props n with
                     | Tweet t => [(nid n, t)]
                     | _ => []
                     end) (nodes g).

Definition comments (g : Graph) : list (nat * CommentNode) :=
  flat_map (fun n => match props n with
                     | Comment c => [(nid n, c)]
                     | _ => []
                     end) (nodes g).

Definition node_at (g : Graph) (k : nat) : option Node :=
  find (fun n => nid n =? k) (nodes g).

Definition user_at (g : Graph) (k : nat) : option UserNode :=
  match node_at g k with
  | Some (mkNode _ (User u)) => Some u
  | _ => None
  end.

Definition tweet_at (g : Graph) (k : nat) : option TweetNode :=
  match node_at g k with
  | Some (mkNode _ (Tweet t)) => Some t
  | _ => None
  end.

Definition comment_at (g : Graph) (k : nat) : option CommentNode :=
  match node_at g k with
  | Some (mkNode _ (Comment c)) => Some c
  | _ => None
  end.

(** [(k)<-[:ty]-()] and [(k)-[:ty]->()]. *)
Definition incoming (g : Graph) (ty : RelationshipType) (k : nat)
  : list Rel :=
  filter (fun r => RelationshipType_eqb (rtype r) ty && (rto r =? k))
         (rels g).

Definition outgoing (g : Graph) (ty : RelationshipType) (k : nat)
  : list Rel :=
  filter (fun r => RelationshipType_eqb (rtype r) ty && (rfrom r =? k))
         (rels g).

(** [(:User {id: $userId})] and [(:Tweet {id: $tweetId})]. *)
Definition users_by_id (g : Graph) (id : string) : list (nat * UserNode) :=
  filter (fun p => String.eqb (u_id (snd p)) id) (users g).

Definition tweets_by_id (g : Graph) (id : string)
  : list (nat * TweetNode) :=
  filter (fun p => String.eqb (t_id (snd p)) id) (tweets g).

Definition comments_by_id (g : Graph) (id : string)
  : list (nat * CommentNode) :=
  filter (fun p => String.eqb (c_id (snd p)) id) (comments g).

(** The node is labelled [Comment]. *)
Definition is_comment (n : Node) : Prop :=
  match props n with
  | Comment _ => True
  | _ => False
  end.

(** ** Updates *)

(** [CREATE (n ...)]: the new node takes the next identity. *)
Definition create_node (p : Props) (g : Graph) : nat * Graph :=
  (next g, mkGraph (nodes g ++ [mkNode (next g) p]) (rels g) (S (next g))).

(** [CREATE (a)-[:ty {createdAt: ...}]->(b)]. *)
Definition create_rel (ty : RelationshipType) (a b : nat)
           (createdAt : DateValue) (g : Graph) : Graph :=
  mkGraph (nodes g) (rels g ++ [mkRel (next g) ty a b createdAt])
          (S (next g)).

(** The same for a list of end-point pairs, one row after the other. *)
Definition create_rels (ty : RelationshipType) (createdAt : DateValue)
           (pairs : list (nat * nat)) (g : Graph) : Graph :=
  fold_left (fun acc p => create_rel ty (fst p) (snd p) createdAt acc)
            pairs g.

(** The start node is a [User] with this [id]; the end node is a [Tweet],
    respectively a [Comment], with this [id]. *)
Definition from_user (g : Graph) (id : string) (r : Rel) : bool :=
  match user_at g (rfrom r) with
  | Some u => String.eqb (u_id u) id
  | None => false
  end.

Definition to_tweet (g : Graph) (id : string) (r : Rel) : bool :=
  match tweet_at g (rto r) with
  | Some t => String.eqb (t_id t) id
  | None => false
  end.

Definition to_comment (g : Graph) (id : string) (r : Rel) : bool :=
  match comment_at g (rto r) with
  | Some c => String.eqb (c_id c) id
  | None => false
  end.

(** [DELETE r] for every relationship picked out by [doomed]. *)
Definition delete_rels (doomed : Rel -> bool) (g : Graph) : Graph :=
  mkGraph (nodes g) (filter (fun r => negb (doomed r)) (rels g)) (next g).

(** A node still has relationships attached. *)
Definition attached (g : Graph) (k : nat) : bool :=
  existsb (fun r => (rfrom r =? k) || (rto r =? k)) (rels g).

Definition delete_nodes (doomed : Node -> bool) (g : Graph) : Graph :=
  mkGraph (filter (fun n => negb (doomed n)) (nodes g)) (rels g) (next g).

(** [SET] on every node: [f] rewrites the properties of the nodes the
    statement matched and leaves the others alone. *)
Definition set_props (f : Node -> Props) (g : Graph) : Graph :=
  mkGraph (map (fun n => mkNode (nid n) (f n)) (nodes g)) (rels g)
          (next g).

(** ** Store invariant

    Identities are unique and below the allocation counter, and every
    relationship starts and ends at a node of the graph. *)
Definition has_node (g : Graph) (k : nat) : Prop := In k (map nid (nodes g)).

Record wf (g : Graph) : Prop := mkWf {
  wf_nids : NoDup (map nid (nodes g));
  wf_nid_lt : Forall (fun n => nid n < next g) (nodes g);
  wf_rids : NoDup (map rid (rels g));
  wf_rid_lt : Forall (fun r => rid r < next g) (rels g);
  wf_ends : Forall (fun r => has_node g (rfrom r) /\ has_node g (rto r))
                   (rels g)
}.

(** The invariant as a check on a concrete graph. *)
Fixpoint distinct (l : list nat) : bool :=
  match l with
  | [] => true
  | x :: l' => negb (existsb (Nat.eqb x) l') && distinct l'
  end.

Definition wfb (g : Graph) : bool :=
  distinct (map nid (nodes g))
  && forallb (fun n => nid n <? next g) (nodes g)
  && distinct (map rid (rels g))
  && forallb (fun r => rid r <? next g) (rels g)
  && forallb (fun r => existsb (Nat.eqb (rfrom r)) (map nid (nodes g))
                       && existsb (Nat.eqb (rto r)) (map nid (nodes g)))
             (rels g).

End Neo4j.

(* ===================================================================== *)
(** * What the services take from their platform *)
(* ===================================================================== *)

(** The pieces of the JavaScript runtime, of the driver and of the store
  that the services call and that are no part of the repository. *)
Class Platform : Type := mkPlatform {
  (** [Date.parse]; [None] stands for NaN. *)
  Date_parse : string -> option Z;
  (** [new Date(year, monthIndex, day, hours, minutes, seconds, ms)]. *)
  Date_fields : Z -> Z -> Z -> Z -> Z -> Z -> Z -> Js.Date;
  (** [toString] of the driver's temporal classes. *)
  Temporal_toString : Neo4j.Temporal -> string;
  (** [randomUUID()], as a function of the identity the store hands to the
      node under creation. *)
  randomUUID : nat -> string;
  (** [ORDER BY ... DESC] on a date property: [x] may stand before [y]. *)
  desc_leb : Neo4j.DateValue -> Neo4j.DateValue -> bool
}.

(** [new Date(value)] on a date property: an absent value gives an invalid
  date, an object goes through its [toString], a string through
  [Date.parse]. *)
Definition newDate {platform : Platform} (v : Neo4j.DateValue) : Js.Date :=
  match v with
  | Neo4j.DVundefined => Js.Invalid
  | Neo4j.DVDate d => d
  | Neo4j.DVTemporal t =>
      match Date_parse (Temporal_toString t) with
      | Some ms => Js.Valid ms
      | None => Js.Invalid
      end
  | Neo4j.DVString s =>
      match Date_parse s with
      | Some ms => Js.Valid ms
      | None => Js.Invalid
      end
  end.

(* ===================================================================== *)
(** * Sessions, transactions and thrown errors *)
(* ===================================================================== *)

Module Session.

Import Neo4j.

Inductive Outcome (A : Type) : Type :=
| Return (a : A)
| Throw (e : Js.Error).

Arguments Return {A} a.
Arguments Throw {A} e.

(** An asynchronous call against the store: it runs on a graph and leaves
    a graph, and it settles with a value or a thrown error. *)
Definition Async (A : Type) : Type := Graph -> Outcome A * Graph.

Definition ret {A : Type} (a : A) : Async A := fun g => (Return a, g).

Definition throw {A : Type} (e : Js.Error) : Async A :=
  fun g => (Throw e, g).

Definition bind {A B : Type} (c : Async A) (k : A -> Async B) : Async B :=
  fun g =>
    match c g with
    | (Return a, g') => k a g'
    | (Throw e, g') => (Throw e, g')
    end.

(** [try { c } catch (error) { h error }]. *)
Definition try_catch {A : Type} (c : Async A) (h : Js.Error -> Async A)
  : Async A :=
  fun g =>
    match c g with
    | (Return a, g') => (Return a, g')
    | (Throw e, g') => h e g'
    end.

(** A read of the graph and a write of the graph, as one statement. *)
Definition query {A : Type} (q : Graph -> A) : Async A :=
  fun g => (Return (q g), g).

Definition update {A : Type} (u : Graph -> A * Graph) : Async A :=
  fun g => let (a, g') := u g in (Return a, g').

(** [session.writeTransaction] / [session.executeWrite] /
    [session.readTransaction]: the work commits when it returns and is
    rolled back when it throws. *)
Definition transaction {A : Type} (work : Async A) : Async A :=
  fun g =>
    match work g with
    | (Return a, g') => (Return a, g')
    | (Throw e, _) => (Throw e, g)
    end.

(** [tx.run] of one statement inside a transaction function, when the
    store may reject the statement: a rejected statement throws the store's
    error and has written nothing; otherwise the statement runs. *)
Definition run {A : Type} (rejection : option Js.Error)
           (statement : Async A) : Async A :=
  match rejection with
  | Some error => throw error
  | None => statement
  end.

End Session.

Declare Scope async_scope.
Delimit Scope async_scope with async.
Notation "x <- c ;; k" := (Session.bind c (fun x => k))
  (at level 61, c at next level, right associativity) : async_scope.
Notation "c ;;; k" := (Session.bind c (fun _ => k))
  (at level 61, right associativity) : async_scope.

(** [ORDER BY]: a stable insertion sort along the store's comparison. *)
Fixpoint insert_by {A : Type} (leb : A -> A -> bool) (x : A) (l : list A)
  : list A :=
  match l with
  | [] => [x]
  | y :: l' => if leb x y then x :: l else y :: insert_by leb x l'
  end.

Definition orderBy {A : Type} (leb : A -> A -> bool) (l : list A) : list A :=
  fold_right (insert_by leb) [] l.

(** [x IN e] where [e] turns out not to be a list: the store takes a
  non-list right operand as the one-element list holding it. *)
Definition cypher_IN_scalar (x e : string) : bool := String.eqb x e.

(* ===================================================================== *)
(** * Models returned to the API layer *)
(* ===================================================================== *)

(** [BaseUser] of [shared.types.ts]. *)
Module BaseUser.
Record t : Type := mk {
  id : string;
  username : string;
  name : string;
  email : option string;
  bio : option string;
  pfp : option string;
  coverPhoto : option string;
  isVerified : option bool;
  createdAt : Js.Date;
  updatedAt : Js.Date
}.
End BaseUser.

(** [User] of [user.model.ts], with the fields the services fill. *)
Module User.
Record t : Type := mk {
  id : string;
  username : string;
  name : string;
  email : option string;
  pfp : string;
  bio : string
}.
End User.

(** [Comment] of [comment.model.ts]. *)
Module Comment.
Record t : Type := mk {
  id : string;
  text : string;
  authorId : string;
  tweetId : option string;
  createdAt : Js.Date;
  updatedAt : Js.Date;
  isLiked : option bool;
  likesCount : Z;
  author : option User.t
}.
End Comment.

(** [Tweet] of [tweet.model.ts].  The counters and [isLiked] are optional
  here because the list operations build the object without them. *)
Module Tweet.
Record t : Type := mk {
  id : string;
  text : string;
  media : list string;
  authorId : string;
  createdAt : Js.Date;
  updatedAt : Js.Date;
  likesCount : option Z;
  commentsCount : option Z;
  retweetsCount : option Z;
  isLiked : option bool;
  author : option BaseUser.t
}.
End Tweet.

(* ===================================================================== *)
(** * TweetService *)
(* ===================================================================== *)

Module TweetService.

Import Neo4j Session.
Local Open Scope async_scope.

Section Service.

Context {platform : Platform}.

(** [safeParseDate]; [now] is the value of [new Date()]. *)
Definition safeParseDate (now : Js.Date) (dateValue : DateValue)
  : Js.Date :=
  match dateValue with
  | DVundefined => now
  | DVDate d => d
  | DVTemporal t =>
      Date_fields (year t) (month t - 1)%Z (day t)
                  (Js.nullish (hour t) 0%Z)
                  (Js.nullish (minute t) 0%Z)
                  (Js.nullish (second t) 0%Z)
                  (match nanosecond t with
                   | Some ns => Z.quot ns 1000000
                   | None => 0%Z
                   end)
  | DVString s =>
      if Js.truthy s then
        match Date_parse s with
        | Some timestamp => Js.Valid timestamp
        | None => now
        end
      else now
  end.

Definition defaultPfp : string := "https://i.imgur.com/HeIi0wU.png".

Definition mapTweet (now : Js.Date) (tweetNode : TweetNode)
           (authorNode : UserNode) : Tweet.t :=
  Tweet.mk
    (t_id tweetNode)
    (t_text tweetNode)
    (Js.nullish (t_media tweetNode) [])
    (t_authorId tweetNode)
    (safeParseDate now (t_createdAt tweetNode))
    (safeParseDate now (t_updatedAt tweetNode))
    (Some (Js.nullish (t_likesCount tweetNode) 0%Z))
    (Some (Js.nullish (t_commentsCount tweetNode) 0%Z))
    (Some (Js.nullish (t_retweetsCount tweetNode) 0%Z))
    (Some (Js.nullish (t_isLiked tweetNode) false))
    (Some (BaseUser.mk
             (u_id authorNode)
             (u_username authorNode)
             (u_name authorNode)
             (Some (Js.nullish (u_email authorNode) ""))
             (Some (Js.nullish (u_bio authorNode) ""))
             (Some (Js.nullish (u_pfp authorNode) defaultPfp))
             (Some (Js.nullish (u_coverPhoto authorNode) ""))
             (Some (Js.nullish (u_isVerified authorNode) false))
             (safeParseDate now (u_createdAt authorNode))
             (safeParseDate now (u_updatedAt authorNode)))).

(** The object literal the four list operations build from a record. *)
Definition listItem (tweetNode : TweetNode) (author : UserNode) : Tweet.t :=
  Tweet.mk
    (t_id tweetNode)
    (t_text tweetNode)
    (Js.nullish (t_media tweetNode) [])
    (u_id author)
    (newDate (t_createdAt tweetNode))
    (newDate (t_updatedAt tweetNode))
    None None None None
    (Some (BaseUser.mk
             (u_id author)
             (u_username author)
             (u_name author)
             (u_email author)
             (Some (Js.or_string (u_bio author) ""))
             (Some (Js.or_string (u_pfp author) defaultPfp))
             None None
             (newDate (u_createdAt author))
             (newDate (u_updatedAt author)))).

Definition withSession {A : Type} (operation : Async A) : Async A :=
  try_catch operation
    (fun error =>
       throw (Js.ApolloError "Failed to execute database operation"
                             (Some "DATABASE_ERROR") (Some error))).

(** ** createTweet *)

(** [MATCH (u:User {id: $authorId})
     CREATE (t:Tweet {id: randomUUID(), text: $text, media: $media,
                      createdAt: datetime(), updatedAt: datetime(),
                      authorId: $authorId})
     CREATE (u)-[:POSTED]->(t)
     RETURN t, u], one matched user after the other. *)
Definition new_tweet (datetime : Temporal) (text : string)
           (media : list string) (authorId : string) (g : Graph)
  : TweetNode :=
  mkTweetNode (randomUUID (next g)) text (Some media) authorId
              None None None (DVTemporal datetime) (DVTemporal datetime)
              None.

Fixpoint createTweet_rows (datetime : Temporal) (text : string)
         (media : list string) (authorId : string)
         (matched : list (nat * UserNode)) (g : Graph)
  : list (TweetNode * UserNode) * Graph :=
  match matched with
  | [] => ([], g)
  | (uk, u) :: rest =>
      let t := new_tweet datetime text media authorId g in
      let (tk, g1) := create_node (Tweet t) g in
      let g2 := create_rel POSTED uk tk DVundefined g1 in
      let (rows, g3) :=
        createTweet_rows datetime text media authorId rest g2 in
      ((t, u) :: rows, g3)
  end.

Definition createTweet_query (datetime : Temporal) (text : string)
           (media : list string) (authorId : string) (g : Graph)
  : list (TweetNode * UserNode) * Graph :=
  createTweet_rows datetime text media authorId (users_by_id g authorId) g.

Definition createTweet (now : Js.Date) (datetime : Temporal)
           (text : string) (media : list string) (authorId : string)
  : Async Tweet.t :=
  if negb (Js.truthy (Js.trim text)) then
    throw (Js.ApolloError "Tweet text cannot be empty"
                          (Some "INVALID_INPUT") None)
  else
    withSession
      (transaction
         (createTweetResult <-
            update (createTweet_query datetime text media authorId) ;;
          match createTweetResult with
          | [] => throw (Js.ApolloError "Failed to create tweet"
                                        (Some "TWEET_CREATION_ERROR") None)
          | (tweetNode, authorNode) :: _ =>
              ret (mapTweet now tweetNode authorNode)
          end)).

(** ** fetchTweet *)

(** [(t)<-[:POSTED]-(u:User)] for a tweet node already bound. *)
Definition posters (g : Graph) (tk : nat) : list UserNode :=
  flat_map (fun r => match user_at g (rfrom r) with
                     | Some u => [u]
                     | None => []
                     end) (incoming g POSTED tk).

(** [MATCH (t:Tweet {id: $id})<-[r:POSTED]-(u:User) RETURN t, u]. *)
Definition fetchTweet_query (id : string) (g : Graph)
  : list (TweetNode * UserNode) :=
  flat_map (fun p => map (fun u => (snd p, u)) (posters g (fst p)))
           (tweets_by_id g id).

Definition fetchTweet (now : Js.Date) (id : string)
  : Async (option Tweet.t) :=
  withSession
    (result <- query (fetchTweet_query id) ;;
     match result with
     | [] => ret None
     | (tweetNode, author) :: _ => ret (Some (mapTweet now tweetNode author))
     end).

(** ** listTweets, listUserTweets *)

Definition by_tweet_createdAt (a b : TweetNode * UserNode) : bool :=
  desc_leb (t_createdAt (fst a)) (t_createdAt (fst b)).

(** [MATCH (t:Tweet)<-[:POSTED]-(u:User) RETURN t, u]. *)
Definition posted (g : Graph) : list (TweetNode * UserNode) :=
  flat_map (fun p => map (fun u => (snd p, u)) (posters g (fst p)))
           (tweets g).

(** [... ORDER BY t.createdAt DESC]. *)
Definition listTweets_query (g : Graph) : list (TweetNode * UserNode) :=
  orderBy by_tweet_createdAt (posted g).

Definition listTweets : Async (list Tweet.t) :=
  withSession
    (result <- query listTweets_query ;;
     ret (map (fun record => listItem (fst record) (snd record)) result)).

(** [MATCH (u:User {id: $userId})-[:POSTED]->(t:Tweet) RETURN t, u
     ORDER BY t.createdAt DESC]. *)
Definition listUserTweets_query (userId : string) (g : Graph)
  : list (TweetNode * UserNode) :=
  orderBy by_tweet_createdAt
    (flat_map
       (fun p =>
          flat_map (fun r => match tweet_at g (rto r) with
                             | Some t => [(t, snd p)]
                             | None => []
                             end) (outgoing g POSTED (fst p)))
       (users_by_id g userId)).

Definition listUserTweets (userId : string) : Async (list Tweet.t) :=
  withSession
    (result <- query (listUserTweets_query userId) ;;
     ret (map (fun record => listItem (fst record) (snd record)) result)).

(** ** likeTweet, unlikeTweet, listLikedTweets *)

(** [(u:User {id: $userId})-[r:LIKES_TWEET]->(t:Tweet {id: $tweetId})]. *)
Definition is_like (g : Graph) (userId tweetId : string) (r : Rel)
  : bool :=
  RelationshipType_eqb (rtype r) LIKES_TWEET
  && from_user g userId r && to_tweet g tweetId r.

(** [MATCH (u:User {id: $userId})-[r:LIKES_TWEET]->(t:Tweet {id: $tweetId})
     RETURN r]. *)
Definition existingLike_query (userId tweetId : string) (g : Graph)
  : list Rel :=
  filter (is_like g userId tweetId) (rels g).

(** [MATCH (u:User {id: $userId}), (t:Tweet {id: $tweetId})
     CREATE (u)-[r:LIKES_TWEET { createdAt: datetime() }]->(t)
     RETURN r]. *)
Definition createLike_query (datetime : Temporal) (userId tweetId : string)
           (g : Graph) : unit * Graph :=
  (tt, create_rels LIKES_TWEET (DVTemporal datetime)
         (list_prod (map fst (users_by_id g userId))
                    (map fst (tweets_by_id g tweetId))) g).

Definition likeTweet (datetime : Temporal) (tweetId : string)
           (userId : string) : Async bool :=
  withSession
    (transaction
       (existingLike <- query (existingLike_query userId tweetId) ;;
        if 0 <? List.length existingLike then
          throw (Js.mkError "Tweet already liked")
        else
          update (createLike_query datetime userId tweetId)) ;;;
     ret true).

(** [MATCH (u:User {id: $userId})-[r:LIKES_TWEET]->(t:Tweet)
           <-[:POSTED]-(author:User)
     RETURN t, author ORDER BY r.createdAt DESC]. *)
Definition listLikedTweets_query (userId : string) (g : Graph)
  : list (Rel * (TweetNode * UserNode)) :=
  orderBy (fun a b => desc_leb (r_createdAt (fst a)) (r_createdAt (fst b)))
    (flat_map
       (fun r =>
          match tweet_at g (rto r) with
          | Some t => map (fun author => (r, (t, author)))
                          (posters g (rto r))
          | None => []
          end)
       (filter (fun r => RelationshipType_eqb (rtype r) LIKES_TWEET
                         && from_user g userId r) (rels g))).

Definition listLikedTweets (userId : string) : Async (list Tweet.t) :=
  withSession
    (result <- query (listLikedTweets_query userId) ;;
     ret (map (fun record => listItem (fst (snd record)) (snd (snd record)))
              result)).

(** [MATCH (u:User {id: $userId})-[r:LIKES_TWEET]->(t:Tweet {id: $tweetId})
     DELETE r]. *)
Definition deleteLike_query (userId tweetId : string) (g : Graph)
  : unit * Graph :=
  (tt, delete_rels (is_like g userId tweetId) g).

Definition unlikeTweet (tweetId : string) (userId : string) : Async bool :=
  withSession
    (try_catch
       (update (deleteLike_query userId tweetId) ;;; ret true)
       (fun _ => ret false)).

(** ** deleteTweet *)

(** [MATCH (t:Tweet {id: $tweetId})<-[r]-(n) DELETE r]. *)
Definition deleteIncoming_query (tweetId : string) (g : Graph)
  : unit * Graph :=
  (tt, delete_rels (to_tweet g tweetId) g).

Definition is_tweet (tweetId : string) (n : Node) : bool :=
  match props n with
  | Tweet t => String.eqb (t_id t) tweetId
  | _ => false
  end.

(** [MATCH (t:Tweet {id: $tweetId}) DELETE t].  The store refuses to
    delete a node that still has relationships. *)
Definition deleteNode_query (tweetId : string) : Async unit :=
  fun g =>
    if existsb (fun p => attached g (fst p)) (tweets_by_id g tweetId) then
      (Throw (Js.mkError
                "Cannot delete node, because it still has relationships"),
       g)
    else (Return tt, delete_nodes (is_tweet tweetId) g).

Definition deleteTweet (tweetId : string) : Async bool :=
  withSession
    (try_catch
       (transaction
          (update (deleteIncoming_query tweetId) ;;;
           deleteNode_query tweetId) ;;;
        ret true)
       (fun error =>
          throw (Js.ApolloError "Failed to delete tweet"
                                (Some "TWEET_DELETION_ERROR")
                                (Some error)))).

(** ** commentOnTweet *)

(** [MATCH (u:User {id: $authorId}), (t:Tweet {id: $tweetId})
     CREATE (c:Comment {id: randomUUID(), text: $text,
                        authorId: $authorId, createdAt: datetime(),
                        updatedAt: datetime()})
     CREATE (u)-[:POSTED]->(c)
     CREATE (c)-[:COMMENTS_ON]->(t)
     RETURN c, u, t], one matched pair after the other. *)
Definition new_comment (datetime : Temporal) (text authorId : string)
           (tweetIdProp : option string) (g : Graph) : CommentNode :=
  mkCommentNode (randomUUID (next g)) text authorId tweetIdProp
                (DVTemporal datetime) (DVTemporal datetime) None None.

Fixpoint createComment_rows (datetime : Temporal) (text authorId : string)
         (tweetIdProp : option string)
         (matched : list ((nat * UserNode) * (nat * TweetNode)))
         (g : Graph)
  : list (CommentNode * UserNode * TweetNode) * Graph :=
  match matched with
  | [] => ([], g)
  | ((uk, u), (tk, t)) :: rest =>
      let c := new_comment datetime text authorId tweetIdProp g in
      let (ck, g1) := create_node (Comment c) g in
      let g2 := create_rel POSTED uk ck DVundefined g1 in
      let g3 := create_rel COMMENTS_ON ck tk DVundefined g2 in
      let (rows, g4) :=
        createComment_rows datetime text authorId tweetIdProp rest g3 in
      ((c, u, t) :: rows, g4)
  end.

Definition createComment_query (datetime : Temporal)
           (text authorId tweetId : string) (g : Graph)
  : list (CommentNode * UserNode * TweetNode) * Graph :=
  createComment_rows datetime text authorId None
    (list_prod (users_by_id g authorId) (tweets_by_id g tweetId)) g.

(** [MATCH (t:Tweet {id: $tweetId})
     SET t.commentsCount = COALESCE(t.commentsCount, 0) + 1]. *)
Definition bump_tweet (tweetId : string) (t : TweetNode) : TweetNode :=
  if String.eqb (t_id t) tweetId then
    mkTweetNode (t_id t) (t_text t) (t_media t) (t_authorId t)
                (t_likesCount t)
                (Some (Js.nullish (t_commentsCount t) 0 + 1)%Z)
                (t_retweetsCount t) (t_createdAt t) (t_updatedAt t)
                (t_isLiked t)
  else t.

Definition bump_commentsCount (tweetId : string) (n : Node) : Props :=
  match props n with
  | Tweet t => Tweet (bump_tweet tweetId t)
  | p => p
  end.

Definition incrementComments_query (tweetId : string) (g : Graph)
  : unit * Graph :=
  (tt, set_props (bump_commentsCount tweetId) g).

(** The method with the two [tx.run] calls of its write transaction open
    to a rejection by the store: [createRejection] for the statement that
    creates the comment, [incrementRejection] for the one that raises the
    count. *)
Definition commentOnTweet_under
           (createRejection incrementRejection : option Js.Error)
           (now : Js.Date) (datetime : Temporal)
           (text authorId tweetId : string) : Async (option Tweet.t) :=
  withSession
    (try_catch
       (tweet <- fetchTweet now tweetId ;;
        match tweet with
        | None => throw (Js.mkError "Tweet not found")
        | Some _ =>
            transaction
              (createCommentResult <-
                 run createRejection
                     (update (createComment_query datetime text authorId
                                                  tweetId)) ;;
               run incrementRejection
                   (update (incrementComments_query tweetId)) ;;;
               ret (hd_error createCommentResult)) ;;;
            fetchTweet now tweetId
        end)
       (fun error =>
          throw (Js.ApolloError "Failed to create comment"
                                (Some "COMMENT_CREATION_ERROR")
                                (Some error)))).

(** [commentOnTweet] on a store that rejects neither statement. *)
Definition commentOnTweet : Js.Date -> Temporal -> string -> string ->
                            string -> Async (option Tweet.t) :=
  commentOnTweet_under None None.

(** ** listTimelineTweets *)

(** [MATCH (me:User {id: $userId})-[:FOLLOWS]->(following:User)]. *)
Definition followings (userId : string) (g : Graph) : list UserNode :=
  flat_map
    (fun me =>
       flat_map (fun r => match user_at g (rto r) with
                          | Some following => [following]
                          | None => []
                          end) (outgoing g FOLLOWS (fst me)))
    (users_by_id g userId).

(** [MATCH (me:User {id: $userId})-[:FOLLOWS]->(following:User)
     MATCH (t:Tweet)<-[:POSTED]-(poster:User)
     WHERE (poster.id IN following.id OR poster.id = $userId)
     RETURN t, poster
     ORDER BY t.createdAt DESC]:
    the second [MATCH] runs once for every row of the first. *)
Definition listTimelineTweets_query (userId : string) (g : Graph)
  : list (TweetNode * UserNode) :=
  orderBy by_tweet_createdAt
    (flat_map
       (fun following =>
          filter (fun row =>
                    cypher_IN_scalar (u_id (snd row)) (u_id following)
                    || String.eqb (u_id (snd row)) userId)
                 (posted g))
       (followings userId g)).

Definition listTimelineTweets (userId : string) : Async (list Tweet.t) :=
  withSession
    (result <- query (listTimelineTweets_query userId) ;;
     ret (map (fun record => listItem (fst record) (snd record)) result)).

End Service.

End TweetService.

(* ===================================================================== *)
(** * CommentService *)
(* ===================================================================== *)

Module CommentService.

Import Neo4j Session.
Local Open Scope async_scope.

Section Service.

Context {platform : Platform}.

Definition withSession {A : Type} (operation : Async A) : Async A :=
  try_catch operation
    (fun error =>
       throw (Js.ApolloError "Failed to execute database operation"
                             None None)).

Definition mapComment (commentNode : CommentNode) (authorNode : UserNode)
           (tweetNode : TweetNode) : Comment.t :=
  Comment.mk
    (c_id commentNode)
    (c_text commentNode)
    (c_authorId commentNode)
    (c_tweetId commentNode)
    (newDate (c_createdAt commentNode))
    (newDate (c_updatedAt commentNode))
    (c_isLiked commentNode)
    (Js.nullish (c_likesCount commentNode) 0%Z)
    (Some (User.mk
             (u_id authorNode)
             (u_username authorNode)
             (u_name authorNode)
             (u_email authorNode)
             (Js.nullish (u_pfp authorNode) "")
             (Js.nullish (u_bio authorNode) ""))).

(** ** getCommentsForTweet *)

(** A row binding [c], [u] and [t], each with its identity. *)
Definition Row : Type :=
  ((nat * CommentNode) * (nat * UserNode) * (nat * TweetNode))%type.

Definition row_c (row : Row) : nat * CommentNode := fst (fst row).
Definition row_u (row : Row) : nat * UserNode := snd (fst row).
Definition row_t (row : Row) : nat * TweetNode := snd row.

(** [MATCH (c:Comment)-[:COMMENTS_ON]->(t:Tweet {id: $tweetId})
     MATCH (u:User)-[:POSTED]->(c)]. *)
Definition comment_rows (tweetId : string) (g : Graph) : list Row :=
  flat_map
    (fun c =>
       flat_map
         (fun r1 =>
            match tweet_at g (rto r1) with
            | Some t =>
                if String.eqb (t_id t) tweetId then
                  flat_map
                    (fun r2 =>
                       match user_at g (rfrom r2) with
                       | Some u => [(c, (rfrom r2, u), (rto r1, t))]
                       | None => []
                       end)
                    (incoming g POSTED (fst c))
                else []
            | None => []
            end)
         (outgoing g COMMENTS_ON (fst c)))
    (comments g).

(** [(u2:User)-[l:LIKES_COMMENT]->(c)] for a comment already bound. *)
Definition likes_of (g : Graph) (ck : nat) : list Rel :=
  filter (fun l => match user_at g (rfrom l) with
                   | Some _ => true
                   | None => false
                   end) (incoming g LIKES_COMMENT ck).

(** [OPTIONAL MATCH (u2:User)-[l:LIKES_COMMENT]->(c)]: a row for every
    match, and one row with [l] null when there is none. *)
Definition optional_likes (g : Graph) (row : Row)
  : list (Row * option Rel) :=
  match likes_of g (fst (row_c row)) with
  | [] => [(row, None)]
  | ls => map (fun l => (row, Some l)) ls
  end.

(** The grouping key of [RETURN c, u, t, count(DISTINCT l), ...]: the three
    nodes, by identity. *)
Definition same_group (a b : Row) : bool :=
  (fst (row_c a) =? fst (row_c b))
  && (fst (row_u a) =? fst (row_u b))
  && (fst (row_t a) =? fst (row_t b)).

Fixpoint group_heads (rows seen : list Row) : list Row :=
  match rows with
  | [] => []
  | x :: rest =>
      if existsb (same_group x) seen then group_heads rest seen
      else x :: group_heads rest (x :: seen)
  end.

(** [count(DISTINCT l)] within the group of [x]: nulls do not count. *)
Definition count_distinct_likes (x : Row)
           (expanded : list (Row * option Rel)) : nat :=
  List.length
    (nodup Nat.eq_dec
       (flat_map (fun e => if same_group x (fst e) then
                             match snd e with
                             | Some l => [rid l]
                             | None => []
                             end
                           else []) expanded)).

(** [exists((:User {id: $userId})-[:LIKES_COMMENT]->(c))]. *)
Definition liked_by (g : Graph) (userId : string) (ck : nat) : bool :=
  existsb (fun l => from_user g userId l) (incoming g LIKES_COMMENT ck).

(** The interpolated [isLiked] column: the [exists] pattern when [userId]
    is truthy, the literal [false] otherwise. *)
Definition isLiked_column (g : Graph) (userId : option string) (ck : nat)
  : bool :=
  match userId with
  | Some uid => if Js.truthy uid then liked_by g uid ck else false
  | None => false
  end.

Definition getCommentsForTweet_query (tweetId : string)
           (userId : option string) (g : Graph)
  : list (Row * nat * bool) :=
  let rows := comment_rows tweetId g in
  let expanded := flat_map (optional_likes g) rows in
  map (fun x => (x, count_distinct_likes x expanded,
                 isLiked_column g userId (fst (row_c x))))
      (group_heads rows []).

(** [{ ...commentNode, likesCount, isLiked }]. *)
Definition with_likes (commentNode : CommentNode) (likesCount : nat)
           (isLiked : bool) : CommentNode :=
  mkCommentNode (c_id commentNode) (c_text commentNode)
                (c_authorId commentNode) (c_tweetId commentNode)
                (c_createdAt commentNode) (c_updatedAt commentNode)
                (Some isLiked) (Some (Z.of_nat likesCount)).

(** The callback of [commentsResult.records.map]. *)
Definition toComment (record : Row * nat * bool) : Comment.t :=
  match record with
  | (row, likeCount, isLiked) =>
      mapComment (with_likes (snd (row_c row)) likeCount isLiked)
                 (snd (row_u row)) (snd (row_t row))
  end.

Definition getCommentsForTweet (tweetId : string) (userId : option string)
  : Async (list Comment.t) :=
  withSession
    (transaction
       (commentsResult <-
          query (getCommentsForTweet_query tweetId userId) ;;
        ret (map toComment commentsResult))).

(** ** likeComment, unlikeComment *)

(** [(u:User {id: $userId})-[r:LIKES_COMMENT]->(c:Comment {id: $commentId})]. *)
Definition is_like (g : Graph) (userId commentId : string) (r : Rel)
  : bool :=
  RelationshipType_eqb (rtype r) LIKES_COMMENT
  && from_user g userId r && to_comment g commentId r.

Definition existingLike_query (userId commentId : string) (g : Graph)
  : list Rel :=
  filter (is_like g userId commentId) (rels g).

(** [MATCH (u:User {id: $userId}), (c:Comment {id: $commentId})
     CREATE (u)-[r:LIKES_COMMENT]->(c)]. *)
Definition createLike_query (userId commentId : string) (g : Graph)
  : unit * Graph :=
  (tt, create_rels LIKES_COMMENT DVundefined
         (list_prod (map fst (users_by_id g userId))
                    (map fst (comments_by_id g commentId))) g).

Definition likeComment (commentId userId : string) : Async bool :=
  withSession
    (transaction
       (existingLike <- query (existingLike_query userId commentId) ;;
        if 0 <? List.length existingLike then ret false
        else
          update (createLike_query userId commentId) ;;;
          ret true)).

(** [MATCH (u:User {id: $userId})-[r:LIKES_COMMENT]->
           (c:Comment {id: $commentId}) DELETE r]. *)
Definition deleteLike_query (userId commentId : string) (g : Graph)
  : unit * Graph :=
  (tt, delete_rels (is_like g userId commentId) g).

Definition unlikeComment (commentId userId : string) : Async bool :=
  withSession
    (transaction
       (existingLike <- query (existingLike_query userId commentId) ;;
        if List.length existingLike =? 0 then ret false
        else
          update (deleteLike_query userId commentId) ;;;
          ret true)).

(** ** createComment, deleteComment *)

(** [MATCH (u:User {id: $authorId}), (t:Tweet {id: $tweetId})
     CREATE (c:Comment {id: randomUUID(), text: $text,
                        authorId: $authorId, tweetId: $tweetId,
                        createdAt: datetime(), updatedAt: datetime()})
     CREATE (u)-[:POSTED]->(c)
     CREATE (c)-[:COMMENTS_ON]->(t)
     RETURN c, u, t]: the statement of [commentOnTweet] with the [tweetId]
    property set. *)
Definition createComment_query (datetime : Temporal)
           (text authorId tweetId : string) (g : Graph)
  : list (CommentNode * UserNode * TweetNode) * Graph :=
  TweetService.createComment_rows datetime text authorId (Some tweetId)
    (list_prod (users_by_id g authorId) (tweets_by_id g tweetId)) g.

(** [createCommentResult.records[0].get('c')] is read without a check:
    with no record it reads a property of [undefined], which throws a
    [TypeError]. *)
Definition createComment (datetime : Temporal)
           (text authorId tweetId : string) : Async Comment.t :=
  withSession
    (transaction
       (createCommentResult <-
          update (createComment_query datetime text authorId tweetId) ;;
        match createCommentResult with
        | [] =>
            throw (Js.mkError
                     "Cannot read properties of undefined (reading 'get')")
        | (commentNode, authorNode, tweetNode) :: _ =>
            ret (mapComment commentNode authorNode tweetNode)
        end)).

(** [MATCH (u:User {id: $userId})-[:POSTED]->(c:Comment {id: $commentId})
     RETURN c]. *)
Definition ownedComment_query (userId commentId : string) (g : Graph)
  : list Rel :=
  filter (fun r => RelationshipType_eqb (rtype r) POSTED
                   && from_user g userId r && to_comment g commentId r)
         (rels g).

Definition is_comment_with (commentId : string) (n : Node) : bool :=
  match props n with
  | Comment c => String.eqb (c_id c) commentId
  | _ => false
  end.

(** [MATCH (c:Comment {id: $commentId}) DETACH DELETE c]: the matched nodes
    go together with every relationship that starts or ends at one of
    them. *)
Definition detachDelete_query (commentId : string) (g : Graph)
  : unit * Graph :=
  let doomed := map fst (comments_by_id g commentId) in
  (tt, delete_nodes (is_comment_with commentId)
         (delete_rels (fun r => existsb (Nat.eqb (rfrom r)) doomed
                                || existsb (Nat.eqb (rto r)) doomed) g)).

Definition deleteComment (commentId userId : string) : Async bool :=
  withSession
    (transaction
       (commentResult <- query (ownedComment_query userId commentId) ;;
        if List.length commentResult =? 0 then
          throw (Js.ApolloError "Comment not found or not authorized"
                                None None)
        else
          update (detachDelete_query commentId) ;;;
          ret true)).

End Service.

End CommentService.

(* ===================================================================== *)
(** * UserResolver: the follow mutation *)
(* ===================================================================== *)

Module UserResolver.

Import Session.
Local Open Scope async_scope.

(** [Context] of [types/context]: the caller the middleware resolved, if
    any. *)
Record Context : Type := mkContext {
  user : option User.t
}.

Record FollowUserInput : Type := mkFollowUserInput {
  targetUserId : string
}.

Section Resolver.

(** The two methods of the user service that the mutation calls.  The
    user service is no part of the sources at hand; the resolver is
    embedded over any behaviour of these two. *)
Variable FollowResult : Type.
Variable userService_getFollowings : string -> Async (list User.t).
Variable userService_followUser : string -> string -> Async FollowResult.

Definition followUser (context : Context) (input : FollowUserInput)
  : Async bool :=
  try_catch
    (match option_map User.id (user context) with
     | None =>
         throw (Js.ApolloError "Authentication required"
                               (Some "UNAUTHORIZED") None)
     | Some userId =>
         if negb (Js.truthy userId) then
           throw (Js.ApolloError "Authentication required"
                                 (Some "UNAUTHORIZED") None)
         else if String.eqb userId (targetUserId input) then
           throw (Js.ApolloError "Cannot follow yourself"
                                 (Some "INVALID_OPERATION") None)
         else
           existingFollow <- userService_getFollowings userId ;;
           if existsb (fun f => String.eqb (User.id f)
                                           (targetUserId input))
                      existingFollow then
             throw (Js.ApolloError "Already following this user"
                                   (Some "ALREADY_FOLLOWING") None)
           else
             userService_followUser (targetUserId input) userId ;;;
             ret true
     end)
    (fun error =>
       throw (Js.ApolloError "Failed to follow user"
                             (Some "FOLLOW_ERROR") (Some error))).

End Resolver.

Module UnfollowUserInput.
Record t : Type := mk {
  targetUserId : string
}.
End UnfollowUserInput.

Section Unfollow.

(** The method of the user service behind the unfollow mutation, taken
    like the two above. *)
Variable UnfollowResult : Type.
Variable userService_unfollowUser
  : string -> string -> Async UnfollowResult.

Definition unfollowUser (context : Context) (input : UnfollowUserInput.t)
  : Async bool :=
  try_catch
    (match option_map User.id (user context) with
     | None =>
         throw (Js.ApolloError "Authentication required"
                               (Some "UNAUTHORIZED") None)
     | Some userId =>
         if negb (Js.truthy userId) then
           throw (Js.ApolloError "Authentication required"
                                 (Some "UNAUTHORIZED") None)
         else if String.eqb userId (UnfollowUserInput.targetUserId input)
         then
           throw (Js.ApolloError "Cannot unfollow yourself"
                                 (Some "INVALID_OPERATION") None)
         else
           userService_unfollowUser (UnfollowUserInput.targetUserId input)
                                    userId ;;;
           ret true
     end)
    (fun error =>
       throw (Js.ApolloError "Failed to unfollow user"
                             (Some "UNFOLLOW_USER_ERROR") (Some error))).

End Unfollow.

(** [LoginResponse] and [RegisterResponse]: a user and a token. *)
Module LoginResponse.
Record t : Type := mk {
  user : User.t;
  token : string
}.
End LoginResponse.

Module RegisterResponse.
Record t : Type := mk {
  user : User.t;
  token : string
}.
End RegisterResponse.

(** [catch (error) { if (error instanceof ApolloError) throw error;
    throw new ApolloError(message, code, { originalError: error }) }]. *)
Definition rethrow_or_wrap {A : Type} (message code : string)
           (body : Async A) : Async A :=
  try_catch body
    (fun error =>
       match error with
       | Js.ApolloError _ _ _ => throw error
       | Js.mkError _ =>
           throw (Js.ApolloError message (Some code) (Some error))
       end).

Section Accounts.

(** The methods of the user service behind the account mutations, taken
    like those above, and [signJwt] of [utils/jwt], which is given the
    [id] of its payload and returns the token or throws.  The input type
    of the registration and the result type of [createUser] are no part of
    the sources at hand either: the resolver reads the [username] of the
    one and the [user] of the other. *)
Variable userService_validatePassword
  : string -> string -> Async (option User.t).
Variable userService_findUserByUsername : string -> Async (option User.t).
Variable CreateUserInput : Type.
Variable CreateUserInput_username : CreateUserInput -> string.
Variable CreateUserResult : Type.
Variable CreateUserResult_user : CreateUserResult -> User.t.
Variable userService_createUser : CreateUserInput -> Async CreateUserResult.
Variable userService_deleteUser : string -> Async bool.
Variable signJwt : string -> Outcome string.

(** The call settles with the response and with the context as the
    assignment [context.user = user] leaves it. *)
Definition loginUser (username password : string) (context : Context)
  : Async (LoginResponse.t * Context) :=
  rethrow_or_wrap "Login failed" "LOGIN_ERROR"
    (user <- userService_validatePassword username password ;;
     match user with
     | None =>
         throw (Js.ApolloError "Invalid credentials"
                               (Some "INVALID_CREDENTIALS") None)
     | Some u =>
         token <- (fun g => (signJwt (User.id u), g)) ;;
         ret (LoginResponse.mk u token, mkContext (Some u))
     end).

Definition registerUser (input : CreateUserInput) (context : Context)
  : Async (RegisterResponse.t * Context) :=
  rethrow_or_wrap "Registration failed" "REGISTRATION_ERROR"
    (existingUser <-
       userService_findUserByUsername (CreateUserInput_username input) ;;
     match existingUser with
     | Some _ =>
         throw (Js.ApolloError "Username already exists"
                               (Some "USER_EXISTS") None)
     | None =>
         user <- userService_createUser input ;;
         token <- (fun g => (signJwt (User.id (CreateUserResult_user user)),
                             g)) ;;
         ret (RegisterResponse.mk (CreateUserResult_user user) token,
              mkContext (Some (CreateUserResult_user user)))
     end).

(** The call settles with its value and with the names of the cookies it
    clears on the response. *)
Definition deleteUser (userId password : string) (context : Context)
  : Async (bool * list string) :=
  rethrow_or_wrap "Failed to delete user account" "USER_DELETION_FAILED"
    (match user context with
     | None =>
         throw (Js.ApolloError "Authentication required"
                               (Some "UNAUTHENTICATED") None)
     | Some currentUser =>
         if negb (String.eqb (User.id currentUser) userId) then
           throw (Js.ApolloError "You can only delete your own account"
                                 (Some "FORBIDDEN") None)
         else
           user <- userService_validatePassword
                     (User.username currentUser) password ;;
           match user with
           | None =>
               throw (Js.ApolloError "Invalid password"
                                     (Some "INVALID_CREDENTIALS") None)
           | Some _ =>
               result <- userService_deleteUser userId ;;
               if negb result then
                 throw (Js.ApolloError
                          "User not found or could not be deleted"
                          (Some "USER_DELETION_FAILED") None)
               else ret (true, ["token"])
           end
     end).

End Accounts.

End UserResolver.

(* ===================================================================== *)
(** * TweetResolver *)
(* ===================================================================== *)

(** The input types of [tweet.model.ts]. *)
Module CreateTweetInput.
Record t : Type := mk {
  text : string;
  media : option (list string)
}.
End CreateTweetInput.

Module UpdateTweetInput.
Record t : Type := mk {
  id : string;
  text : option string;
  media : option (list string)
}.
End UpdateTweetInput.

Module LikeTweetInput.
Record t : Type := mk {
  tweetId : string
}.
End LikeTweetInput.

Module UnlikeTweetInput.
Record t : Type := mk {
  tweetId : string
}.
End UnlikeTweetInput.

Module DeleteTweetInput.
Record t : Type := mk {
  id : string;
  authorId : string
}.
End DeleteTweetInput.

Module CommentOnTweetInput.
Record t : Type := mk {
  tweetId : string;
  text : string
}.
End CommentOnTweetInput.

(** The bodies of the resolver methods.  The [@Authorized()] decorator
    runs the [authChecker] of the schema before a body and is no part of
    it; [now] and [datetime] stand for the clock readings of the calls a
    body makes. *)
Module TweetResolver.

Import Session.
Local Open Scope async_scope.

Section Resolver.

Context {platform : Platform}.

Definition wrap {A : Type} (message code : string) (body : Async A)
  : Async A :=
  try_catch body
    (fun error =>
       throw (Js.ApolloError message (Some code) (Some error))).

(** [context.user?.id], as a value that is falsy when the user or the id
    is missing or the id is empty. *)
Definition callerId (context : UserResolver.Context) : option string :=
  match option_map User.id (UserResolver.user context) with
  | Some userId => if Js.truthy userId then Some userId else None
  | None => None
  end.

Definition listTweets : Async (list Tweet.t) :=
  wrap "Failed to fetch tweets" "TWEET_FETCH_ERROR" TweetService.listTweets.

Definition listUserTweets (userId : string) : Async (list Tweet.t) :=
  wrap "Failed to fetch user tweets" "USER_TWEETS_FETCH_ERROR"
       (TweetService.listUserTweets userId).

Definition listLikedTweets (userId : string) : Async (list Tweet.t) :=
  wrap "Failed to fetch liked tweets" "LIKED_TWEETS_FETCH_ERROR"
       (TweetService.listLikedTweets userId).

Definition listTimelineTweets (userId : string) : Async (list Tweet.t) :=
  wrap "Failed to fetch timeline tweets" "TIMELINE_FETCH_ERROR"
       (TweetService.listTimelineTweets userId).

Definition createTweet (now : Js.Date) (datetime : Neo4j.Temporal)
           (context : UserResolver.Context) (input : CreateTweetInput.t)
  : Async Tweet.t :=
  wrap "Failed to create tweet" "TWEET_CREATION_ERROR"
    (if negb (Js.truthy (Js.trim (CreateTweetInput.text input))) then
       throw (Js.mkError "Tweet text cannot be empty")
     else
       match callerId context with
       | None =>
           throw (Js.ApolloError "Authentication required"
                                 (Some "UNAUTHORIZED") None)
       | Some authorId =>
           TweetService.createTweet now datetime
             (CreateTweetInput.text input)
             (Js.nullish (CreateTweetInput.media input) [])
             authorId
       end).

Definition likeTweet (datetime : Neo4j.Temporal)
           (context : UserResolver.Context) (input : LikeTweetInput.t)
  : Async bool :=
  wrap "Failed to like tweet" "LIKE_ERROR"
    (match callerId context with
     | None =>
         throw (Js.ApolloError "Authentication required"
                               (Some "UNAUTHORIZED") None)
     | Some userId =>
         TweetService.likeTweet datetime (LikeTweetInput.tweetId input)
                                userId
     end).

Definition unlikeTweet (context : UserResolver.Context)
           (input : UnlikeTweetInput.t) : Async bool :=
  wrap "Failed to unlike tweet" "UNLIKE_ERROR"
    (match callerId context with
     | None =>
         throw (Js.ApolloError "Authentication required"
                               (Some "UNAUTHORIZED") None)
     | Some userId =>
         TweetService.unlikeTweet (UnlikeTweetInput.tweetId input) userId
     end).

Definition fetchTweet (now : Js.Date) (id : string)
  : Async (option Tweet.t) :=
  wrap "Failed to fetch tweet" "TWEET_FETCH_ERROR"
       (TweetService.fetchTweet now id).

Definition deleteTweet (now : Js.Date) (input : DeleteTweetInput.t)
  : Async bool :=
  wrap "Failed to delete tweet" "TWEET_DELETION_ERROR"
    (tweet <- TweetService.fetchTweet now (DeleteTweetInput.id input) ;;
     match tweet with
     | None => throw (Js.mkError "Tweet not found")
     | Some tw =>
         if negb (String.eqb (Tweet.authorId tw)
                             (DeleteTweetInput.authorId input)) then
           throw (Js.mkError
                    "Unauthorized: You can only delete your own tweets")
         else
           TweetService.deleteTweet (DeleteTweetInput.id input) ;;;
           ret true
     end).

Definition commentOnTweet (now : Js.Date) (datetime : Neo4j.Temporal)
           (context : UserResolver.Context) (input : CommentOnTweetInput.t)
  : Async (option Tweet.t) :=
  wrap "Failed to add comment" "COMMENT_ERROR"
    (match callerId context with
     | None =>
         throw (Js.ApolloError "Authentication required"
                               (Some "UNAUTHORIZED") None)
     | Some userId =>
         tweet <- TweetService.fetchTweet now
                    (CommentOnTweetInput.tweetId input) ;;
         match tweet with
         | None => throw (Js.mkError "Tweet not found")
         | Some _ =>
             TweetService.commentOnTweet now datetime
               (CommentOnTweetInput.text input) userId
               (CommentOnTweetInput.tweetId input) ;;;
             TweetService.fetchTweet now (CommentOnTweetInput.tweetId input)
         end
     end).

End Resolver.

Section Update.

(** [updateTweet] of the tweet service, taken as it comes: the resolver is
    embedded over any behaviour of it. *)
Variable tweetService_updateTweet
  : string -> string -> list string -> Async (option Tweet.t).

Definition updateTweet (input : UpdateTweetInput.t)
  : Async (option Tweet.t) :=
  wrap "Failed to update tweet" "TWEET_UPDATE_ERROR"
    (if negb (match UpdateTweetInput.text input with
              | Some text => Js.truthy (Js.trim text)
              | None => false
              end)
        && negb (match UpdateTweetInput.media input with
                 | Some media => 0 <? List.length media
                 | None => false
                 end)
     then
       throw (Js.mkError
          "At least one field (text or media) must be provided for update")
     else
       result <- tweetService_updateTweet
                   (UpdateTweetInput.id input)
                   (Js.or_string (UpdateTweetInput.text input) "")
                   (Js.nullish (UpdateTweetInput.media input) []) ;;
       match result with
       | None => throw (Js.mkError "Tweet not found or update failed")
       | Some tw => ret (Some tw)
       end).

End Update.

End TweetResolver.

(* ===================================================================== *)
(** * Neo4jService *)
(* ===================================================================== *)

Module Neo4jService.

Import Neo4j Session.
Local Open Scope async_scope.

(** The [id] property of a node of any label. *)
Definition node_id (n : Node) : string :=
  match props n with
  | User u => u_id u
  | Tweet t => t_id t
  | Comment c => c_id c
  end.

Definition nodes_by_id (g : Graph) (id : string) : list Node :=
  filter (fun n => String.eqb (node_id n) id) (nodes g).

(** The node at an end of a relationship carries this [id]. *)
Definition end_has_id (g : Graph) (id : string) (k : nat) : bool :=
  match node_at g k with
  | Some n => String.eqb (node_id n) id
  | None => false
  end.

(** [MATCH (u:User {id: $id}) RETURN u] in a read transaction; the first
    record or null. *)
Definition findUserById (id : string) : Async (option UserNode) :=
  try_catch
    (transaction
       (queryResult <- query (fun g => users_by_id g id) ;;
        match queryResult with
        | [] => ret None
        | (_, u) :: _ => ret (Some u)
        end))
    (fun error =>
       throw (Js.mkError (String.append "Failed to find user: "
                                        (Js.message error)))).

(** [MATCH (u:User {username: $username}) RETURN u]. *)
Definition findUserByUsername (username : string)
  : Async (option UserNode) :=
  try_catch
    (transaction
       (queryResult <-
          query (fun g => filter (fun p => String.eqb (u_username (snd p))
                                                      username)
                                 (users g)) ;;
        match queryResult with
        | [] => ret None
        | (_, u) :: _ => ret (Some u)
        end))
    (fun error =>
       throw (Js.mkError (String.append "Failed to find user: "
                                        (Js.message error)))).

(** [MATCH (a), (b) WHERE a.id = $fromId AND b.id = $toId
     CREATE (a)-[r:relType $props]->(b) RETURN r] with
    [props.createdAt = new Date().toISOString()], given here as
    [isoNow]; the call returns the relationships created. *)
Definition createRelationship (isoNow : string) (fromId toId : string)
           (relType : RelationshipType) : Async (list Rel) :=
  transaction
    (update
       (fun g =>
          let g' := create_rels relType (DVString isoNow)
                      (list_prod (map nid (nodes_by_id g fromId))
                                 (map nid (nodes_by_id g toId))) g in
          (skipn (List.length (rels g)) (rels g'), g'))).

(** [(a {id: $fromId})-[r:relType]->(b {id: $toId})]. *)
Definition is_relationship (g : Graph) (fromId toId : string)
           (relType : RelationshipType) (r : Rel) : bool :=
  RelationshipType_eqb (rtype r) relType
  && end_has_id g fromId (rfrom r) && end_has_id g toId (rto r).

(** [MATCH (a {id: $fromId})-[r:relType]->(b {id: $toId}) DELETE r]. *)
Definition deleteRelationship (fromId toId : string)
           (relType : RelationshipType) : Async unit :=
  try_catch
    (transaction
       (update (fun g => (tt, delete_rels
                                (is_relationship g fromId toId relType) g))))
    (fun error =>
       throw (Js.mkError (String.append "Failed to delete relationship: "
                                        (Js.message error)))).

End Neo4jService.

(* ===================================================================== *)
(** * The caller of a request *)
(* ===================================================================== *)

Module Auth.

Import Neo4j.

(** [String.prototype.split] with a one-character separator. *)
Fixpoint split (sep : ascii) (s : string) : list string :=
  match s with
  | EmptyString => [EmptyString]
  | String c s' =>
      if Ascii.eqb c sep then EmptyString :: split sep s'
      else
        match split sep s' with
        | [] => [String c EmptyString]
        | w :: ws => String c w :: ws
        end
  end.

(** The two places of a request where the token is looked for. *)
Record Request : Type := mkRequest {
  authorization : option string;
  cookies_token : option string
}.

(** [req.headers.authorization?.split(" ")[1] || req.cookies?.token]. *)
Definition token (req : Request) : option string :=
  match match authorization req with
        | Some header => nth_error (split " "%char header) 1
        | None => None
        end with
  | Some t => if Js.truthy t then Some t else cookies_token req
  | None => cookies_token req
  end.

(** What [verifyJwt] hands back for a token it accepts: the decoded
    payload, of which only [id] is read. *)
Record Decoded : Type := mkDecoded {
  id : option string
}.

(** [MATCH (u:User {id: $id}) RETURN u], where a missing [id] goes as null
    and matches nothing. *)
Definition userData (decoded : Decoded) (g : Graph)
  : list (nat * UserNode) :=
  match id decoded with
  | Some i => users_by_id g i
  | None => []
  end.

(** The outcome of the middleware: a response, or the call of [next] with
    the user attached to the request. *)
Inductive Outcome : Type :=
| Respond (status : nat) (message : string)
| Next (user : UserNode).

Section Verify.

(** [verifyJwt] of [utils/jwt]: the payload, or null for a token that the
    library rejects. *)
Variable verifyJwt : string -> option Decoded.

(** [authenticateUser] of [authMiddleware.ts].  Its [catch] answers 401
    "Authentication failed." when the session or the query throws, which
    a query on the graph here never does. *)
Definition authenticateUser (req : Request) (g : Graph) : Outcome :=
  match token req with
  | None => Respond 401 "Authentication required. No token provided."
  | Some t =>
      if negb (Js.truthy t) then
        Respond 401 "Authentication required. No token provided."
      else
        match verifyJwt t with
        | None => Respond 401 "Invalid or expired token."
        | Some decoded =>
            match userData decoded g with
            | [] => Respond 401 "User not found."
            | (_, u) :: _ => Next u
            end
        end
  end.

(** The [user] that the [context] function of [index.ts] puts into the
    GraphQL context. *)
Definition contextUser (req : Request) (g : Graph) : option UserNode :=
  match token req with
  | None => None
  | Some t =>
      if Js.truthy t then
        match verifyJwt t with
        | Some decoded =>
            match userData decoded g with
            | [] => None
            | (_, u) :: _ => Some u
            end
        | None => None
        end
      else None
  end.

End Verify.

End Auth.

(* ===================================================================== *)
(** * A concrete platform and a small graph *)
(* ===================================================================== *)

Module Example.

Import Neo4j.

(** A stand-in clock arithmetic: months of 31 days, which is monotone in
    the fields and enough to run the services on concrete dates. *)
Definition fields_ms (y m d h mi s ms : Z) : Z :=
  ((((((y * 12 + m) * 31 + d) * 24 + h) * 60 + mi) * 60 + s) * 1000 + ms)%Z.

Definition temporal_ms (t : Temporal) : Z :=
  fields_ms (year t) (month t - 1) (day t)
            (Js.nullish (hour t) 0%Z) (Js.nullish (minute t) 0%Z)
            (Js.nullish (second t) 0%Z)
            (Z.quot (Js.nullish (nanosecond t) 0%Z) 1000000).

(** The sort key of a date property under the stand-in: temporal values by
    their instant, everything else first. *)
Definition sort_key (v : DateValue) : option Z :=
  match v with
  | DVTemporal t => Some (temporal_ms t)
  | _ => None
  end.

Definition example_desc_leb (a b : DateValue) : bool :=
  match sort_key a, sort_key b with
  | Some x, Some y => (y <=? x)%Z
  | None, _ => true
  | Some _, None => false
  end.

Fixpoint digits (fuel n : nat) (acc : string) : string :=
  match fuel with
  | O => acc
  | S fuel' =>
      let acc' := String (ascii_of_nat (48 + n mod 10)) acc in
      if n / 10 =? 0 then acc' else digits fuel' (n / 10) acc'
  end.

Definition example_uuid (k : nat) : string :=
  String.append "uuid-" (digits (S k) k "").

(** Under the stand-in a temporal value prints as its instant in decimal,
    and a string parses when it is such a number. *)
Definition example_toString (t : Temporal) : string :=
  NilZero.string_of_int (Z.to_int (temporal_ms t)).

Definition example_parse (s : string) : option Z :=
  option_map Z.of_int (NilZero.int_of_string s).

Definition platform : Platform :=
  mkPlatform example_parse
             (fun y m d h mi s ms => Js.Valid (fields_ms y m d h mi s ms))
             example_toString
             example_uuid
             example_desc_leb.

Definition at_noon (d : Z) : Temporal :=
  mkTemporal 2024 1 d (Some 12%Z) (Some 0%Z) (Some 0%Z) (Some 0%Z).

Definition person (id username : string) : UserNode :=
  mkUserNode id username username None None None None None
             (DVTemporal (at_noon 1)) (DVTemporal (at_noon 1)).

Definition alice : UserNode := person "u1" "alice".
Definition bob : UserNode := person "u2" "bob".
Definition carol : UserNode := person "u3" "carol".

(** Three users and nothing else. *)
Definition three_users : Graph :=
  mkGraph [mkNode 0 (User alice); mkNode 1 (User bob); mkNode 2 (User carol)]
          [] 3.

Definition now : Js.Date := Js.Valid 1000000.

(** The graph after a call, whatever the call settled with. *)
Definition after {A : Type} (call : Session.Async A) (g : Graph) : Graph :=
  snd (call g).

(** Bob posts the tweet [hello]: the tweet node gets identity 3 and the id
    [uuid-3]. *)
Definition bob_tweeted : Graph :=
  after (TweetService.createTweet (platform := platform) now (at_noon 2)
           "hello" [] "u2") three_users.

(** Alice posts as well, and follows nobody. *)
Definition both_tweeted : Graph :=
  after (TweetService.createTweet (platform := platform) now (at_noon 3)
           "hi all" [] "u1") bob_tweeted.

(** Alice likes Bob's tweet. *)
Definition alice_liked : Graph :=
  after (TweetService.likeTweet (at_noon 4) "uuid-3" "u1") bob_tweeted.

(** Carol comments on it: the comment node gets identity 6 and the id
    [uuid-6]. *)
Definition carol_commented : Graph :=
  after (TweetService.commentOnTweet (platform := platform) now (at_noon 5)
           "nice" "u3" "uuid-3") alice_liked.

(** Alice and Bob like the comment. *)
Definition comment_liked : Graph :=
  after (CommentService.likeComment "uuid-6" "u2")
        (after (CommentService.likeComment "uuid-6" "u1") carol_commented).

(** A tweet node without dates, as the unit test of [listUserTweets] has
    them, and one whose [createdAt] is a string that is no timestamp. *)
Definition undated_tweet : TweetNode :=
  mkTweetNode "tweet1" "First tweet" None "u1" None None None
              DVundefined DVundefined None.

Definition misdated_tweet : TweetNode :=
  mkTweetNode "tweet2" "Second tweet" None "u1" None None None
              (DVString "yesterday") (DVString "yesterday") None.

Definition odd_dates : Graph :=
  mkGraph [mkNode 0 (User alice); mkNode 1 (Tweet undated_tweet);
           mkNode 2 (Tweet misdated_tweet)]
          [mkRel 3 POSTED 0 1 DVundefined; mkRel 4 POSTED 0 2 DVundefined]
          5.

(** A user service for running the follow mutation: nobody follows
    anybody, and following writes the FOLLOWS relationship between the
    first user nodes carrying the two ids. *)
Definition example_getFollowings (userId : string)
  : Session.Async (list User.t) :=
  Session.ret [].

Definition example_followUser (targetUserId userId : string)
  : Session.Async unit :=
  Session.update
    (fun g =>
       (tt, create_rels FOLLOWS DVundefined
              (list_prod (map fst (users_by_id g userId))
                         (map fst (users_by_id g targetUserId))) g)).

Definition alice_caller : User.t :=
  User.mk "u1" "alice" "alice" None "" "".

(** Alice, who has posted, follows Bob and Carol. *)
Definition alice_follows_two : Graph :=
  after (example_followUser "u3" "u1")
        (after (example_followUser "u2" "u1") both_tweeted).

(** Bob's tweet is linked to Carol's comment by a HAS_COMMENT
    relationship that starts at the tweet. *)
Definition tweet_has_comment : Graph :=
  after (Neo4jService.createRelationship "2024-01-06T12:00:00.000Z"
           "uuid-3" "uuid-6" HAS_COMMENT) carol_commented.

(** A user service for the account mutations: one password opens every
    account and gives Alice, deleting a user removes the user nodes with
    the id, and a token names the id it is signed for. *)
Definition example_validatePassword (username password : string)
  : Session.Async (option User.t) :=
  Session.ret (if String.eqb password "secret" then Some alice_caller
               else None).

Definition example_deleteUser (userId : string) : Session.Async bool :=
  Session.update
    (fun g =>
       (true,
        delete_nodes (fun n => match props n with
                               | User u => String.eqb (u_id u) userId
                               | _ => false
                               end) g)).

Definition example_signJwt (id : string) : Session.Outcome string :=
  Session.Return (String.append "token-for-" id).

(** A tweet service that finds no tweet to update. *)
Definition example_updateTweet (id text : string) (media : list string)
  : Session.Async (option Tweet.t) :=
  Session.ret None.

(** A verifier that accepts one token, for Alice. *)
Definition example_verifyJwt (token : string) : option Auth.Decoded :=
  if String.eqb token "alice-token" then Some (Auth.mkDecoded (Some "u1"))
  else None.

End Example.

(* ===================================================================== *)
(** * Facts about lists and about the store *)
(* ===================================================================== *)

Import Neo4j Session.

Lemma filter_none_nil {A : Type} (f : A -> bool) (l : list A) :
  filter f l = [] -> filter (fun x => negb (f x)) l = l.
Proof.
  induction l as [|x l IH]; simpl; [reflexivity|].
  destruct (f x); simpl; [discriminate|].
  intros H. now rewrite IH.
Qed.

Lemma existsb_false_forall {A : Type} (f : A -> bool) (l : list A) :
  existsb f l = false -> forall x, In x l -> f x = false.
Proof.
  intros H x Hx. destruct (f x) eqn:E; [|reflexivity].
  rewrite <- H. symmetry. apply existsb_exists. now exists x.
Qed.

Lemma insert_by_In {A : Type} (leb : A -> A -> bool) (x y : A) (l : list A) :
  In y (insert_by leb x l) <-> y = x \/ In y l.
Proof.
  induction l as [|z l IH]; simpl.
  - intuition.
  - destruct (leb x z); simpl; [intuition|].
    rewrite IH. intuition.
Qed.

Lemma orderBy_In {A : Type} (leb : A -> A -> bool) (y : A) (l : list A) :
  In y (orderBy leb l) <-> In y l.
Proof.
  induction l as [|x l IH]; simpl; [tauto|].
  unfold orderBy in *. simpl. rewrite insert_by_In, IH. intuition.
Qed.

Lemma node_at_In (g : Graph) (k : nat) (n : Node) :
  node_at g k = Some n -> In n (nodes g) /\ nid n = k.
Proof.
  unfold node_at. intros H. apply find_some in H.
  destruct H as [H1 H2]. apply Nat.eqb_eq in H2. tauto.
Qed.

Lemma tweet_at_In (g : Graph) (k : nat) (t : TweetNode) :
  tweet_at g k = Some t -> In (mkNode k (Tweet t)) (nodes g).
Proof.
  unfold tweet_at. destruct (node_at g k) as [[k' p]|] eqn:E; [|discriminate].
  apply node_at_In in E. simpl in E. destruct E as [E1 E2]. subst k'.
  destruct p; try discriminate. intros H. injection H as ->. exact E1.
Qed.

Lemma tweets_In (g : Graph) (k : nat) (t : TweetNode) :
  In (k, t) (tweets g) <-> In (mkNode k (Tweet t)) (nodes g).
Proof.
  unfold tweets. rewrite in_flat_map. split.
  - intros [[k' p] [H1 H2]]. simpl in H2. destruct p; simpl in H2; try tauto.
    destruct H2 as [H2|[]]. injection H2 as -> ->. exact H1.
  - intros H. exists (mkNode k (Tweet t)). simpl. tauto.
Qed.


Lemma length_pos_nonnil {A : Type} (l : list A) :
  l <> [] -> (0 <? List.length l) = true.
Proof. destruct l; [congruence | reflexivity]. Qed.

Lemma find_app {A : Type} (f : A -> bool) (l l' : list A) :
  find f (l ++ l') = match find f l with
                     | Some x => Some x
                     | None => find f l'
                     end.
Proof.
  induction l as [|x l IH]; simpl; [reflexivity|].
  destruct (f x); [reflexivity | exact IH].
Qed.

Lemma find_unique {A : Type} (key : A -> nat) (l : list A) (x : A) :
  NoDup (map key l) -> In x l -> find (fun y => key y =? key x) l = Some x.
Proof.
  induction l as [|y l IH]; simpl; [tauto|].
  intros Hnd [->|Hin].
  - now rewrite Nat.eqb_refl.
  - inversion Hnd as [|? ? Hy Hnd']; subst.
    destruct (key y =? key x) eqn:E.
    + apply Nat.eqb_eq in E. exfalso. apply Hy. rewrite E.
      now apply in_map.
    + now apply IH.
Qed.

(** Keys that are pairwise distinct stay so in a selection. *)
Lemma NoDup_map_filter (K V : Type) (key : V -> K) (keep : V -> bool) :
  forall vs : list V,
    NoDup (map key vs) -> NoDup (map key (filter keep vs)).
Proof.
  intros vs. induction vs as [|v vs IH]; simpl; intros Hnd.
  - constructor.
  - inversion Hnd as [|? ? Hv Hnd']; subst.
    destruct (keep v); simpl; [|now apply IH].
    constructor; [|now apply IH].
    intros Hin. apply Hv. apply in_map_iff in Hin.
    destruct Hin as [w [Hw Hin]]. apply filter_In in Hin.
    apply in_map_iff. exists w. tauto.
Qed.

Lemma NoDup_same_length {A : Type} (l l' : list A) :
  NoDup l -> NoDup l' -> (forall x, In x l <-> In x l') ->
  List.length l = List.length l'.
Proof.
  intros H H' Heq. apply Nat.le_antisymm.
  - apply NoDup_incl_length; [exact H|]. intros x. apply Heq.
  - apply NoDup_incl_length; [exact H'|]. intros x. apply Heq.
Qed.

Lemma users_In (g : Graph) (k : nat) (u : UserNode) :
  In (k, u) (users g) <-> In (mkNode k (User u)) (nodes g).
Proof.
  unfold users. rewrite in_flat_map. split.
  - intros [[k' p] [H1 H2]]. simpl in H2. destruct p; simpl in H2; try tauto.
    destruct H2 as [H2|[]]. injection H2 as -> ->. exact H1.
  - intros H. exists (mkNode k (User u)). simpl. tauto.
Qed.

Lemma comments_In (g : Graph) (k : nat) (c : CommentNode) :
  In (k, c) (comments g) <-> In (mkNode k (Comment c)) (nodes g).
Proof.
  unfold comments. rewrite in_flat_map. split.
  - intros [[k' p] [H1 H2]]. simpl in H2. destruct p; simpl in H2; try tauto.
    destruct H2 as [H2|[]]. injection H2 as -> ->. exact H1.
  - intros H. exists (mkNode k (Comment c)). simpl. tauto.
Qed.

Lemma node_at_unique (g : Graph) (n : Node) :
  NoDup (map nid (nodes g)) -> In n (nodes g) -> node_at g (nid n) = Some n.
Proof. intros Hnd Hin. unfold node_at. now apply find_unique. Qed.

Lemma user_at_unique (g : Graph) (k : nat) (u : UserNode) :
  wf g -> In (k, u) (users g) -> user_at g k = Some u.
Proof.
  intros Hwf Hin. apply users_In in Hin. unfold user_at.
  change k with (nid (mkNode k (User u))).
  rewrite node_at_unique; [reflexivity | apply Hwf | exact Hin].
Qed.

Lemma tweet_at_unique (g : Graph) (k : nat) (t : TweetNode) :
  wf g -> In (k, t) (tweets g) -> tweet_at g k = Some t.
Proof.
  intros Hwf Hin. apply tweets_In in Hin. unfold tweet_at.
  change k with (nid (mkNode k (Tweet t))).
  rewrite node_at_unique; [reflexivity | apply Hwf | exact Hin].
Qed.

Lemma comment_at_unique (g : Graph) (k : nat) (c : CommentNode) :
  wf g -> In (k, c) (comments g) -> comment_at g k = Some c.
Proof.
  intros Hwf Hin. apply comments_In in Hin. unfold comment_at.
  change k with (nid (mkNode k (Comment c))).
  rewrite node_at_unique; [reflexivity | apply Hwf | exact Hin].
Qed.

Lemma has_node_lt (g : Graph) (k : nat) :
  wf g -> has_node g k -> k < next g.
Proof.
  intros Hwf Hk. unfold has_node in Hk. apply in_map_iff in Hk.
  destruct Hk as [n [<- Hn]]. pose proof (wf_nid_lt Hwf) as Hlt.
  rewrite Forall_forall in Hlt. now apply Hlt.
Qed.

Lemma wf_ends_lt (g : Graph) (r : Rel) :
  wf g -> In r (rels g) -> rfrom r < next g /\ rto r < next g.
Proof.
  intros Hwf Hr. pose proof (wf_ends Hwf) as He.
  rewrite Forall_forall in He. destruct (He _ Hr) as [Ha Hb].
  split; now apply has_node_lt.
Qed.

(** Appending nodes whose identities lie at or above the counter does not
    change what sits at an identity below it. *)
Lemma node_at_app_fresh (g : Graph) (ns : list Node) (rs : list Rel)
      (m k : nat) :
  Forall (fun n => next g <= nid n) ns -> k < next g ->
  node_at (mkGraph (nodes g ++ ns) rs m) k = node_at g k.
Proof.
  intros Hns Hk. unfold node_at. simpl. rewrite find_app.
  destruct (find _ (nodes g)); [reflexivity|].
  destruct (find (fun n => nid n =? k) ns) as [n|] eqn:E; [|reflexivity].
  apply find_some in E. destruct E as [Hin E]. apply Nat.eqb_eq in E.
  rewrite Forall_forall in Hns. specialize (Hns _ Hin). lia.
Qed.

(** The relationships of a given type into a node, when relationships are
    appended. *)
Lemma incoming_app (g : Graph) (ns : list Node) (rs : list Rel) (m : nat)
      (ty : RelationshipType) (k : nat) :
  incoming (mkGraph ns (rels g ++ rs) m) ty k
  = incoming g ty k
    ++ filter (fun r => RelationshipType_eqb (rtype r) ty && (rto r =? k)) rs.
Proof. unfold incoming. simpl. apply filter_app. Qed.

Lemma create_rels_nodes (ty : RelationshipType) (dv : DateValue)
      (pairs : list (nat * nat)) (g : Graph) :
  nodes (create_rels ty dv pairs g) = nodes g.
Proof.
  unfold create_rels. revert g.
  induction pairs as [|p ps IH]; intros g; simpl; [reflexivity|].
  now rewrite IH.
Qed.

Lemma create_rels_rels (ty : RelationshipType) (dv : DateValue)
      (pairs : list (nat * nat)) (g : Graph) :
  exists rs,
    rels (create_rels ty dv pairs g) = rels g ++ rs
    /\ Forall (fun r => rtype r = ty /\ In (rfrom r, rto r) pairs) rs
    /\ Forall (fun p => exists r, In r rs /\ rfrom r = fst p /\ rto r = snd p)
              pairs.
Proof.
  unfold create_rels. revert g.
  induction pairs as [|p ps IH]; intros g; simpl.
  - exists []. rewrite app_nil_r. repeat split; constructor.
  - destruct (IH (create_rel ty (fst p) (snd p) dv g)) as [rs [H1 [H2 H3]]].
    exists (mkRel (next g) ty (fst p) (snd p) dv :: rs).
    rewrite H1. simpl. rewrite <- app_assoc. simpl.
    split; [reflexivity|]. split.
    + constructor.
      * simpl. split; [reflexivity|]. left. now destruct p.
      * eapply Forall_impl; [|exact H2]. simpl. intros r [Ha Hb]. tauto.
    + constructor.
      * eexists. split; [left; reflexivity|]. simpl. tauto.
      * eapply Forall_impl; [|exact H3]. simpl.
        intros q [r [Ha Hb]]. exists r. tauto.
Qed.

(* ===================================================================== *)
(** * Facts about the services *)
(* ===================================================================== *)

Section Facts.

Context {platform : Platform}.

(** ** deleteTweet *)

Lemma posted_In (g : Graph) (t : TweetNode) (u : UserNode) :
  In (t, u) (TweetService.posted g) ->
  exists k, In (mkNode k (Tweet t)) (nodes g).
Proof.
  unfold TweetService.posted. rewrite in_flat_map.
  intros [[k t'] [H1 H2]]. simpl in H2. apply in_map_iff in H2.
  destruct H2 as [u' [H2 _]]. injection H2 as -> ->.
  exists k. now apply tweets_In.
Qed.

(** C8.  When [deleteTweet] returns, the graph it leaves has no Tweet node
    with that id and no relationship that starts or ends at a node that
    was such a tweet, and neither [listTweets] nor [listLikedTweets] of any
    user returns a tweet with that id. *)
Theorem deleteTweet_leaves_no_trace :
  forall (tweetId : string) (g g' : Graph),
    TweetService.deleteTweet tweetId g = (Return true, g') ->
    (forall n, In n (nodes g') -> TweetService.is_tweet tweetId n = false)
    /\ (forall n r, In n (nodes g) -> TweetService.is_tweet tweetId n = true ->
                    In r (rels g') -> rfrom r <> nid n /\ rto r <> nid n)
    /\ (exists tws, TweetService.listTweets g' = (Return tws, g')
                    /\ Forall (fun tw => Tweet.id tw <> tweetId) tws)
    /\ (forall userId, exists tws,
           TweetService.listLikedTweets userId g' = (Return tws, g')
           /\ Forall (fun tw => Tweet.id tw <> tweetId) tws).
Proof.
  intros tweetId g g'.
  unfold TweetService.deleteTweet, TweetService.withSession, try_catch,
    transaction, bind, update, TweetService.deleteIncoming_query,
    TweetService.deleteNode_query, ret.
  set (g1 := delete_rels (to_tweet g tweetId) g).
  destruct (existsb (fun p => attached g1 (fst p)) (tweets_by_id g1 tweetId))
    eqn:Hatt; [discriminate|].
  intros H. injection H as <-.
  assert (Hgone : forall n, In n (nodes (delete_nodes (TweetService.is_tweet tweetId) g1)) ->
                            TweetService.is_tweet tweetId n = false).
  { intros n Hn. simpl in Hn. apply filter_In in Hn.
    destruct Hn as [_ Hn]. now apply negb_true_iff in Hn. }
  assert (Hid : forall k t, In (mkNode k (Tweet t))
                   (nodes (delete_nodes (TweetService.is_tweet tweetId) g1)) ->
                 t_id t <> tweetId).
  { intros k t Hn. apply Hgone in Hn. unfold TweetService.is_tweet in Hn.
    simpl in Hn. now apply String.eqb_neq. }
  split; [exact Hgone|]. split; [|split].
  - intros n r Hn Htw Hr. simpl in Hr.
    destruct n as [k p]. unfold TweetService.is_tweet in Htw. simpl in Htw.
    destruct p as [|t|]; try discriminate.
    assert (Hin : In (k, t) (tweets_by_id g1 tweetId)).
    { unfold tweets_by_id. apply filter_In. split; [|exact Htw].
      apply tweets_In. exact Hn. }
    pose proof (existsb_false_forall _ _ Hatt _ Hin) as Ha. simpl in Ha.
    unfold attached in Ha.
    pose proof (existsb_false_forall _ _ Ha _ Hr) as Hb. simpl in Hb.
    apply orb_false_iff in Hb. destruct Hb as [Hb1 Hb2].
    apply Nat.eqb_neq in Hb1, Hb2. simpl. tauto.
  - eexists. split; [reflexivity|].
    apply Forall_forall. intros tw Htw. apply in_map_iff in Htw.
    destruct Htw as [[t u] [<- Hin]]. simpl.
    unfold TweetService.listTweets_query in Hin. apply orderBy_In in Hin.
    apply posted_In in Hin. destruct Hin as [k Hin]. eapply Hid, Hin.
  - intros userId. eexists. split; [reflexivity|].
    apply Forall_forall. intros tw Htw. apply in_map_iff in Htw.
    destruct Htw as [[r [t u]] [<- Hin]]. simpl.
    unfold TweetService.listLikedTweets_query in Hin. apply orderBy_In in Hin.
    apply in_flat_map in Hin. destruct Hin as [r' [_ Hin]].
    destruct (tweet_at _ (rto r')) as [t'|] eqn:E; [|contradiction].
    apply in_map_iff in Hin. destruct Hin as [u' [Heq _]].
    injection Heq as _ -> _. apply tweet_at_In in E. eapply Hid, E.
Qed.


(** ** createTweet *)

Lemma tweets_app (ns ns' : list Node) (rs : list Rel) (m : nat) :
  tweets (mkGraph (ns ++ ns') rs m)
  = tweets (mkGraph ns rs m) ++ tweets (mkGraph ns' rs m).
Proof. unfold tweets. simpl. apply flat_map_app. Qed.

Lemma tweets_nodes (g g' : Graph) :
  nodes g' = nodes g -> tweets g' = tweets g.
Proof. unfold tweets. now intros ->. Qed.

Lemma createTweet_rows_grows (datetime : Temporal) (text : string)
      (media : list string) (authorId : string)
      (matched : list (nat * UserNode)) :
  forall (g : Graph) rows g',
    TweetService.createTweet_rows datetime text media authorId matched g
    = (rows, g') ->
    exists ns rs,
      nodes g' = nodes g ++ ns /\ rels g' = rels g ++ rs
      /\ Forall (fun n => next g <= nid n) ns
      /\ Forall (fun r => next g <= rto r) rs.
Proof.
  induction matched as [|[uk u] rest IH]; intros g rows g' H; simpl in H.
  - injection H as <- <-. exists [], []. rewrite !app_nil_r.
    repeat split; constructor.
  - destruct (TweetService.createTweet_rows _ _ _ _ rest _)
      as [rows' g3] eqn:E.
    injection H as <- <-.
    apply IH in E. destruct E as [ns [rs [H1 [H2 [H3 H4]]]]].
    simpl in H1, H2, H3, H4.
    eexists (_ :: ns), (_ :: rs).
    rewrite H1, H2, <- !app_assoc. simpl.
    split; [reflexivity|]. split; [reflexivity|]. split.
    + constructor; [simpl; lia|].
      eapply Forall_impl; [|exact H3]. simpl. intros; lia.
    + constructor; [simpl; lia|].
      eapply Forall_impl; [|exact H4]. simpl. intros; lia.
Qed.

Lemma createTweet_rows_head (datetime : Temporal) (text : string)
      (media : list string) (authorId : string) (uk : nat) (u : UserNode)
      (rest : list (nat * UserNode)) (g : Graph) :
  exists rows ns rs g',
    TweetService.createTweet_rows datetime text media authorId
                                  ((uk, u) :: rest) g
    = ((TweetService.new_tweet datetime text media authorId g, u) :: rows, g')
    /\ nodes g'
       = nodes g
         ++ mkNode (next g) (Tweet (TweetService.new_tweet datetime text media authorId g))
         :: ns
    /\ rels g'
       = rels g ++ mkRel (S (next g)) POSTED uk (next g) DVundefined :: rs
    /\ Forall (fun n => S (S (next g)) <= nid n) ns
    /\ Forall (fun r => S (S (next g)) <= rto r) rs.
Proof.
  simpl.
  destruct (TweetService.createTweet_rows _ _ _ _ rest _) as [rows' g3] eqn:E.
  apply createTweet_rows_grows in E.
  destruct E as [ns [rs [H1 [H2 [H3 H4]]]]]. simpl in H1, H2, H3, H4.
  exists rows', ns, rs, g3. split; [reflexivity|].
  rewrite H1, H2, <- !app_assoc. simpl. tauto.
Qed.

Lemma trim_truthy (text : string) :
  Js.trim text <> "" -> Js.truthy (Js.trim text) = true.
Proof. destruct (Js.trim text); [congruence | reflexivity]. Qed.

(** C7.  For a text that is not empty once trimmed, any media list and an
    [authorId] that some user node carries, [createTweet] returns a tweet,
    and [fetchTweet] of its id on the graph it leaves returns a tweet with
    that text, that media list and that [authorId], and with [likesCount],
    [commentsCount] and [retweetsCount] all 0.  The store is well formed and
    the id drawn for the node is not the id of an older tweet. *)
Theorem createTweet_then_fetchTweet :
  forall (now now' : Js.Date) (datetime : Temporal) (text : string)
         (media : list string) (authorId : string) (g : Graph),
    wf g ->
    Js.trim text <> "" ->
    users_by_id g authorId <> [] ->
    tweets_by_id g (randomUUID (next g)) = [] ->
    exists tw g' tw',
      TweetService.createTweet now datetime text media authorId g
      = (Return tw, g')
      /\ TweetService.fetchTweet now' (Tweet.id tw) g' = (Return (Some tw'), g')
      /\ Tweet.id tw' = Tweet.id tw
      /\ Tweet.text tw' = text
      /\ Tweet.media tw' = media
      /\ Tweet.authorId tw' = authorId
      /\ Tweet.likesCount tw' = Some 0%Z
      /\ Tweet.commentsCount tw' = Some 0%Z
      /\ Tweet.retweetsCount tw' = Some 0%Z
      /\ (now' = now -> tw' = tw).
Proof.
  intros now now' datetime text media authorId g Hwf Htext Huser Hfresh.
  destruct (users_by_id g authorId) as [|[uk u] rest] eqn:Hu; [congruence|].
  destruct (createTweet_rows_head datetime text media authorId uk u rest g)
    as [rows [ns [rs [g' [Hrun [Hn [Hr [Hns Hrs]]]]]]]].
  set (t0 := TweetService.new_tweet datetime text media authorId g) in *.
  assert (Hin : In (uk, u) (users g)).
  { assert (H : In (uk, u) (users_by_id g authorId))
      by (rewrite Hu; now left).
    unfold users_by_id in H. now apply filter_In in H. }
  exists (TweetService.mapTweet now t0 u), g', (TweetService.mapTweet now' t0 u).
  split.
  { unfold TweetService.createTweet. rewrite (trim_truthy _ Htext). simpl.
    unfold TweetService.withSession, try_catch, transaction, bind, update,
      TweetService.createTweet_query.
    rewrite Hu, Hrun. reflexivity. }
  split.
  { unfold TweetService.fetchTweet, TweetService.withSession, try_catch,
      bind, query. simpl.
    assert (Hq : exists more,
               TweetService.fetchTweet_query (randomUUID (next g)) g'
               = (t0, u) :: more).
    { unfold TweetService.fetchTweet_query, tweets_by_id.
      destruct g' as [ns' rs' m']. simpl in Hn, Hr. subst ns' rs'.
      rewrite tweets_app, filter_app.
      change (tweets (mkGraph (nodes g) _ m')) with (tweets g).
      unfold tweets_by_id in Hfresh. rewrite Hfresh. simpl.
      subst t0. unfold TweetService.new_tweet in *. simpl.
      rewrite String.eqb_refl. simpl.
      unfold TweetService.posters at 1.
      rewrite incoming_app.
      assert (Hold : incoming g POSTED (next g) = []).
      { unfold incoming.
        destruct (filter _ (rels g)) as [|r l] eqn:E; [reflexivity|].
        assert (Hr : In r (filter
                  (fun r => RelationshipType_eqb (rtype r) POSTED
                            && (rto r =? next g)) (rels g)))
          by (rewrite E; now left).
        apply filter_In in Hr. destruct Hr as [Hr1 Hr2].
        apply andb_true_iff in Hr2. destruct Hr2 as [_ Hr2].
        apply Nat.eqb_eq in Hr2.
        pose proof (@wf_ends_lt g r Hwf Hr1) as He. lia. }
      rewrite Hold. simpl. rewrite Nat.eqb_refl. simpl.
      assert (Hua : user_at
                 (mkGraph (nodes g ++ mkNode (next g)
                            (Tweet (mkTweetNode (randomUUID (next g)) text
                               (Some media) authorId None None None
                               (DVTemporal datetime) (DVTemporal datetime)
                               None)) :: ns)
                    (rels g ++ mkRel (S (next g)) POSTED uk (next g)
                                     DVundefined :: rs) m') uk = Some u).
      { unfold user_at. rewrite node_at_app_fresh.
        - fold (user_at g uk). now apply user_at_unique.
        - constructor; [simpl; lia|].
          eapply Forall_impl; [|exact Hns]. simpl. intros; lia.
        - apply users_In in Hin. pose proof (wf_nid_lt Hwf) as Hlt.
          rewrite Forall_forall in Hlt. apply (Hlt _ Hin). }
      rewrite Hua. simpl. eexists. reflexivity. }
    destruct Hq as [more Hq]. rewrite Hq. reflexivity. }
  simpl. repeat split; try reflexivity.
  intros ->. reflexivity.
Qed.

(** ** commentOnTweet *)

Lemma createComment_rows_grows (datetime : Temporal) (text authorId : string)
      (tweetIdProp : option string)
      (matched : list ((nat * UserNode) * (nat * TweetNode))) :
  forall (g : Graph) rows g',
    TweetService.createComment_rows datetime text authorId tweetIdProp
                                    matched g = (rows, g') ->
    exists ns rs,
      nodes g' = nodes g ++ ns /\ rels g' = rels g ++ rs
      /\ Forall (fun n => next g <= nid n /\ is_comment n) ns
      /\ Forall (fun r => (rtype r = POSTED /\ next g <= rto r)
                          \/ rtype r = COMMENTS_ON) rs.
Proof.
  induction matched as [|[[uk u] [tk t]] rest IH]; intros g rows g' H;
    simpl in H.
  - injection H as <- <-. exists [], []. rewrite !app_nil_r.
    repeat split; constructor.
  - destruct (TweetService.createComment_rows _ _ _ _ rest _)
      as [rows' g4] eqn:E.
    injection H as <- <-.
    apply IH in E. destruct E as [ns [rs [H1 [H2 [H3 H4]]]]].
    simpl in H1, H2, H3, H4.
    eexists (_ :: ns), (_ :: _ :: rs).
    rewrite H1, H2, <- !app_assoc. simpl.
    split; [reflexivity|]. split; [reflexivity|]. split.
    + constructor; [simpl; split; [lia | exact I]|].
      eapply Forall_impl; [|exact H3]. simpl. intros n [Ha Hb].
      split; [lia | exact Hb].
    + constructor; [simpl; left; split; [reflexivity | lia]|].
      constructor; [simpl; now right|].
      eapply Forall_impl; [|exact H4]. simpl. intros r [[Ha Hb]|Ha].
      * left. split; [exact Ha | lia].
      * now right.
Qed.

Lemma createComment_rows_head (datetime : Temporal) (text authorId : string)
      (tweetIdProp : option string) (uk tk : nat) (u : UserNode)
      (t : TweetNode) (rest : list ((nat * UserNode) * (nat * TweetNode)))
      (g : Graph) :
  exists rows ns rs g',
    TweetService.createComment_rows datetime text authorId tweetIdProp
                                    (((uk, u), (tk, t)) :: rest) g
    = ((TweetService.new_comment datetime text authorId tweetIdProp g, u, t)
         :: rows, g')
    /\ nodes g'
       = nodes g
         ++ mkNode (next g)
              (Comment (TweetService.new_comment datetime text authorId
                                                 tweetIdProp g)) :: ns
    /\ rels g'
       = rels g
         ++ mkRel (S (next g)) POSTED uk (next g) DVundefined
         :: mkRel (S (S (next g))) COMMENTS_ON (next g) tk DVundefined
         :: rs
    /\ Forall (fun n => next g <= nid n /\ is_comment n) ns
    /\ Forall (fun r => (rtype r = POSTED /\ next g <= rto r)
                        \/ rtype r = COMMENTS_ON) rs.
Proof.
  simpl.
  destruct (TweetService.createComment_rows _ _ _ _ rest _)
    as [rows' g4] eqn:E.
  apply createComment_rows_grows in E.
  destruct E as [ns [rs [H1 [H2 [H3 H4]]]]]. simpl in H1, H2, H3, H4.
  exists rows', ns, rs, g4. split; [reflexivity|].
  rewrite H1, H2, <- !app_assoc. simpl.
  split; [reflexivity|]. split; [reflexivity|]. split.
  - eapply Forall_impl; [|exact H3]. simpl. intros n [Ha Hb].
    split; [lia | exact Hb].
  - eapply Forall_impl; [|exact H4]. simpl. intros r [[Ha Hb]|Ha].
    + left. split; [exact Ha | lia].
    + now right.
Qed.

Lemma tweets_comments_nil (ns : list Node) (rs : list Rel) (m : nat) :
  Forall is_comment ns -> tweets (mkGraph ns rs m) = [].
Proof.
  unfold tweets. simpl. induction ns as [|n ns IH]; [reflexivity|].
  intros H. inversion H as [|? ? Hn Hns]; subst. simpl.
  unfold is_comment in Hn. destruct (props n); try contradiction.
  now apply IH.
Qed.

Lemma tweets_set_props (tweetId : string) (g : Graph) :
  tweets (set_props (TweetService.bump_commentsCount tweetId) g)
  = map (fun p => (fst p, TweetService.bump_tweet tweetId (snd p)))
        (tweets g).
Proof.
  unfold tweets, set_props. simpl.
  induction (nodes g) as [|n ns IH]; [reflexivity|].
  simpl. rewrite IH. unfold TweetService.bump_commentsCount.
  destruct (props n); reflexivity.
Qed.

Lemma bump_tweet_id (tweetId : string) (t : TweetNode) :
  t_id (TweetService.bump_tweet tweetId t) = t_id t.
Proof.
  unfold TweetService.bump_tweet. now destruct (String.eqb _ _).
Qed.

Lemma user_at_set_props (tweetId : string) (g : Graph) (k : nat) :
  user_at (set_props (TweetService.bump_commentsCount tweetId) g) k
  = user_at g k.
Proof.
  unfold user_at, node_at, set_props. simpl.
  induction (nodes g) as [|n ns IH]; [reflexivity|].
  simpl. destruct (nid n =? k) eqn:E; [|exact IH].
  unfold TweetService.bump_commentsCount. destruct n as [j p]. simpl.
  destruct p; reflexivity.
Qed.

Lemma flat_map_ext_in {A B : Type} (f f' : A -> list B) (l : list A) :
  (forall a, In a l -> f a = f' a) -> flat_map f l = flat_map f' l.
Proof.
  induction l as [|a l IH]; intros H; simpl; [reflexivity|].
  rewrite (H a (or_introl eq_refl)), IH; [reflexivity|].
  intros b Hb. apply H. now right.
Qed.

(** Comment nodes and their two relationships, appended at fresh
    identities, and the counter bump do not change who posted an older
    tweet. *)
Lemma posters_after_comments (tweetId : string) (g g1 : Graph)
      (ns : list Node) (rs : list Rel) (k : nat) :
  wf g ->
  nodes g1 = nodes g ++ ns -> rels g1 = rels g ++ rs ->
  Forall (fun n => next g <= nid n /\ is_comment n) ns ->
  Forall (fun r => (rtype r = POSTED /\ next g <= rto r)
                   \/ rtype r = COMMENTS_ON) rs ->
  k < next g ->
  TweetService.posters
    (set_props (TweetService.bump_commentsCount tweetId) g1) k
  = TweetService.posters g k.
Proof.
  intros Hwf Hn Hr Hns Hrs Hk. unfold TweetService.posters.
  assert (Hinc : incoming
                   (set_props (TweetService.bump_commentsCount tweetId) g1)
                   POSTED k = incoming g POSTED k).
  { unfold incoming. simpl. rewrite Hr, filter_app. clear Hr.
    rewrite <- (app_nil_r (filter _ (rels g))) at 2. f_equal.
    induction Hrs as [|r rs' Hr0 _ IH]; [reflexivity|]. simpl.
    destruct Hr0 as [[Ha Hb]|Ha]; rewrite Ha; simpl.
    - destruct (rto r =? k) eqn:E; [|exact IH].
      apply Nat.eqb_eq in E. lia.
    - exact IH. }
  rewrite Hinc. apply flat_map_ext_in. intros r Hin.
  rewrite user_at_set_props.
  unfold incoming in Hin. apply filter_In in Hin. destruct Hin as [Hin _].
  pose proof (@wf_ends_lt g r Hwf Hin) as He.
  unfold user_at. destruct g1 as [ns1 rs1 m1]. simpl in Hn, Hr. subst.
  rewrite node_at_app_fresh; [reflexivity| |lia].
  eapply Forall_impl; [|exact Hns]. simpl. tauto.
Qed.

Lemma fetchTweet_query_after_comments (tweetId id : string) (g g1 : Graph)
      (ns : list Node) (rs : list Rel) :
  wf g ->
  nodes g1 = nodes g ++ ns -> rels g1 = rels g ++ rs ->
  Forall (fun n => next g <= nid n /\ is_comment n) ns ->
  Forall (fun r => (rtype r = POSTED /\ next g <= rto r)
                   \/ rtype r = COMMENTS_ON) rs ->
  TweetService.fetchTweet_query id
    (set_props (TweetService.bump_commentsCount tweetId) g1)
  = map (fun row => (TweetService.bump_tweet tweetId (fst row), snd row))
        (TweetService.fetchTweet_query id g).
Proof.
  intros Hwf Hn Hr Hns Hrs. unfold TweetService.fetchTweet_query.
  assert (Htw : tweets_by_id
                  (set_props (TweetService.bump_commentsCount tweetId) g1) id
                = map (fun p => (fst p, TweetService.bump_tweet tweetId (snd p)))
                      (tweets_by_id g id)).
  { unfold tweets_by_id. rewrite tweets_set_props.
    assert (Ht : tweets g1 = tweets g).
    { destruct g1 as [ns1 rs1 m1]. simpl in Hn. subst ns1.
      rewrite tweets_app, (@tweets_comments_nil ns).
      - rewrite app_nil_r. reflexivity.
      - eapply Forall_impl; [|exact Hns]. simpl. tauto. }
    rewrite Ht, filter_map_swap. f_equal.
    apply filter_ext. intros [k t]. simpl. now rewrite bump_tweet_id. }
  rewrite Htw.
  assert (Hlt : forall p, In p (tweets_by_id g id) -> fst p < next g).
  { intros [k t] Hin. unfold tweets_by_id in Hin. apply filter_In in Hin.
    destruct Hin as [Hin _]. apply tweets_In in Hin.
    pose proof (wf_nid_lt Hwf) as Hlt. rewrite Forall_forall in Hlt.
    apply (Hlt _ Hin). }
  revert Hlt. generalize (tweets_by_id g id). clear Htw.
  intros l. induction l as [|p l IH]; intros Hlt; [reflexivity|].
  simpl. rewrite map_app, IH by (intros q Hq; apply Hlt; now right).
  f_equal. rewrite map_map. simpl.
  rewrite (@posters_after_comments tweetId g g1 ns rs (fst p)); auto.
  apply Hlt. now left.
Qed.

(** C6.  On a well-formed store, for a tweet that [fetchTweet] finds.
    When a user node carries the author id, [commentOnTweet] returns; the
    graph it leaves is the one its single write transaction produces from
    its two statements; that graph holds a new Comment node with the text
    and the author id given, a POSTED relationship from a user node carrying
    that id to the comment, and a COMMENTS_ON relationship from the comment
    to a tweet node carrying the tweet id; and [fetchTweet] then reports the
    stored [commentsCount] plus one, which is 1 for a tweet that had no
    count yet.  The transaction is atomic: when the store rejects the first
    statement, or takes the first, which has then written the comment, and
    rejects the second, the call throws the store's error inside
    COMMENT_CREATION_ERROR inside DATABASE_ERROR and the graph is the one
    of before, without the comment.  When no user node carries the author
    id, the first statement matches nothing and is not rejected: the
    transaction commits the raised count alone. *)
Theorem commentOnTweet_creates_and_counts :
  forall (now now' : Js.Date) (datetime : Temporal)
         (text authorId tweetId : string) (g : Graph)
         (t0 : TweetNode) (u0 : UserNode) (more : list (TweetNode * UserNode)),
    wf g ->
    TweetService.fetchTweet_query tweetId g = (t0, u0) :: more ->
    (users_by_id g authorId <> [] ->
     exists tw g' ck c uk u tk t tw',
       TweetService.commentOnTweet now datetime text authorId tweetId g
       = (Return (Some tw), g')
       /\ g' = snd (TweetService.incrementComments_query tweetId
                      (snd (TweetService.createComment_query
                              datetime text authorId tweetId g)))
       /\ In (mkNode ck (Comment c)) (nodes g')
       /\ ~ In ck (map nid (nodes g))
       /\ c_text c = text
       /\ c_authorId c = authorId
       /\ In (uk, u) (users g) /\ u_id u = authorId
       /\ c_authorId c = u_id u
       /\ In (tk, t) (tweets g) /\ t_id t = tweetId
       /\ (exists r, In r (rels g') /\ rtype r = POSTED
                     /\ rfrom r = uk /\ rto r = ck)
       /\ (exists r, In r (rels g') /\ rtype r = COMMENTS_ON
                     /\ rfrom r = ck /\ rto r = tk)
       /\ Tweet.commentsCount tw
          = Some (Js.nullish (t_commentsCount t0) 0 + 1)%Z
       /\ (t_commentsCount t0 = None -> Tweet.commentsCount tw = Some 1%Z)
       /\ TweetService.fetchTweet now' tweetId g' = (Return (Some tw'), g')
       /\ Tweet.commentsCount tw' = Tweet.commentsCount tw
       /\ In (mkNode ck (Comment c))
             (nodes (snd (TweetService.createComment_query
                            datetime text authorId tweetId g))))
    /\ (forall (createRejection incrementRejection : option Js.Error)
               (error : Js.Error),
           createRejection = Some error
           \/ (createRejection = None /\ incrementRejection = Some error) ->
           TweetService.commentOnTweet_under createRejection
             incrementRejection now datetime text authorId tweetId g
           = (Throw (Js.ApolloError "Failed to execute database operation"
                       (Some "DATABASE_ERROR")
                       (Some (Js.ApolloError "Failed to create comment"
                                (Some "COMMENT_CREATION_ERROR")
                                (Some error)))), g))
    /\ (users_by_id g authorId = [] ->
        exists tw g',
          TweetService.commentOnTweet now datetime text authorId tweetId g
          = (Return (Some tw), g')
          /\ g' = snd (TweetService.incrementComments_query tweetId g)
          /\ Tweet.commentsCount tw
             = Some (Js.nullish (t_commentsCount t0) 0 + 1)%Z
          /\ comments g' = comments g
          /\ rels g' = rels g).
Proof.
  intros now now' datetime text authorId tweetId g t0 u0 more Hwf Hfetch.
  assert (Hid0 : t_id t0 = tweetId).
  { assert (Hin : In (t0, u0) (TweetService.fetchTweet_query tweetId g))
      by (rewrite Hfetch; now left).
    unfold TweetService.fetchTweet_query in Hin. apply in_flat_map in Hin.
    destruct Hin as [[k t'] [Hin1 Hin2]]. apply in_map_iff in Hin2.
    destruct Hin2 as [u' [Heq _]]. simpl in Heq. injection Heq as -> ->.
    unfold tweets_by_id in Hin1. apply filter_In in Hin1.
    destruct Hin1 as [_ Hin1]. simpl in Hin1. now apply String.eqb_eq. }
  split.
  { intros Huser.
    destruct (users_by_id g authorId) as [|[uk u] urest] eqn:Hu; [congruence|].
    destruct (tweets_by_id g tweetId) as [|[tk t] trest] eqn:Ht.
    { unfold TweetService.fetchTweet_query in Hfetch. rewrite Ht in Hfetch.
      discriminate. }
    destruct (createComment_rows_head datetime text authorId None uk tk u t
                (map (fun y => ((uk, u), y)) trest
                     ++ list_prod urest ((tk, t) :: trest)) g)
      as [rows [ns [rs [g1 [Hrun [Hn [Hr [Hns Hrs]]]]]]]].
    set (c0 := TweetService.new_comment datetime text authorId None g) in *.
    set (g' := set_props (TweetService.bump_commentsCount tweetId) g1).
    assert (Hquery : TweetService.createComment_query datetime text authorId
                       tweetId g = ((c0, u, t) :: rows, g1)).
    { unfold TweetService.createComment_query. rewrite Hu, Ht. exact Hrun. }
    assert (Hafter : forall id,
               TweetService.fetchTweet_query id g'
               = map (fun row => (TweetService.bump_tweet tweetId (fst row),
                                  snd row))
                     (TweetService.fetchTweet_query id g)).
    { intros id. unfold g'.
      eapply fetchTweet_query_after_comments; eauto.
      - constructor; [simpl; split; [lia | exact I] | exact Hns].
      - constructor; [simpl; left; split; [reflexivity | lia]|].
        constructor; [simpl; now right | exact Hrs]. }
    assert (Hbump : t_commentsCount (TweetService.bump_tweet tweetId t0)
                    = Some (Js.nullish (t_commentsCount t0) 0 + 1)%Z).
    { assert (Hid : t_id t0 = tweetId).
      { assert (Hin : In (t0, u0) (TweetService.fetchTweet_query tweetId g))
          by (rewrite Hfetch; now left).
        unfold TweetService.fetchTweet_query in Hin. apply in_flat_map in Hin.
        destruct Hin as [[k t'] [Hin1 Hin2]]. apply in_map_iff in Hin2.
        destruct Hin2 as [u' [Heq _]]. simpl in Heq. injection Heq as -> ->.
        unfold tweets_by_id in Hin1. apply filter_In in Hin1.
        destruct Hin1 as [_ Hin1]. simpl in Hin1. now apply String.eqb_eq. }
      unfold TweetService.bump_tweet. rewrite Hid, String.eqb_refl.
      reflexivity. }
    assert (Hfetch' : forall nw,
               TweetService.fetchTweet nw tweetId g'
               = (Return (Some (TweetService.mapTweet nw
                                  (TweetService.bump_tweet tweetId t0) u0)),
                  g')).
    { intros nw. unfold TweetService.fetchTweet, TweetService.withSession,
        try_catch, bind, query. rewrite Hafter, Hfetch. reflexivity. }
    assert (Hui : In (uk, u) (users_by_id g authorId))
      by (rewrite Hu; now left).
    assert (Hti : In (tk, t) (tweets_by_id g tweetId))
      by (rewrite Ht; now left).
    unfold users_by_id in Hui. apply filter_In in Hui. destruct Hui as [Hui1 Hui2].
    unfold tweets_by_id in Hti. apply filter_In in Hti. destruct Hti as [Hti1 Hti2].
    simpl in Hui2, Hti2. apply String.eqb_eq in Hui2, Hti2.
    exists (TweetService.mapTweet now (TweetService.bump_tweet tweetId t0) u0),
      g', (next g), c0, uk, u, tk, t,
      (TweetService.mapTweet now' (TweetService.bump_tweet tweetId t0) u0).
    split.
    { unfold TweetService.commentOnTweet, TweetService.commentOnTweet_under,
        run.
      unfold TweetService.withSession at 1.
      unfold try_catch at 1 2. unfold bind at 1.
      unfold TweetService.fetchTweet at 1, TweetService.withSession at 1,
        try_catch at 1, bind at 1, query at 1.
      rewrite Hfetch. cbn [ret].
      unfold bind, transaction, update, TweetService.incrementComments_query.
      rewrite Hquery. cbn [ret]. fold g'. rewrite Hfetch'. reflexivity. }
    split.
    { unfold TweetService.incrementComments_query. rewrite Hquery.
      reflexivity. }
    split.
    { unfold g', set_props. simpl. rewrite Hn. apply in_map_iff.
      exists (mkNode (next g) (Comment c0)). split; [reflexivity|].
      apply in_or_app. right. now left. }
    split.
    { intros Hin. apply in_map_iff in Hin. destruct Hin as [n [Heq Hin]].
      pose proof (wf_nid_lt Hwf) as Hlt. rewrite Forall_forall in Hlt.
      specialize (Hlt _ Hin). lia. }
    split; [reflexivity|]. split; [reflexivity|].
    split; [exact Hui1|]. split; [exact Hui2|].
    split; [simpl; now rewrite Hui2|].
    split; [exact Hti1|]. split; [exact Hti2|].
    split.
    { eexists. split.
      - unfold g'. simpl. rewrite Hr. apply in_or_app. right. left. reflexivity.
      - simpl. tauto. }
    split.
    { eexists. split.
      - unfold g'. simpl. rewrite Hr. apply in_or_app. right. right. left.
        reflexivity.
      - simpl. tauto. }
    split; [simpl; now rewrite Hbump|].
    split; [intros Hnone; simpl; rewrite Hbump, Hnone; reflexivity|].
    split; [apply Hfetch'|]. split; [reflexivity|].
    rewrite Hquery. simpl. rewrite Hn. apply in_or_app. right. now left.
  }
  split.
  { intros createRejection incrementRejection error Hrejected.
    unfold TweetService.commentOnTweet_under.
    unfold TweetService.withSession at 1. unfold try_catch at 1 2.
    unfold bind at 1.
    unfold TweetService.fetchTweet at 1, TweetService.withSession at 1,
      try_catch at 1, bind at 1, query at 1.
    rewrite Hfetch. cbn [ret].
    destruct Hrejected as [-> | [-> ->]].
    - reflexivity.
    - unfold bind, transaction, run, update.
      destruct (TweetService.createComment_query datetime text authorId
                  tweetId g) as [rows g1].
      reflexivity. }
  intros Hnobody.
  set (g' := set_props (TweetService.bump_commentsCount tweetId) g).
  assert (Hafter : TweetService.fetchTweet_query tweetId g'
                   = map (fun row =>
                            (TweetService.bump_tweet tweetId (fst row),
                             snd row))
                         (TweetService.fetchTweet_query tweetId g)).
  { unfold g'.
    apply (@fetchTweet_query_after_comments tweetId tweetId g g [] []);
      auto; now rewrite app_nil_r. }
  exists (TweetService.mapTweet now (TweetService.bump_tweet tweetId t0) u0),
    g'.
  split.
  { unfold TweetService.commentOnTweet, TweetService.commentOnTweet_under,
      run.
    unfold TweetService.withSession at 1. unfold try_catch at 1 2.
    unfold bind at 1.
    unfold TweetService.fetchTweet at 1, TweetService.withSession at 1,
      try_catch at 1, bind at 1, query at 1.
    rewrite Hfetch. cbn [ret].
    unfold bind, transaction, update, TweetService.incrementComments_query,
      TweetService.createComment_query.
    rewrite Hnobody. cbn [list_prod TweetService.createComment_rows ret].
    fold g'.
    unfold TweetService.fetchTweet, TweetService.withSession, try_catch,
      bind, query.
    rewrite Hafter, Hfetch. reflexivity. }
  split; [reflexivity|]. split.
  { simpl. unfold TweetService.bump_tweet. rewrite Hid0, String.eqb_refl.
    reflexivity. }
  split; [|reflexivity].
  unfold g', comments, set_props. simpl.
  induction (nodes g) as [|n ns IH]; [reflexivity|]. simpl.
  rewrite IH. unfold TweetService.bump_commentsCount.
  destruct (props n); reflexivity.
Qed.

(** ** Comment likes *)

Lemma group_heads_incl (rows seen : list CommentService.Row)
      (x : CommentService.Row) :
  In x (CommentService.group_heads rows seen) -> In x rows.
Proof.
  revert seen. induction rows as [|y rows IH]; intros seen; simpl; [tauto|].
  destruct (existsb _ seen).
  - intros H. right. eapply IH, H.
  - intros [->|H]; [now left|]. right. eapply IH, H.
Qed.

Lemma comment_rows_comment (tweetId : string) (g : Graph)
      (x : CommentService.Row) :
  In x (CommentService.comment_rows tweetId g) ->
  In (CommentService.row_c x) (comments g).
Proof.
  unfold CommentService.comment_rows. intros H.
  apply in_flat_map in H. destruct H as [c [Hc H]].
  apply in_flat_map in H. destruct H as [r1 [_ H]].
  destruct (tweet_at g (rto r1)) as [t|]; [|contradiction].
  destruct (String.eqb (t_id t) tweetId); [|contradiction].
  apply in_flat_map in H. destruct H as [r2 [_ H]].
  destruct (user_at g (rfrom r2)) as [u|]; [|contradiction].
  destruct H as [<-|[]]. exact Hc.
Qed.

Lemma same_group_refl (x : CommentService.Row) :
  CommentService.same_group x x = true.
Proof. unfold CommentService.same_group. now rewrite !Nat.eqb_refl. Qed.

Lemma same_group_comment (x y : CommentService.Row) :
  CommentService.same_group x y = true ->
  fst (CommentService.row_c y) = fst (CommentService.row_c x).
Proof.
  unfold CommentService.same_group. intros H.
  apply andb_true_iff in H. destruct H as [H _].
  apply andb_true_iff in H. destruct H as [H _].
  apply Nat.eqb_eq in H. now symmetry.
Qed.

Lemma optional_likes_In (g : Graph) (row y : CommentService.Row) (l : Rel) :
  In (y, Some l) (CommentService.optional_likes g row) <->
  y = row /\ In l (CommentService.likes_of g (fst (CommentService.row_c row))).
Proof.
  unfold CommentService.optional_likes.
  destruct (CommentService.likes_of g _) as [|l0 ls] eqn:E.
  - simpl. split; [intros [H|[]]; discriminate | tauto].
  - rewrite in_map_iff. split.
    + intros [l' [Heq Hin]]. injection Heq as <- <-. tauto.
    + intros [-> Hin]. exists l. tauto.
Qed.

(** Within the group of a row of the result, [count(DISTINCT l)] is the
    number of LIKES_COMMENT relationships from user nodes into its
    comment. *)
Lemma count_distinct_likes_spec (g : Graph) (rows : list CommentService.Row)
      (x : CommentService.Row) :
  wf g -> In x rows ->
  CommentService.count_distinct_likes
    x (flat_map (CommentService.optional_likes g) rows)
  = List.length (CommentService.likes_of g (fst (CommentService.row_c x))).
Proof.
  intros Hwf Hx. unfold CommentService.count_distinct_likes.
  rewrite <- (length_map rid
                (CommentService.likes_of g (fst (CommentService.row_c x)))).
  apply NoDup_same_length.
  - apply NoDup_nodup.
  - unfold CommentService.likes_of, incoming.
    apply NoDup_map_filter, NoDup_map_filter, Hwf.
  - intros i. rewrite nodup_In, in_flat_map, in_map_iff. split.
    + intros [[y ol] [Hin Hi]]. simpl in Hi.
      destruct (CommentService.same_group x y) eqn:Hs; [|contradiction].
      destruct ol as [l|]; [|contradiction]. destruct Hi as [<-|[]].
      apply in_flat_map in Hin. destruct Hin as [row [_ Hin]].
      apply optional_likes_In in Hin. destruct Hin as [-> Hin].
      exists l. split; [reflexivity|].
      now rewrite <- (same_group_comment _ _ Hs).
    + intros [l [<- Hin]]. exists (x, Some l). split.
      * apply in_flat_map. exists x. split; [exact Hx|].
        apply optional_likes_In. tauto.
      * simpl. rewrite same_group_refl. now left.
Qed.

Lemma likes_of_all (g : Graph) (ck : nat) :
  (forall l, In l (incoming g LIKES_COMMENT ck) ->
             user_at g (rfrom l) <> None) ->
  CommentService.likes_of g ck = incoming g LIKES_COMMENT ck.
Proof.
  intros H. unfold CommentService.likes_of.
  rewrite (filter_ext_in _ (fun _ => true)); [apply filter_true|].
  intros l Hl. specialize (H l Hl).
  destruct (user_at g (rfrom l)); [reflexivity | congruence].
Qed.

Lemma group_heads_cover (rows : list CommentService.Row) :
  forall (seen : list CommentService.Row) (x : CommentService.Row),
    In x rows ->
    existsb (CommentService.same_group x) seen = true
    \/ exists h, In h (CommentService.group_heads rows seen)
                 /\ CommentService.same_group x h = true.
Proof.
  induction rows as [|y rest IH]; intros seen x Hin; [contradiction|].
  simpl. destruct Hin as [->|Hin].
  - destruct (existsb (CommentService.same_group x) seen) eqn:E;
      [now left|]. right. exists x. split; [now left|].
    apply same_group_refl.
  - destruct (existsb (CommentService.same_group y) seen) eqn:E.
    + now apply IH.
    + destruct (IH (y :: seen) x Hin) as [H|[h [Hh Hs]]].
      * simpl in H. apply orb_true_iff in H. destruct H as [H|H].
        -- right. exists y. split; [now left | exact H].
        -- now left.
      * right. exists h. split; [now right | exact Hs].
Qed.

Lemma comment_rows_In (tweetId : string) (g : Graph) (ck : nat)
      (c : CommentNode) (r1 r2 : Rel) (t : TweetNode) (u : UserNode) :
  In (ck, c) (comments g) ->
  In r1 (outgoing g COMMENTS_ON ck) ->
  tweet_at g (rto r1) = Some t -> t_id t = tweetId ->
  In r2 (incoming g POSTED ck) ->
  user_at g (rfrom r2) = Some u ->
  In ((ck, c), (rfrom r2, u), (rto r1, t))
     (CommentService.comment_rows tweetId g).
Proof.
  intros Hc Hr1 Ht Hid Hr2 Hu. unfold CommentService.comment_rows.
  apply in_flat_map. exists (ck, c). split; [exact Hc|].
  apply in_flat_map. exists r1. split; [exact Hr1|].
  rewrite Ht, Hid, String.eqb_refl.
  apply in_flat_map. exists r2. split; [exact Hr2|].
  rewrite Hu. now left.
Qed.

(** Every row of the two [MATCH] clauses reaches the result, under the head
    of its group, with the likes of its comment counted. *)
Lemma comment_row_is_returned (tweetId : string) (viewer : option string)
      (g : Graph) (row : CommentService.Row) :
  wf g ->
  In row (CommentService.comment_rows tweetId g) ->
  exists record,
    In record (CommentService.getCommentsForTweet_query tweetId viewer g)
    /\ CommentService.row_c (fst (fst record)) = CommentService.row_c row
    /\ snd (fst record)
       = List.length
           (CommentService.likes_of g (fst (CommentService.row_c row)))
    /\ snd record
       = CommentService.isLiked_column g viewer
           (fst (CommentService.row_c row)).
Proof.
  intros Hwf Hrow.
  destruct (@group_heads_cover (CommentService.comment_rows tweetId g)
              [] row Hrow) as [H|[h [Hh Hs]]]; [discriminate|].
  pose proof (@group_heads_incl _ _ _ Hh) as Hin.
  pose proof (@same_group_comment _ _ Hs) as Hk.
  assert (Hc : CommentService.row_c h = CommentService.row_c row).
  { pose proof (@comment_rows_comment _ _ _ Hin) as H1.
    pose proof (@comment_rows_comment _ _ _ Hrow) as H2.
    destruct (CommentService.row_c h) as [k1 c1].
    destruct (CommentService.row_c row) as [k2 c2]. simpl in Hk. subst k2.
    pose proof (@comment_at_unique g k1 c1 Hwf H1) as E1.
    pose proof (@comment_at_unique g k1 c2 Hwf H2) as E2.
    congruence. }
  exists (h,
          CommentService.count_distinct_likes h
            (flat_map (CommentService.optional_likes g)
                      (CommentService.comment_rows tweetId g)),
          CommentService.isLiked_column g viewer
            (fst (CommentService.row_c h))).
  split.
  - unfold CommentService.getCommentsForTweet_query. apply in_map_iff.
    exists h. split; [reflexivity | exact Hh].
  - simpl. split; [exact Hc|]. rewrite <- Hc. split; [|reflexivity].
    now apply count_distinct_likes_spec.
Qed.

(** C10.  [likeComment] and [unlikeComment] leave every node, hence every
    property of every Comment node, as it was, and add or remove nothing but
    LIKES_COMMENT relationships; and the [likesCount] of every comment that
    [getCommentsForTweet] returns is the number of LIKES_COMMENT
    relationships that lead from a user node into that comment, which is
    the number of all LIKES_COMMENT relationships into it when these all
    start at user nodes.  Every comment of the tweet that a user has posted
    is returned, with that number and whatever [likesCount] property the
    node may hold. *)
Theorem comment_likes_are_counted_on_read :
  forall (g : Graph) (tweetId commentId userId : string)
         (viewer : option string),
    wf g ->
    nodes (snd (CommentService.likeComment commentId userId g)) = nodes g
    /\ nodes (snd (CommentService.unlikeComment commentId userId g)) = nodes g
    /\ (forall r, rtype r <> LIKES_COMMENT ->
          (In r (rels (snd (CommentService.likeComment commentId userId g)))
           <-> In r (rels g)))
    /\ (forall r, rtype r <> LIKES_COMMENT ->
          (In r (rels (snd (CommentService.unlikeComment commentId userId g)))
           <-> In r (rels g)))
    /\ exists records,
        CommentService.getCommentsForTweet tweetId viewer g
        = (Return (map CommentService.toComment records), g)
        /\ Forall
             (fun record =>
                let c := CommentService.row_c (fst (fst record)) in
                In c (comments g)
                /\ Comment.id (CommentService.toComment record) = c_id (snd c)
                /\ Comment.likesCount (CommentService.toComment record)
                   = Z.of_nat (List.length (CommentService.likes_of g (fst c)))
                /\ ((forall l, In l (incoming g LIKES_COMMENT (fst c)) ->
                               user_at g (rfrom l) <> None) ->
                    Comment.likesCount (CommentService.toComment record)
                    = Z.of_nat (List.length
                                  (incoming g LIKES_COMMENT (fst c)))))
             records
        /\ (forall (ck : nat) (c : CommentNode) (r1 r2 : Rel)
                   (t : TweetNode) (u : UserNode),
               In (ck, c) (comments g) ->
               In r1 (rels g) -> rtype r1 = COMMENTS_ON -> rfrom r1 = ck ->
               tweet_at g (rto r1) = Some t -> t_id t = tweetId ->
               In r2 (rels g) -> rtype r2 = POSTED -> rto r2 = ck ->
               user_at g (rfrom r2) = Some u ->
               exists record,
                 In record records
                 /\ CommentService.row_c (fst (fst record)) = (ck, c)
                 /\ Comment.id (CommentService.toComment record) = c_id c
                 /\ Comment.likesCount (CommentService.toComment record)
                    = Z.of_nat (List.length (CommentService.likes_of g ck))).
Proof.
  intros g tweetId commentId userId viewer Hwf.
  assert (Hcomplete :
            forall (ck : nat) (c : CommentNode) (r1 r2 : Rel)
                   (t : TweetNode) (u : UserNode),
              In (ck, c) (comments g) ->
              In r1 (rels g) -> rtype r1 = COMMENTS_ON -> rfrom r1 = ck ->
              tweet_at g (rto r1) = Some t -> t_id t = tweetId ->
              In r2 (rels g) -> rtype r2 = POSTED -> rto r2 = ck ->
              user_at g (rfrom r2) = Some u ->
              exists record,
                In record
                   (CommentService.getCommentsForTweet_query tweetId viewer g)
                /\ CommentService.row_c (fst (fst record)) = (ck, c)
                /\ Comment.id (CommentService.toComment record) = c_id c
                /\ Comment.likesCount (CommentService.toComment record)
                   = Z.of_nat (List.length (CommentService.likes_of g ck))).
  { intros ck c r1 r2 t u Hc Hr1 Hty1 Hf1 Ht Hid Hr2 Hty2 Hto2 Hu.
    assert (Hrow : In ((ck, c), (rfrom r2, u), (rto r1, t))
                      (CommentService.comment_rows tweetId g)).
    { apply comment_rows_In; try assumption.
      - unfold outgoing. apply filter_In. split; [exact Hr1|].
        now rewrite Hty1, Hf1, Nat.eqb_refl.
      - unfold incoming. apply filter_In. split; [exact Hr2|].
        now rewrite Hty2, Hto2, Nat.eqb_refl. }
    destruct (@comment_row_is_returned tweetId viewer g _ Hwf Hrow)
      as [[[h n] b] [Hin [Hc' [Hn _]]]]. simpl in Hc', Hn.
    exists (h, n, b). split; [exact Hin|]. split; [exact Hc'|].
    unfold CommentService.toComment. simpl.
    change (fst (fst h)) with (CommentService.row_c h).
    rewrite Hc'. simpl. split; [reflexivity|]. now rewrite Hn. }
  assert (Hlike : exists rs,
             rels (snd (CommentService.likeComment commentId userId g))
             = rels g ++ rs
             /\ Forall (fun r => rtype r = LIKES_COMMENT) rs
             /\ nodes (snd (CommentService.likeComment commentId userId g))
                = nodes g).
  { unfold CommentService.likeComment, CommentService.withSession, try_catch,
      transaction, bind, query, update, CommentService.createLike_query, ret.
    destruct (0 <? _).
    - exists []. simpl. rewrite app_nil_r. repeat split. constructor.
    - simpl.
      destruct (create_rels_rels LIKES_COMMENT DVundefined
                  (list_prod (map fst (users_by_id g userId))
                             (map fst (comments_by_id g commentId))) g)
        as [rs [H1 [H2 _]]].
      exists rs. split; [exact H1|]. split.
      + eapply Forall_impl; [|exact H2]. simpl. tauto.
      + apply create_rels_nodes. }
  destruct Hlike as [rs [Hl1 [Hl2 Hl3]]].
  split; [exact Hl3|]. split.
  { unfold CommentService.unlikeComment, CommentService.withSession,
      try_catch, transaction, bind, query, update,
      CommentService.deleteLike_query, ret.
    now destruct (_ =? 0). }
  split.
  { intros r Hr. rewrite Hl1, in_app_iff. split; [|tauto].
    intros [H|H]; [exact H|]. rewrite Forall_forall in Hl2.
    specialize (Hl2 _ H). congruence. }
  split.
  { intros r Hr.
    unfold CommentService.unlikeComment, CommentService.withSession,
      try_catch, transaction, bind, query, update,
      CommentService.deleteLike_query, ret.
    destruct (_ =? 0); simpl; [tauto|].
    rewrite filter_In. split; [tauto|]. intros H. split; [exact H|].
    apply negb_true_iff. unfold CommentService.is_like.
    destruct (rtype r); try reflexivity. congruence. }
  exists (CommentService.getCommentsForTweet_query tweetId viewer g).
  split; [reflexivity|]. split; [|exact (Hcomplete)].
  apply Forall_forall. intros [[x n] liked] Hin.
  unfold CommentService.getCommentsForTweet_query in Hin.
  apply in_map_iff in Hin. destruct Hin as [y [Heq Hin]].
  injection Heq as -> <- <-. apply group_heads_incl in Hin.
  cbn [fst snd CommentService.toComment]. cbv zeta.
  split; [eapply comment_rows_comment, Hin|].
  split; [reflexivity|].
  assert (Hcount : Comment.likesCount
                     (CommentService.mapComment
                        (CommentService.with_likes
                           (snd (CommentService.row_c x))
                           (CommentService.count_distinct_likes x
                              (flat_map (CommentService.optional_likes g)
                                 (CommentService.comment_rows tweetId g)))
                           (CommentService.isLiked_column g viewer
                              (fst (CommentService.row_c x))))
                        (snd (CommentService.row_u x))
                        (snd (CommentService.row_t x)))
                   = Z.of_nat (List.length
                        (CommentService.likes_of g
                           (fst (CommentService.row_c x))))).
  { simpl. now rewrite count_distinct_likes_spec. }
  split; [exact Hcount|].
  intros Hall. rewrite Hcount. now rewrite likes_of_all.
Qed.

(** ** Likes on tweets *)

Lemma user_at_nodes (g g' : Graph) (k : nat) :
  nodes g' = nodes g -> user_at g' k = user_at g k.
Proof. unfold user_at, node_at. now intros ->. Qed.

Lemma tweet_at_nodes (g g' : Graph) (k : nat) :
  nodes g' = nodes g -> tweet_at g' k = tweet_at g k.
Proof. unfold tweet_at, node_at. now intros ->. Qed.

Lemma incoming_other_type (g : Graph) (ns : list Node) (rs : list Rel)
      (m : nat) (ty ty' : RelationshipType) (k : nat) :
  Forall (fun r => rtype r = ty') rs -> ty' <> ty ->
  incoming (mkGraph ns (rels g ++ rs) m) ty k = incoming g ty k.
Proof.
  intros Hrs Hty. rewrite incoming_app.
  rewrite <- (app_nil_r (incoming g ty k)) at 2. f_equal.
  induction Hrs as [|r rs' Hr _ IH]; [reflexivity|]. simpl.
  rewrite Hr. destruct ty', ty; simpl; try exact IH; congruence.
Qed.

Lemma fetchTweet_query_same (id : string) (g g' : Graph) :
  nodes g' = nodes g ->
  (forall k, incoming g' POSTED k = incoming g POSTED k) ->
  TweetService.fetchTweet_query id g' = TweetService.fetchTweet_query id g.
Proof.
  intros Hn Hinc. unfold TweetService.fetchTweet_query, tweets_by_id.
  rewrite (@tweets_nodes g g' Hn). apply flat_map_ext_in. intros p _.
  f_equal. unfold TweetService.posters. rewrite Hinc.
  apply flat_map_ext_in. intros r _. now rewrite (@user_at_nodes g g' (rfrom r) Hn).
Qed.

(** C2.  On a well-formed store, for a tweet without stored [likesCount]
    and [isLiked] that the user has not liked, [likeTweet] returns true and
    leaves a LIKES_TWEET relationship from the user to the tweet, it writes
    no node, and [fetchTweet] still reports [likesCount] 0 and [isLiked]
    false: the counter does not follow the relationship. *)
Theorem likeTweet_leaves_the_counter :
  forall (now : Js.Date) (datetime : Temporal) (tweetId userId : string)
         (g : Graph) (t0 : TweetNode) (u0 : UserNode)
         (more : list (TweetNode * UserNode)),
    wf g ->
    TweetService.fetchTweet_query tweetId g = (t0, u0) :: more ->
    t_likesCount t0 = None ->
    t_isLiked t0 = None ->
    users_by_id g userId <> [] ->
    TweetService.existingLike_query userId tweetId g = [] ->
    exists g' tw,
      TweetService.likeTweet datetime tweetId userId g = (Return true, g')
      /\ TweetService.existingLike_query userId tweetId g' <> []
      /\ nodes g' = nodes g
      /\ TweetService.fetchTweet now tweetId g' = (Return (Some tw), g')
      /\ Tweet.likesCount tw = Some 0%Z
      /\ Tweet.isLiked tw = Some false.
Proof.
  intros now datetime tweetId userId g t0 u0 more Hwf Hfetch Hcount Hliked
         Huser Hnone.
  destruct (users_by_id g userId) as [|[uk u] urest] eqn:Hu; [congruence|].
  destruct (tweets_by_id g tweetId) as [|[tk t] trest] eqn:Ht.
  { unfold TweetService.fetchTweet_query in Hfetch. rewrite Ht in Hfetch.
    discriminate. }
  set (pairs := list_prod (map fst (users_by_id g userId))
                          (map fst (tweets_by_id g tweetId))).
  set (g' := create_rels LIKES_TWEET (DVTemporal datetime) pairs g).
  destruct (create_rels_rels LIKES_TWEET (DVTemporal datetime) pairs g)
    as [rs [Hr [Hty Hall]]].
  fold g' in Hr.
  assert (Hn : nodes g' = nodes g) by apply create_rels_nodes.
  assert (Hq : TweetService.fetchTweet_query tweetId g'
               = TweetService.fetchTweet_query tweetId g).
  { apply fetchTweet_query_same; [exact Hn|]. intros k.
    destruct g' as [ns' rs' m']. simpl in Hn, Hr. subst ns' rs'.
    apply (@incoming_other_type g (nodes g) rs m' POSTED LIKES_TWEET k).
    - eapply Forall_impl; [|exact Hty]. simpl. tauto.
    - discriminate. }
  exists g', (TweetService.mapTweet now t0 u0).
  split.
  { unfold TweetService.likeTweet, TweetService.withSession, try_catch,
      transaction, bind, query, update, TweetService.createLike_query, ret.
    rewrite Hnone. reflexivity. }
  split.
  { assert (Hp : In (uk, tk) pairs).
    { unfold pairs. rewrite Hu, Ht. simpl. now left. }
    rewrite Forall_forall in Hall. destruct (Hall _ Hp) as [r [Hin [Hf Ht']]].
    rewrite Forall_forall in Hty. destruct (Hty _ Hin) as [Hrt _].
    simpl in Hf, Ht'.
    assert (Hui : In (uk, u) (users_by_id g userId))
      by (rewrite Hu; now left).
    assert (Hti : In (tk, t) (tweets_by_id g tweetId))
      by (rewrite Ht; now left).
    unfold users_by_id in Hui. apply filter_In in Hui.
    unfold tweets_by_id in Hti. apply filter_In in Hti.
    simpl in Hui, Hti. destruct Hui as [Hui1 Hui2], Hti as [Hti1 Hti2].
    assert (Hlike : TweetService.is_like g' userId tweetId r = true).
    { unfold TweetService.is_like, from_user, to_tweet.
      rewrite Hrt, (@user_at_nodes g g' (rfrom r) Hn),
        (@tweet_at_nodes g g' (rto r) Hn), Hf, Ht'.
      rewrite (@user_at_unique g uk u Hwf Hui1),
        (@tweet_at_unique g tk t Hwf Hti1).
      now rewrite Hui2, Hti2. }
    intros Hnil.
    assert (Hin' : In r (TweetService.existingLike_query userId tweetId g')).
    { unfold TweetService.existingLike_query. apply filter_In.
      split; [|exact Hlike]. rewrite Hr. apply in_or_app. now right. }
    rewrite Hnil in Hin'. contradiction. }
  split; [exact Hn|]. split.
  { unfold TweetService.fetchTweet, TweetService.withSession, try_catch,
      bind, query. rewrite Hq, Hfetch. reflexivity. }
  simpl. now rewrite Hcount, Hliked.
Qed.

(** C3.  When the like relationship is already there, [likeTweet] throws
    and [likeComment] returns false, and either leaves the graph as it
    was. *)
Theorem like_when_already_liked :
  forall (datetime : Temporal) (tweetId commentId userId : string)
         (g : Graph),
    (TweetService.existingLike_query userId tweetId g <> [] ->
     TweetService.likeTweet datetime tweetId userId g
     = (Throw (Js.ApolloError "Failed to execute database operation"
                              (Some "DATABASE_ERROR")
                              (Some (Js.mkError "Tweet already liked"))), g))
    /\
    (CommentService.existingLike_query userId commentId g <> [] ->
     CommentService.likeComment commentId userId g = (Return false, g)).
Proof.
  intros datetime tweetId commentId userId g. split; intros H.
  - unfold TweetService.likeTweet, TweetService.withSession, try_catch,
      transaction, bind, query.
    rewrite (@length_pos_nonnil _ _ H). reflexivity.
  - unfold CommentService.likeComment, CommentService.withSession, try_catch,
      transaction, bind, query.
    rewrite (@length_pos_nonnil _ _ H). reflexivity.
Qed.

Lemma delete_rels_none (doomed : Rel -> bool) (g : Graph) :
  filter doomed (rels g) = [] -> delete_rels doomed g = g.
Proof.
  intros H. unfold delete_rels. rewrite (@filter_none_nil _ _ _ H).
  now destruct g.
Qed.

(** C4.  Where the user has no like on the tweet,
    [unlikeTweet] returns true and leaves the graph as it was; where the
    user has no like on the comment, [unlikeComment] returns false and
    leaves the graph as it was.  Neither throws. *)
Theorem unlike_when_not_liked :
  forall (tweetId commentId userId : string) (g : Graph),
    TweetService.existingLike_query userId tweetId g = [] ->
    CommentService.existingLike_query userId commentId g = [] ->
    TweetService.unlikeTweet tweetId userId g = (Return true, g)
    /\ CommentService.unlikeComment commentId userId g = (Return false, g).
Proof.
  intros tweetId commentId userId g Ht Hc. split.
  - unfold TweetService.unlikeTweet, TweetService.withSession, try_catch,
      bind, update, TweetService.deleteLike_query, ret.
    now rewrite (@delete_rels_none _ _ Ht).
  - unfold CommentService.unlikeComment, CommentService.withSession,
      try_catch, transaction, bind, query, ret.
    rewrite Hc. reflexivity.
Qed.

(** ** The timeline *)

(** C1.  For a user who follows nobody the first [MATCH] yields no row,
    so [listTimelineTweets] returns the empty list, whatever the user has
    posted. *)
Theorem timeline_of_a_user_who_follows_nobody :
  forall (userId : string) (g : Graph),
    TweetService.followings userId g = [] ->
    TweetService.listTimelineTweets userId g = (Return [], g).
Proof.
  intros userId g H.
  unfold TweetService.listTimelineTweets, TweetService.withSession,
    try_catch, bind, query, ret, TweetService.listTimelineTweets_query.
  rewrite H. reflexivity.
Qed.

(** ** Dates *)

(** C9.  [fetchTweet] sends the date fields through [safeParseDate], the
    four list operations send them through [new Date].
    So a missing date and a string that does not parse come back from the
    list operations as an invalid date, not as the current time, and a
    store-native temporal value goes through its [toString] and
    [Date.parse], not field by field. *)
Theorem list_operations_bypass_safeParseDate :
  forall (now : Js.Date) (userId : string) (g : Graph),
    TweetService.listTweets g
    = (Return (map (fun r => TweetService.listItem (fst r) (snd r))
                   (TweetService.listTweets_query g)), g)
    /\ TweetService.listUserTweets userId g
       = (Return (map (fun r => TweetService.listItem (fst r) (snd r))
                      (TweetService.listUserTweets_query userId g)), g)
    /\ TweetService.listLikedTweets userId g
       = (Return (map (fun r => TweetService.listItem (fst (snd r))
                                                      (snd (snd r)))
                      (TweetService.listLikedTweets_query userId g)), g)
    /\ TweetService.listTimelineTweets userId g
       = (Return (map (fun r => TweetService.listItem (fst r) (snd r))
                      (TweetService.listTimelineTweets_query userId g)), g)
    /\ forall (t : TweetNode) (u : UserNode),
        (t_createdAt t = DVundefined ->
         Tweet.createdAt (TweetService.listItem t u) = Js.Invalid
         /\ Tweet.createdAt (TweetService.mapTweet now t u) = now)
        /\ (forall s, t_createdAt t = DVString s -> Js.truthy s = true ->
                      Date_parse s = None ->
            Tweet.createdAt (TweetService.listItem t u) = Js.Invalid
            /\ Tweet.createdAt (TweetService.mapTweet now t u) = now)
        /\ (forall d, t_createdAt t = DVTemporal d ->
            Tweet.createdAt (TweetService.listItem t u)
            = newDate (DVString (Temporal_toString d))
            /\ Tweet.createdAt (TweetService.mapTweet now t u)
               = Date_fields (year d) (month d - 1)%Z (day d)
                   (Js.nullish (hour d) 0%Z) (Js.nullish (minute d) 0%Z)
                   (Js.nullish (second d) 0%Z)
                   (match nanosecond d with
                    | Some ns => Z.quot ns 1000000
                    | None => 0%Z
                    end)).
Proof.
  intros now userId g. repeat (split; [reflexivity|]).
  intros t u. split; [|split].
  - intros H. simpl. now rewrite H.
  - intros s H Hs Hp. simpl. rewrite H. simpl. now rewrite Hs, Hp.
  - intros d H. simpl. rewrite H. simpl. split; reflexivity.
Qed.

End Facts.

(** ** The follow mutation *)

(** C5.  When an authenticated caller follows itself the resolver throws;
    the error that reaches the caller carries the code FOLLOW_ERROR and
    wraps the INVALID_OPERATION error as its [originalError]; the user
    service is not called, so the graph is as it was. *)
Theorem followUser_self :
  forall (FollowResult : Type)
         (getFollowings : string -> Async (list User.t))
         (followUser : string -> string -> Async FollowResult)
         (caller : User.t) (g : Graph),
    Js.truthy (User.id caller) = true ->
    exists e,
      UserResolver.followUser getFollowings followUser
        (UserResolver.mkContext (Some caller))
        (UserResolver.mkFollowUserInput (User.id caller)) g
      = (Throw e, g)
      /\ Js.code e = Some "FOLLOW_ERROR"
      /\ Js.originalError e
         = Some (Js.ApolloError "Cannot follow yourself"
                                (Some "INVALID_OPERATION") None).
Proof.
  intros FollowResult getFollowings followUser caller g H.
  eexists. split; [|split].
  - unfold UserResolver.followUser, try_catch. simpl.
    rewrite H, String.eqb_refl. reflexivity.
  - reflexivity.
  - reflexivity.
Qed.

(* ===================================================================== *)
(** * The store invariant is kept *)
(* ===================================================================== *)

Lemma wf_empty : wf empty.
Proof. constructor; simpl; constructor. Qed.

Lemma has_node_users_by_id (g : Graph) (id : string) (p : nat * UserNode) :
  In p (users_by_id g id) -> has_node g (fst p).
Proof.
  destruct p as [k u]. unfold users_by_id. intros H.
  apply filter_In in H. destruct H as [H _]. apply users_In in H.
  unfold has_node. apply in_map_iff. now exists (mkNode k (User u)).
Qed.

Lemma has_node_tweets_by_id (g : Graph) (id : string) (p : nat * TweetNode) :
  In p (tweets_by_id g id) -> has_node g (fst p).
Proof.
  destruct p as [k t]. unfold tweets_by_id. intros H.
  apply filter_In in H. destruct H as [H _]. apply tweets_In in H.
  unfold has_node. apply in_map_iff. now exists (mkNode k (Tweet t)).
Qed.

Lemma has_node_comments_by_id (g : Graph) (id : string)
      (p : nat * CommentNode) :
  In p (comments_by_id g id) -> has_node g (fst p).
Proof.
  destruct p as [k c]. unfold comments_by_id. intros H.
  apply filter_In in H. destruct H as [H _]. apply comments_In in H.
  unfold has_node. apply in_map_iff. now exists (mkNode k (Comment c)).
Qed.

Lemma has_node_create_node (p : Props) (g : Graph) (k : nat) :
  has_node g k -> has_node (snd (create_node p g)) k.
Proof.
  unfold has_node. simpl. rewrite map_app, in_app_iff. tauto.
Qed.

Lemma has_node_new (p : Props) (g : Graph) :
  has_node (snd (create_node p g)) (next g).
Proof.
  unfold has_node. simpl. rewrite map_app, in_app_iff. right. now left.
Qed.

Lemma wf_create_node (p : Props) (g : Graph) :
  wf g -> wf (snd (create_node p g)).
Proof.
  intros [H1 H2 H3 H4 H5]. constructor; simpl.
  - rewrite map_app. simpl. apply NoDup_app.
    + exact H1.
    + repeat constructor. simpl. tauto.
    + intros k Hk [<-|[]]. apply in_map_iff in Hk.
      destruct Hk as [n [Hn Hin]]. rewrite Forall_forall in H2.
      specialize (H2 _ Hin). lia.
  - apply Forall_app. split.
    + eapply Forall_impl; [|exact H2]. simpl. intros; lia.
    + repeat constructor.
  - exact H3.
  - eapply Forall_impl; [|exact H4]. simpl. intros; lia.
  - eapply Forall_impl; [|exact H5]. simpl. unfold has_node. simpl.
    intros r [Ha Hb]. rewrite map_app, !in_app_iff. tauto.
Qed.

Lemma wf_create_rel (ty : RelationshipType) (a b : nat) (dv : DateValue)
      (g : Graph) :
  wf g -> has_node g a -> has_node g b -> wf (create_rel ty a b dv g).
Proof.
  intros [H1 H2 H3 H4 H5] Ha Hb. constructor; simpl.
  - exact H1.
  - eapply Forall_impl; [|exact H2]. simpl. intros; lia.
  - rewrite map_app. simpl. apply NoDup_app.
    + exact H3.
    + repeat constructor. simpl. tauto.
    + intros k Hk [<-|[]]. apply in_map_iff in Hk.
      destruct Hk as [r [Hr Hin]]. rewrite Forall_forall in H4.
      specialize (H4 _ Hin). lia.
  - apply Forall_app. split.
    + eapply Forall_impl; [|exact H4]. simpl. intros; lia.
    + repeat constructor.
  - apply Forall_app. split; [exact H5|]. repeat constructor; assumption.
Qed.

Lemma wf_create_rels (ty : RelationshipType) (dv : DateValue)
      (pairs : list (nat * nat)) :
  forall g : Graph,
    wf g ->
    Forall (fun p => has_node g (fst p) /\ has_node g (snd p)) pairs ->
    wf (create_rels ty dv pairs g).
Proof.
  unfold create_rels.
  induction pairs as [|p ps IH]; intros g Hwf Hps; simpl; [exact Hwf|].
  inversion Hps as [|? ? [Ha Hb] Hps']; subst.
  apply IH.
  - now apply wf_create_rel.
  - exact Hps'.
Qed.

Lemma wf_delete_rels (doomed : Rel -> bool) (g : Graph) :
  wf g -> wf (delete_rels doomed g).
Proof.
  intros [H1 H2 H3 H4 H5]. constructor; simpl; try assumption.
  - now apply NoDup_map_filter.
  - apply Forall_forall. intros r Hr. apply filter_In in Hr.
    rewrite Forall_forall in H4. now apply H4.
  - apply Forall_forall. intros r Hr. apply filter_In in Hr.
    rewrite Forall_forall in H5. now apply H5.
Qed.

Lemma wf_set_props (f : Node -> Props) (g : Graph) :
  wf g -> wf (set_props f g).
Proof.
  intros [H1 H2 H3 H4 H5].
  assert (Hnid : map nid (nodes (set_props f g)) = map nid (nodes g)).
  { simpl. rewrite map_map. reflexivity. }
  constructor; try assumption.
  - now rewrite Hnid.
  - simpl. apply Forall_forall. intros n Hn. apply in_map_iff in Hn.
    destruct Hn as [n' [<- Hn]]. simpl. rewrite Forall_forall in H2.
    now apply H2.
  - unfold has_node. rewrite Hnid. exact H5.
Qed.

(** Deleting nodes keeps the invariant when no relationship is attached to
    any of them: the condition under which the store deletes a node. *)
Lemma wf_delete_nodes (doomed : Node -> bool) (g : Graph) :
  wf g ->
  (forall n, In n (nodes g) -> doomed n = true -> attached g (nid n) = false) ->
  wf (delete_nodes doomed g).
Proof.
  intros [H1 H2 H3 H4 H5] Hfree. constructor; simpl; try assumption.
  - now apply NoDup_map_filter.
  - apply Forall_forall. intros n Hn. apply filter_In in Hn.
    rewrite Forall_forall in H2. now apply H2.
  - apply Forall_forall. intros r Hr.
    rewrite Forall_forall in H5. destruct (H5 _ Hr) as [Ha Hb].
    assert (Hkeep : forall k, (k = rfrom r \/ k = rto r) -> has_node g k ->
                              has_node (delete_nodes doomed g) k).
    { intros k Hk Hin. unfold has_node in *. simpl.
      apply in_map_iff in Hin. destruct Hin as [n [Hn Hin]].
      apply in_map_iff. exists n. split; [exact Hn|].
      apply filter_In. split; [exact Hin|].
      destruct (doomed n) eqn:E; [|reflexivity].
      specialize (Hfree _ Hin E). unfold attached in Hfree.
      pose proof (@existsb_false_forall _ _ _ Hfree _ Hr) as Hno.
      simpl in Hno. apply orb_false_iff in Hno. destruct Hno as [N1 N2].
      apply Nat.eqb_neq in N1, N2. destruct Hk; congruence. }
    split; apply Hkeep; tauto.
Qed.

Section Invariance.

Context {platform : Platform}.

Lemma wf_createTweet_rows (datetime : Temporal) (text : string)
      (media : list string) (authorId : string)
      (matched : list (nat * UserNode)) :
  forall g : Graph,
    wf g -> Forall (fun p => has_node g (fst p)) matched ->
    wf (snd (TweetService.createTweet_rows datetime text media authorId
                                           matched g)).
Proof.
  induction matched as [|[uk u] rest IH]; intros g Hwf Hm; simpl;
    [exact Hwf|].
  inversion Hm as [|? ? Huk Hrest]; subst. simpl in Huk.
  destruct (TweetService.createTweet_rows _ _ _ _ rest _)
    as [rows g3] eqn:E. simpl.
  change g3 with (snd (rows, g3)). rewrite <- E. apply IH.
  - apply wf_create_rel.
    + apply (wf_create_node _ Hwf).
    + now apply has_node_create_node.
    + apply has_node_new.
  - eapply Forall_impl; [|exact Hrest]. simpl. intros p Hp.
    unfold has_node in *. simpl. rewrite map_app, in_app_iff. tauto.
Qed.

Lemma wf_createComment_rows (datetime : Temporal) (text authorId : string)
      (tweetIdProp : option string)
      (matched : list ((nat * UserNode) * (nat * TweetNode))) :
  forall g : Graph,
    wf g ->
    Forall (fun p => has_node g (fst (fst p)) /\ has_node g (fst (snd p)))
           matched ->
    wf (snd (TweetService.createComment_rows datetime text authorId
                                             tweetIdProp matched g)).
Proof.
  induction matched as [|[[uk u] [tk t]] rest IH]; intros g Hwf Hm; simpl;
    [exact Hwf|].
  inversion Hm as [|? ? [Huk Htk] Hrest]; subst. simpl in Huk, Htk.
  destruct (TweetService.createComment_rows _ _ _ _ rest _)
    as [rows g4] eqn:E. simpl.
  change g4 with (snd (rows, g4)). rewrite <- E. apply IH.
  - apply wf_create_rel.
    + apply wf_create_rel.
      * apply (wf_create_node _ Hwf).
      * now apply has_node_create_node.
      * apply has_node_new.
    + apply has_node_new.
    + now apply has_node_create_node.
  - eapply Forall_impl; [|exact Hrest]. simpl. intros p [Ha Hb].
    unfold has_node in *. simpl. rewrite map_app, !in_app_iff. tauto.
Qed.

Lemma list_prod_has_nodes {A B : Type} (g : Graph)
      (l : list (nat * A)) (l' : list (nat * B)) :
  Forall (fun p => has_node g (fst p)) l ->
  Forall (fun p => has_node g (fst p)) l' ->
  Forall (fun p => has_node g (fst p) /\ has_node g (snd p))
         (list_prod (map fst l) (map fst l')).
Proof.
  intros Hl Hl'. apply Forall_forall. intros [a b] Hin.
  apply in_prod_iff in Hin. destruct Hin as [Ha Hb].
  apply in_map_iff in Ha, Hb.
  destruct Ha as [p [<- Hp]], Hb as [q [<- Hq]].
  rewrite Forall_forall in Hl, Hl'. simpl. split; auto.
Qed.

Lemma users_by_id_has_nodes (g : Graph) (id : string) :
  Forall (fun p => has_node g (fst p)) (users_by_id g id).
Proof.
  apply Forall_forall. intros p. apply has_node_users_by_id.
Qed.

Lemma tweets_by_id_has_nodes (g : Graph) (id : string) :
  Forall (fun p => has_node g (fst p)) (tweets_by_id g id).
Proof.
  apply Forall_forall. intros p. apply has_node_tweets_by_id.
Qed.

Lemma comments_by_id_has_nodes (g : Graph) (id : string) :
  Forall (fun p => has_node g (fst p)) (comments_by_id g id).
Proof.
  apply Forall_forall. intros p. apply has_node_comments_by_id.
Qed.

(** Every write of the two services leaves a well-formed store well formed,
    whether it returns or throws, and every read leaves the store as it
    is. *)
Theorem services_keep_the_store_well_formed :
  forall (now : Js.Date) (datetime : Temporal) (text : string)
         (media : list string) (userId tweetId commentId : string)
         (viewer : option string) (g : Graph),
    wf g ->
    wf (snd (TweetService.createTweet now datetime text media userId g))
    /\ wf (snd (TweetService.likeTweet datetime tweetId userId g))
    /\ wf (snd (TweetService.unlikeTweet tweetId userId g))
    /\ wf (snd (TweetService.deleteTweet tweetId g))
    /\ wf (snd (TweetService.commentOnTweet now datetime text userId
                                            tweetId g))
    /\ wf (snd (CommentService.likeComment commentId userId g))
    /\ wf (snd (CommentService.unlikeComment commentId userId g))
    /\ snd (TweetService.fetchTweet now tweetId g) = g
    /\ snd (TweetService.listTweets g) = g
    /\ snd (TweetService.listUserTweets userId g) = g
    /\ snd (TweetService.listLikedTweets userId g) = g
    /\ snd (TweetService.listTimelineTweets userId g) = g
    /\ snd (CommentService.getCommentsForTweet tweetId viewer g) = g.
Proof.
  intros now datetime text media userId tweetId commentId viewer g Hwf.
  assert (Hfetch : forall nw id h, snd (TweetService.fetchTweet nw id h) = h).
  { intros nw id h. unfold TweetService.fetchTweet, TweetService.withSession,
      try_catch, bind, query.
    destruct (TweetService.fetchTweet_query id h) as [|[t u] l]; reflexivity. }
  split.
  { unfold TweetService.createTweet.
    destruct (negb _); [exact Hwf|].
    unfold TweetService.withSession, try_catch, transaction, bind, update,
      TweetService.createTweet_query.
    pose proof (@wf_createTweet_rows datetime text media userId
                  (users_by_id g userId) g Hwf
                  (users_by_id_has_nodes g userId)) as H.
    destruct (TweetService.createTweet_rows _ _ _ _ _ g) as [rows g'].
    destruct rows as [|[t u] rows]; simpl in *; assumption. }
  split.
  { unfold TweetService.likeTweet, TweetService.withSession, try_catch,
      transaction, bind, query, update, TweetService.createLike_query, ret.
    destruct (0 <? _); simpl; [exact Hwf|].
    apply wf_create_rels; [exact Hwf|].
    apply list_prod_has_nodes;
      [apply users_by_id_has_nodes | apply tweets_by_id_has_nodes]. }
  split.
  { unfold TweetService.unlikeTweet, TweetService.withSession, try_catch,
      bind, update, TweetService.deleteLike_query, ret. simpl.
    now apply wf_delete_rels. }
  split.
  { unfold TweetService.deleteTweet, TweetService.withSession, try_catch,
      transaction, bind, update, TweetService.deleteIncoming_query,
      TweetService.deleteNode_query, ret.
    set (g1 := delete_rels (to_tweet g tweetId) g).
    destruct (existsb _ (tweets_by_id g1 tweetId)) eqn:Hatt; simpl;
      [exact Hwf|].
    apply wf_delete_nodes; [now apply wf_delete_rels|].
    intros [k p] Hn Hd. unfold TweetService.is_tweet in Hd. simpl in Hd.
    destruct p as [|t|]; try discriminate.
    assert (Hin : In (k, t) (tweets_by_id g1 tweetId)).
    { unfold tweets_by_id. apply filter_In. split; [|exact Hd].
      now apply tweets_In. }
    apply (@existsb_false_forall _ _ _ Hatt _ Hin). }
  split.
  { unfold TweetService.commentOnTweet, TweetService.commentOnTweet_under,
      run.
    unfold TweetService.withSession at 1. unfold try_catch at 1 2.
    unfold bind at 1.
    destruct (TweetService.fetchTweet now tweetId g) as [[[tw|]|e] g0] eqn:E;
      pose proof (Hfetch now tweetId g) as E0; rewrite E in E0; simpl in E0;
      subst g0; simpl; try exact Hwf.
    unfold bind, transaction, update, TweetService.incrementComments_query,
      TweetService.createComment_query.
    pose proof (@wf_createComment_rows datetime text userId None
                  (list_prod (users_by_id g userId) (tweets_by_id g tweetId))
                  g Hwf) as H.
    destruct (TweetService.createComment_rows _ _ _ _ _ g) as [rows g1].
    simpl in H. cbn [ret].
    set (g2 := set_props (TweetService.bump_commentsCount tweetId) g1).
    assert (Hg2 : wf g2).
    { apply wf_set_props, H. apply Forall_forall. intros [p q] Hin.
      apply in_prod_iff in Hin. destruct Hin as [Hp Hq]. simpl. split.
      - eapply has_node_users_by_id, Hp.
      - eapply has_node_tweets_by_id, Hq. }
    destruct (TweetService.fetchTweet now tweetId g2) as [[o|e] g3] eqn:E2;
      pose proof (Hfetch now tweetId g2) as E3; rewrite E2 in E3;
      simpl in E3; subst g3; simpl; exact Hg2. }
  split.
  { unfold CommentService.likeComment, CommentService.withSession, try_catch,
      transaction, bind, query, update, CommentService.createLike_query, ret.
    destruct (0 <? _); simpl; [exact Hwf|].
    apply wf_create_rels; [exact Hwf|].
    apply list_prod_has_nodes;
      [apply users_by_id_has_nodes | apply comments_by_id_has_nodes]. }
  split.
  { unfold CommentService.unlikeComment, CommentService.withSession,
      try_catch, transaction, bind, query, update,
      CommentService.deleteLike_query, ret.
    destruct (_ =? 0); simpl; [exact Hwf|]. now apply wf_delete_rels. }
  split; [apply Hfetch|].
  repeat split; reflexivity.
Qed.

End Invariance.

(* ===================================================================== *)
(** * What the timeline holds *)
(* ===================================================================== *)

Lemma insert_by_Permutation {A : Type} (leb : A -> A -> bool) (x : A)
      (l : list A) :
  Permutation (insert_by leb x l) (x :: l).
Proof.
  induction l as [|y l IH]; simpl; [reflexivity|].
  destruct (leb x y); [reflexivity|].
  rewrite IH. apply perm_swap.
Qed.

Lemma orderBy_Permutation {A : Type} (leb : A -> A -> bool) (l : list A) :
  Permutation (orderBy leb l) l.
Proof.
  induction l as [|x l IH]; [reflexivity|].
  unfold orderBy in *. simpl. rewrite insert_by_Permutation.
  now constructor.
Qed.

Lemma insert_by_Sorted {A : Type} (leb : A -> A -> bool) (x : A)
      (l : list A) :
  (forall a b, leb a b = true \/ leb b a = true) ->
  Sorted (fun a b => leb a b = true) l ->
  Sorted (fun a b => leb a b = true) (insert_by leb x l).
Proof.
  intros Htotal. induction l as [|y l IH]; intros Hs; simpl.
  - repeat constructor.
  - destruct (leb x y) eqn:E.
    + constructor; [exact Hs|]. now constructor.
    + inversion Hs as [|? ? Hs' Hhd]; subst.
      constructor; [now apply IH|].
      destruct l as [|z l]; simpl.
      * constructor. destruct (Htotal x y); congruence.
      * destruct (leb x z).
        -- constructor. destruct (Htotal x y); congruence.
        -- inversion Hhd; subst. now constructor.
Qed.

Lemma orderBy_Sorted {A : Type} (leb : A -> A -> bool) (l : list A) :
  (forall a b, leb a b = true \/ leb b a = true) ->
  Sorted (fun a b => leb a b = true) (orderBy leb l).
Proof.
  intros Htotal. induction l as [|x l IH]; [constructor|].
  unfold orderBy in *. simpl. now apply insert_by_Sorted.
Qed.

Section Timeline.

Context {platform : Platform}.

(** The rows of [listTimelineTweets] are, up to their order, the posted
    tweets taken once for every user that [userId] follows and kept when
    the poster carries the id of that user or [userId]; they come in the
    order of the store's comparison when that is total.  So a tweet of a
    followed user is in the timeline, and a tweet is not in the timeline of
    a user who is not its poster and follows nobody carrying its poster's
    id. *)
Theorem timeline_rows :
  forall (userId : string) (g : Graph),
    Permutation
      (TweetService.listTimelineTweets_query userId g)
      (flat_map
         (fun following =>
            filter (fun row =>
                      String.eqb (u_id (snd row)) (u_id following)
                      || String.eqb (u_id (snd row)) userId)
                   (TweetService.posted g))
         (TweetService.followings userId g))
    /\ ((forall a b, desc_leb a b = true \/ desc_leb b a = true) ->
        Sorted (fun a b => desc_leb (t_createdAt (fst a))
                                    (t_createdAt (fst b)) = true)
               (TweetService.listTimelineTweets_query userId g))
    /\ (forall t poster following,
          In following (TweetService.followings userId g) ->
          In (t, poster) (TweetService.posted g) ->
          u_id poster = u_id following ->
          In (t, poster) (TweetService.listTimelineTweets_query userId g))
    /\ (forall t poster,
          u_id poster <> userId ->
          (forall following,
              In following (TweetService.followings userId g) ->
              u_id following <> u_id poster) ->
          ~ In (t, poster) (TweetService.listTimelineTweets_query userId g)).
Proof.
  intros userId g. unfold TweetService.listTimelineTweets_query.
  split; [apply orderBy_Permutation|]. split.
  { intros Htotal.
    apply (@orderBy_Sorted _ TweetService.by_tweet_createdAt).
    intros a b. apply Htotal. }
  split.
  - intros t poster following Hf Hp Hid. apply orderBy_In.
    apply in_flat_map. exists following. split; [exact Hf|].
    apply filter_In. split; [exact Hp|]. simpl.
    unfold cypher_IN_scalar. rewrite Hid, String.eqb_refl. reflexivity.
  - intros t poster Hne Hnone Hin. apply orderBy_In in Hin.
    apply in_flat_map in Hin. destruct Hin as [following [Hf Hin]].
    apply filter_In in Hin. destruct Hin as [_ Hin]. simpl in Hin.
    apply orb_true_iff in Hin. unfold cypher_IN_scalar in Hin.
    destruct Hin as [Hin|Hin]; apply String.eqb_eq in Hin.
    + apply (Hnone _ Hf). now symmetry.
    + now apply Hne.
Qed.

End Timeline.

(* ===================================================================== *)
(** * Blank texts *)
(* ===================================================================== *)

Lemma trimStart_blank (s : string) :
  Js.trimStart s = "" <->
  Forall (fun c => Js.isWhiteSpace c = true) (list_ascii_of_string s).
Proof.
  induction s as [|c s IH]; simpl.
  - split; [constructor | reflexivity].
  - destruct (Js.isWhiteSpace c) eqn:E.
    + rewrite IH. split; intros H.
      * now constructor.
      * now inversion H.
    + split; intros H; [discriminate|].
      inversion H; congruence.
Qed.

Lemma rev_append_chars (s acc : string) :
  list_ascii_of_string (Js.rev_append s acc)
  = rev (list_ascii_of_string s) ++ list_ascii_of_string acc.
Proof.
  revert acc. induction s as [|c s IH]; intros acc; simpl; [reflexivity|].
  rewrite IH. simpl. now rewrite <- app_assoc.
Qed.

Lemma reverse_chars (s : string) :
  list_ascii_of_string (Js.reverse s) = rev (list_ascii_of_string s).
Proof. unfold Js.reverse. rewrite rev_append_chars. apply app_nil_r. Qed.

Lemma chars_nil (s : string) : list_ascii_of_string s = [] -> s = "".
Proof. destruct s; [reflexivity | discriminate]. Qed.

Lemma trimStart_head (s : string) :
  Js.trimStart s = ""
  \/ exists c rest, Js.trimStart s = String c rest
                    /\ Js.isWhiteSpace c = false.
Proof.
  induction s as [|c s IH]; simpl; [now left|].
  destruct (Js.isWhiteSpace c) eqn:E; [exact IH|].
  right. now exists c, s.
Qed.

(** [trim] leaves nothing exactly of the strings that hold white space
    only. *)
Lemma trim_blank (s : string) :
  Js.trim s = "" <->
  Forall (fun c => Js.isWhiteSpace c = true) (list_ascii_of_string s).
Proof.
  unfold Js.trim, Js.trimEnd. split.
  - intros H.
    assert (H1 : Js.trimStart (Js.reverse (Js.trimStart s)) = "").
    { apply chars_nil.
      apply (f_equal list_ascii_of_string) in H.
      rewrite reverse_chars in H. simpl in H.
      destruct (list_ascii_of_string
                  (Js.trimStart (Js.reverse (Js.trimStart s))))
        as [|c l]; [reflexivity|].
      simpl in H. destruct (rev l); discriminate. }
    apply trimStart_blank in H1. rewrite reverse_chars in H1.
    destruct (trimStart_head s) as [E|[c [rest [E Hc]]]].
    + now apply trimStart_blank.
    + rewrite E in H1. simpl in H1. apply Forall_app in H1.
      destruct H1 as [_ H1]. inversion H1; congruence.
  - intros H. apply trimStart_blank in H. rewrite H. reflexivity.
Qed.

(* ===================================================================== *)
(** * The tweet service at its edges *)
(* ===================================================================== *)

Section TweetEdges.

Context {platform : Platform}.

(** [createTweet] refuses a text of white space only, the empty text
    among them, with the INVALID_INPUT error itself, before a session is
    opened, and no other text for that reason; it refuses an [authorId]
    that no user node carries with TWEET_CREATION_ERROR inside the
    DATABASE_ERROR of the session wrapper.  Either way the store is as it
    was. *)
Theorem createTweet_rejections :
  forall (now : Js.Date) (datetime : Temporal) (text : string)
         (media : list string) (authorId : string) (g : Graph),
    (TweetService.createTweet now datetime text media authorId g
     = (Throw (Js.ApolloError "Tweet text cannot be empty"
                              (Some "INVALID_INPUT") None), g)
     <-> Forall (fun c => Js.isWhiteSpace c = true)
                (list_ascii_of_string text))
    /\ (Js.trim text <> "" -> users_by_id g authorId = [] ->
        TweetService.createTweet now datetime text media authorId g
        = (Throw (Js.ApolloError "Failed to execute database operation"
                    (Some "DATABASE_ERROR")
                    (Some (Js.ApolloError "Failed to create tweet"
                             (Some "TWEET_CREATION_ERROR") None))), g)).
Proof.
  intros now datetime text media authorId g. split.
  - rewrite <- trim_blank. split.
    + intros H. destruct (Js.trim text) eqn:E; [reflexivity|]. exfalso.
      unfold TweetService.createTweet in H. rewrite E in H. simpl in H.
      unfold TweetService.withSession, try_catch in H.
      destruct (transaction _ g) as [[x|e] g0]; discriminate.
    + intros H. unfold TweetService.createTweet. rewrite H. reflexivity.
  - intros H Hu. unfold TweetService.createTweet.
    rewrite (@trim_truthy text H). simpl.
    unfold TweetService.withSession, try_catch, transaction, bind, update,
      TweetService.createTweet_query.
    rewrite Hu. reflexivity.
Qed.

Lemma fetchTweet_query_In (id : string) (g : Graph) (t : TweetNode)
      (u : UserNode) :
  In (t, u) (TweetService.fetchTweet_query id g) <->
  exists k, In (k, t) (tweets g) /\ t_id t = id
            /\ In u (TweetService.posters g k).
Proof.
  unfold TweetService.fetchTweet_query, tweets_by_id.
  rewrite in_flat_map. split.
  - intros [[k t'] [H1 H2]]. apply filter_In in H1. simpl in H1, H2.
    apply in_map_iff in H2. destruct H2 as [u' [Heq H2]].
    injection Heq as -> ->. exists k. destruct H1 as [H1 H3].
    apply String.eqb_eq in H3. tauto.
  - intros [k [H1 [H2 H3]]]. exists (k, t). split.
    + apply filter_In. simpl. split; [exact H1|]. now apply String.eqb_eq.
    + simpl. apply in_map_iff. now exists u.
Qed.

(** [fetchTweet] never throws and never writes.  It returns null exactly
    when no tweet node with that id has a POSTED relationship from a user
    node, so a tweet node without such a relationship is not found; what it
    returns otherwise is such a tweet with one of its posters, and carries
    the id asked for. *)
Theorem fetchTweet_finds_posted_tweets :
  forall (now : Js.Date) (id : string) (g : Graph),
    (exists o, TweetService.fetchTweet now id g = (Return o, g))
    /\ (TweetService.fetchTweet now id g = (Return None, g) <->
        forall k t, In (k, t) (tweets g) -> t_id t = id ->
                    TweetService.posters g k = [])
    /\ (forall tw,
          TweetService.fetchTweet now id g = (Return (Some tw), g) ->
          Tweet.id tw = id
          /\ exists k t u,
              In (k, t) (tweets g) /\ In u (TweetService.posters g k)
              /\ tw = TweetService.mapTweet now t u).
Proof.
  intros now id g.
  unfold TweetService.fetchTweet, TweetService.withSession, try_catch,
    bind, query.
  destruct (TweetService.fetchTweet_query id g) as [|[t u] rows] eqn:E;
    cbn [ret].
  - split; [eexists; reflexivity|]. split.
    + split; [|reflexivity]. intros _ k t Hin Hid.
      destruct (TweetService.posters g k) as [|u l] eqn:Ep; [reflexivity|].
      assert (H : In (t, u) (TweetService.fetchTweet_query id g)).
      { apply fetchTweet_query_In. exists k. rewrite Ep. simpl. tauto. }
      rewrite E in H. contradiction.
    + intros tw H. discriminate.
  - assert (H : In (t, u) (TweetService.fetchTweet_query id g))
      by (rewrite E; now left).
    apply fetchTweet_query_In in H. destruct H as [k [H1 [H2 H3]]].
    split; [eexists; reflexivity|]. split.
    + split; [discriminate|]. intros Hnone.
      rewrite (Hnone k t H1 H2) in H3. contradiction.
    + intros tw Htw. injection Htw as <-. split; [exact H2|].
      exists k, t, u. tauto.
Qed.

(** [commentOnTweet] on a tweet that [fetchTweet] does not find throws
    (Tweet not found, inside COMMENT_CREATION_ERROR, inside DATABASE_ERROR)
    and writes nothing. *)
Theorem commentOnTweet_on_a_missing_tweet :
  forall (now : Js.Date) (datetime : Temporal)
         (text authorId tweetId : string) (g : Graph),
    TweetService.fetchTweet_query tweetId g = [] ->
    TweetService.commentOnTweet now datetime text authorId tweetId g
    = (Throw (Js.ApolloError "Failed to execute database operation"
                (Some "DATABASE_ERROR")
                (Some (Js.ApolloError "Failed to create comment"
                         (Some "COMMENT_CREATION_ERROR")
                         (Some (Js.mkError "Tweet not found"))))), g).
Proof.
  intros now datetime text authorId tweetId g H.
  unfold TweetService.commentOnTweet, TweetService.commentOnTweet_under,
    run, TweetService.fetchTweet,
    TweetService.withSession, try_catch, bind, query.
  rewrite H. reflexivity.
Qed.

(** [commentOnTweet] with an author id that no user node carries, on a
    tweet that exists: the first statement matches nothing and creates
    nothing, the second still adds one to [commentsCount], and the call
    returns the tweet with the raised count.  The counter then counts a
    comment that does not exist. *)
Theorem commentOnTweet_by_an_unknown_author :
  forall (now : Js.Date) (datetime : Temporal)
         (text authorId tweetId : string) (g : Graph)
         (t0 : TweetNode) (u0 : UserNode) (more : list (TweetNode * UserNode)),
    wf g ->
    TweetService.fetchTweet_query tweetId g = (t0, u0) :: more ->
    users_by_id g authorId = [] ->
    exists tw g',
      TweetService.commentOnTweet now datetime text authorId tweetId g
      = (Return (Some tw), g')
      /\ Tweet.commentsCount tw
         = Some (Js.nullish (t_commentsCount t0) 0 + 1)%Z
      /\ comments g' = comments g
      /\ map nid (nodes g') = map nid (nodes g)
      /\ rels g' = rels g.
Proof.
  intros now datetime text authorId tweetId g t0 u0 more Hwf Hfetch Hu.
  set (g' := set_props (TweetService.bump_commentsCount tweetId) g).
  assert (Hafter : TweetService.fetchTweet_query tweetId g'
                   = map (fun row => (TweetService.bump_tweet tweetId (fst row),
                                      snd row))
                         (TweetService.fetchTweet_query tweetId g)).
  { unfold g'.
    apply (@fetchTweet_query_after_comments tweetId tweetId g g
             [] []); auto.
    - now rewrite app_nil_r.
    - now rewrite app_nil_r. }
  assert (Hid : t_id t0 = tweetId).
  { assert (Hin : In (t0, u0) (TweetService.fetchTweet_query tweetId g))
      by (rewrite Hfetch; now left).
    apply fetchTweet_query_In in Hin. destruct Hin as [k Hin]. tauto. }
  exists (TweetService.mapTweet now (TweetService.bump_tweet tweetId t0) u0),
    g'.
  split.
  { unfold TweetService.commentOnTweet, TweetService.commentOnTweet_under,
      run.
    unfold TweetService.withSession at 1. unfold try_catch at 1 2.
    unfold bind at 1.
    unfold TweetService.fetchTweet at 1, TweetService.withSession at 1,
      try_catch at 1, bind at 1, query at 1.
    rewrite Hfetch. cbn [ret].
    unfold bind, transaction, update, TweetService.incrementComments_query,
      TweetService.createComment_query.
    rewrite Hu. cbn [list_prod TweetService.createComment_rows ret].
    fold g'.
    unfold TweetService.fetchTweet, TweetService.withSession, try_catch,
      bind, query.
    rewrite Hafter, Hfetch. reflexivity. }
  split.
  { simpl. unfold TweetService.bump_tweet. rewrite Hid, String.eqb_refl.
    reflexivity. }
  split.
  { unfold g', comments, set_props. simpl.
    induction (nodes g) as [|n ns IH]; [reflexivity|]. simpl.
    rewrite IH. unfold TweetService.bump_commentsCount.
    destruct (props n); reflexivity. }
  split; [|reflexivity].
  unfold g'. simpl. now rewrite map_map.
Qed.

End TweetEdges.

(* ===================================================================== *)
(** * Deleting a tweet, exactly *)
(* ===================================================================== *)

Lemma users_delete_tweets (tweetId : string) (ns : list Node)
      (rs rs' : list Rel) (m m' : nat) :
  users (mkGraph (filter (fun n => negb (TweetService.is_tweet tweetId n)) ns)
                 rs m)
  = users (mkGraph ns rs' m').
Proof.
  unfold users. simpl. induction ns as [|n ns IH]; [reflexivity|].
  simpl. unfold TweetService.is_tweet at 1.
  destruct (props n) as [u|t|c] eqn:E; simpl; rewrite ?E; simpl.
  - now rewrite IH.
  - destruct (String.eqb (t_id t) tweetId); simpl; rewrite ?E; exact IH.
  - exact IH.
Qed.

Lemma comments_delete_tweets (tweetId : string) (ns : list Node)
      (rs rs' : list Rel) (m m' : nat) :
  comments (mkGraph (filter (fun n => negb (TweetService.is_tweet tweetId n))
                            ns) rs m)
  = comments (mkGraph ns rs' m').
Proof.
  unfold comments. simpl. induction ns as [|n ns IH]; [reflexivity|].
  simpl. unfold TweetService.is_tweet at 1.
  destruct (props n) as [u|t|c] eqn:E; simpl; rewrite ?E; simpl.
  - exact IH.
  - destruct (String.eqb (t_id t) tweetId); simpl; rewrite ?E; exact IH.
  - now rewrite IH.
Qed.

Lemma filter_all_false {A : Type} (f : A -> bool) (l : list A) :
  (forall x, In x l -> f x = false) -> filter f l = [].
Proof.
  induction l as [|x l IH]; intros H; simpl; [reflexivity|].
  rewrite (H x (or_introl eq_refl)). apply IH. intros y Hy. apply H.
  now right.
Qed.

(** No tweet node with the id has a relationship left once those that end
    at such a node are deleted, when every relationship that starts at one
    also ends at one. *)
Lemma tweets_detached_after_deleteIncoming (tweetId : string) (g : Graph) :
  wf g ->
  (forall r p, In r (rels g) -> In p (tweets_by_id g tweetId) ->
               rfrom r = fst p -> to_tweet g tweetId r = true) ->
  existsb (fun p => attached (delete_rels (to_tweet g tweetId) g) (fst p))
          (tweets_by_id (delete_rels (to_tweet g tweetId) g) tweetId)
  = false.
Proof.
  intros Hwf Hcond. set (g1 := delete_rels (to_tweet g tweetId) g).
  destruct (existsb _ (tweets_by_id g1 tweetId)) eqn:E; [|reflexivity].
  exfalso. apply existsb_exists in E. destruct E as [[k t] [Hp Ha]].
  simpl in Ha. unfold attached in Ha. apply existsb_exists in Ha.
  destruct Ha as [r [Hr Hk]]. simpl in Hr. apply filter_In in Hr.
  destruct Hr as [Hr Hnot]. apply negb_true_iff in Hnot.
  change (tweets_by_id g1 tweetId) with (tweets_by_id g tweetId) in Hp.
  apply orb_true_iff in Hk. destruct Hk as [Hk|Hk]; apply Nat.eqb_eq in Hk.
  - rewrite (Hcond r (k, t) Hr Hp Hk) in Hnot. discriminate.
  - unfold to_tweet in Hnot. rewrite Hk in Hnot.
    unfold tweets_by_id in Hp. apply filter_In in Hp.
    destruct Hp as [Hp Hid]. simpl in Hid.
    rewrite (@tweet_at_unique g k t Hwf Hp), Hid in Hnot. discriminate.
Qed.

Lemma tweets_by_id_deleted (tweetId : string) (g : Graph) :
  tweets_by_id (delete_nodes (TweetService.is_tweet tweetId) g) tweetId = [].
Proof.
  unfold tweets_by_id. apply filter_all_false. intros [k t] Ht.
  apply tweets_In in Ht. simpl in Ht. apply filter_In in Ht.
  destruct Ht as [_ Ht]. apply negb_true_iff in Ht. exact Ht.
Qed.

(** On a well-formed store [deleteTweet] succeeds exactly when every
    relationship that starts at a tweet node with the id also ends at one.
    It then removes the tweet nodes with the id and the relationships that
    end at them, and nothing else: user nodes and comment nodes stay, the
    comments of the tweet without their COMMENTS_ON relationship.  An id
    that no tweet carries gives true as well.  Otherwise the store refuses
    the deletion, the call throws TWEET_DELETION_ERROR inside
    DATABASE_ERROR, and the transaction leaves the store as it was. *)
Theorem deleteTweet_exactly :
  forall (tweetId : string) (g : Graph),
    wf g ->
    ((forall r p, In r (rels g) -> In p (tweets_by_id g tweetId) ->
                  rfrom r = fst p -> to_tweet g tweetId r = true) ->
     exists g',
       TweetService.deleteTweet tweetId g = (Return true, g')
       /\ nodes g'
          = filter (fun n => negb (TweetService.is_tweet tweetId n)) (nodes g)
       /\ rels g' = filter (fun r => negb (to_tweet g tweetId r)) (rels g)
       /\ next g' = next g
       /\ users g' = users g
       /\ comments g' = comments g)
    /\ ((exists r p, In r (rels g) /\ In p (tweets_by_id g tweetId)
                     /\ rfrom r = fst p /\ to_tweet g tweetId r = false) ->
        TweetService.deleteTweet tweetId g
        = (Throw (Js.ApolloError "Failed to execute database operation"
                    (Some "DATABASE_ERROR")
                    (Some (Js.ApolloError "Failed to delete tweet"
                             (Some "TWEET_DELETION_ERROR")
                             (Some (Js.mkError
          "Cannot delete node, because it still has relationships"))))),
           g)).
Proof.
  intros tweetId g Hwf.
  unfold TweetService.deleteTweet, TweetService.withSession, try_catch,
    transaction, bind, update, TweetService.deleteIncoming_query,
    TweetService.deleteNode_query, ret.
  set (g1 := delete_rels (to_tweet g tweetId) g).
  split.
  - intros Hcond.
    pose proof (@tweets_detached_after_deleteIncoming tweetId g Hwf Hcond)
      as Hno.
    fold g1 in Hno.
    rewrite Hno. eexists. split; [reflexivity|]. simpl.
    repeat split; try reflexivity.
    + destruct g as [ns rs m]. apply users_delete_tweets.
    + destruct g as [ns rs m]. apply comments_delete_tweets.
  - intros [r [[k t] [Hr [Hp [Hk Hnot]]]]]. simpl in Hk.
    assert (Hyes : existsb (fun p => attached g1 (fst p))
                           (tweets_by_id g1 tweetId) = true).
    { apply existsb_exists. exists (k, t). split; [exact Hp|]. simpl.
      unfold attached. apply existsb_exists. exists r. split.
      - simpl. apply filter_In. split; [exact Hr|]. now rewrite Hnot.
      - rewrite Hk, Nat.eqb_refl. reflexivity. }
    rewrite Hyes. reflexivity.
Qed.

(* ===================================================================== *)
(** * The life of a like on a tweet *)
(* ===================================================================== *)

Lemma tweet_is_like_nodes (g g' : Graph) (userId tweetId : string)
      (r : Rel) :
  nodes g' = nodes g ->
  TweetService.is_like g' userId tweetId r
  = TweetService.is_like g userId tweetId r.
Proof.
  intros Hn. unfold TweetService.is_like, from_user, to_tweet.
  now rewrite (@user_at_nodes g g' (rfrom r) Hn),
    (@tweet_at_nodes g g' (rto r) Hn).
Qed.

Lemma list_prod_nil_r {A B : Type} (l : list A) :
  list_prod l (@nil B) = [].
Proof. induction l as [|a l IH]; simpl; [reflexivity | exact IH]. Qed.

(** The relationships that [likeTweet] writes are likes of the user on the
    tweet. *)
Lemma created_likes_are_likes (datetime : Temporal)
      (userId tweetId : string) (g : Graph) :
  wf g ->
  exists rs,
    rels (create_rels LIKES_TWEET (DVTemporal datetime)
            (list_prod (map fst (users_by_id g userId))
                       (map fst (tweets_by_id g tweetId))) g)
    = rels g ++ rs
    /\ Forall (fun r => rtype r = LIKES_TWEET
                        /\ TweetService.is_like g userId tweetId r = true) rs
    /\ (users_by_id g userId <> [] -> tweets_by_id g tweetId <> [] ->
        rs <> [])
    /\ (forall p q, In p (users_by_id g userId) ->
                    In q (tweets_by_id g tweetId) ->
                    exists r, In r rs /\ rfrom r = fst p /\ rto r = fst q).
Proof.
  intros Hwf.
  destruct (create_rels_rels LIKES_TWEET (DVTemporal datetime)
              (list_prod (map fst (users_by_id g userId))
                         (map fst (tweets_by_id g tweetId))) g)
    as [rs [H1 [H2 H3]]].
  exists rs. split; [exact H1|].
  assert (Hpairs : forall p q, In p (users_by_id g userId) ->
                     In q (tweets_by_id g tweetId) ->
                     exists r, In r rs /\ rfrom r = fst p /\ rto r = fst q).
  { intros p q Hp Hq. rewrite Forall_forall in H3.
    destruct (H3 (fst p, fst q)) as [r Hr].
    - apply in_prod; now apply in_map.
    - exists r. exact Hr. }
  split; [|split; [|exact Hpairs]].
  - apply Forall_forall. intros r Hr. rewrite Forall_forall in H2.
    destruct (H2 _ Hr) as [Hty Hin]. split; [exact Hty|].
    apply in_prod_iff in Hin. destruct Hin as [Hu Ht].
    apply in_map_iff in Hu, Ht.
    destruct Hu as [[uk u] [Eu Hu]], Ht as [[tk t] [Et Ht]].
    simpl in Eu, Et. subst uk tk.
    unfold users_by_id in Hu. apply filter_In in Hu.
    unfold tweets_by_id in Ht. apply filter_In in Ht.
    simpl in Hu, Ht. destruct Hu as [Hu Hui], Ht as [Ht Hti].
    unfold TweetService.is_like, from_user, to_tweet.
    rewrite Hty, (@user_at_unique g (rfrom r) u Hwf Hu),
      (@tweet_at_unique g (rto r) t Hwf Ht), Hui, Hti. reflexivity.
  - intros Hu Ht.
    destruct (users_by_id g userId) as [|p ps] eqn:Eu; [congruence|].
    destruct (tweets_by_id g tweetId) as [|q qs] eqn:Et; [congruence|].
    destruct (Hpairs p q) as [r [Hr _]]; [now left | now left |].
    intros Hnil. rewrite Hnil in Hr. contradiction.
Qed.

(** The life of a like on a well-formed store.  After [unlikeTweet] the
    user has no like on the tweet.  From a state without such a like,
    [likeTweet] returns true; when the user and the tweet exist, a second
    [likeTweet] throws; when one of them does not exist, [likeTweet] has
    written nothing and still returned true; and [unlikeTweet] after the
    like brings back the nodes and the relationships of before. *)
Theorem tweet_like_lifecycle :
  forall (datetime datetime' : Temporal) (tweetId userId : string)
         (g : Graph),
    wf g ->
    TweetService.existingLike_query userId tweetId
      (snd (TweetService.unlikeTweet tweetId userId g)) = []
    /\ (TweetService.existingLike_query userId tweetId g = [] ->
        exists g1,
          TweetService.likeTweet datetime tweetId userId g
          = (Return true, g1)
          /\ (users_by_id g userId <> [] -> tweets_by_id g tweetId <> [] ->
              TweetService.likeTweet datetime' tweetId userId g1
              = (Throw (Js.ApolloError
                          "Failed to execute database operation"
                          (Some "DATABASE_ERROR")
                          (Some (Js.mkError "Tweet already liked"))), g1))
          /\ (users_by_id g userId = [] \/ tweets_by_id g tweetId = [] ->
              g1 = g)
          /\ nodes (snd (TweetService.unlikeTweet tweetId userId g1))
             = nodes g
          /\ rels (snd (TweetService.unlikeTweet tweetId userId g1))
             = rels g).
Proof.
  intros datetime datetime' tweetId userId g Hwf. split.
  - unfold TweetService.unlikeTweet, TweetService.withSession, try_catch,
      bind, update, TweetService.deleteLike_query, ret. simpl.
    unfold TweetService.existingLike_query. simpl.
    apply filter_all_false. intros r Hr. apply filter_In in Hr.
    destruct Hr as [_ Hr]. apply negb_true_iff in Hr.
    rewrite <- Hr. now apply tweet_is_like_nodes.
  - intros Hnone.
    set (g1 := create_rels LIKES_TWEET (DVTemporal datetime)
                 (list_prod (map fst (users_by_id g userId))
                            (map fst (tweets_by_id g tweetId))) g).
    destruct (@created_likes_are_likes datetime userId tweetId g Hwf)
      as [rs [Hr [Hall [Hsome _]]]].
    fold g1 in Hr.
    assert (Hn : nodes g1 = nodes g) by apply create_rels_nodes.
    exists g1. split.
    { unfold TweetService.likeTweet, TweetService.withSession, try_catch,
        transaction, bind, query, update, TweetService.createLike_query,
        ret. rewrite Hnone. reflexivity. }
    split.
    { intros Hu Ht.
      assert (Hex : TweetService.existingLike_query userId tweetId g1
                    <> []).
      { unfold TweetService.existingLike_query. rewrite Hr, filter_app.
        specialize (Hsome Hu Ht). destruct rs as [|r rs']; [congruence|].
        inversion Hall as [|? ? [_ Hlike] _]; subst.
        simpl.
        rewrite (@tweet_is_like_nodes g g1 userId tweetId r Hn), Hlike.
        intros Hnil. apply app_eq_nil in Hnil.
        destruct Hnil; discriminate. }
      unfold TweetService.likeTweet, TweetService.withSession, try_catch,
        transaction, bind, query.
      destruct (TweetService.existingLike_query userId tweetId g1);
        [congruence | reflexivity]. }
    split.
    { intros Hempty. unfold g1.
      destruct Hempty as [-> | ->]; simpl.
      - reflexivity.
      - now rewrite list_prod_nil_r. }
    unfold TweetService.unlikeTweet, TweetService.withSession, try_catch,
      bind, update, TweetService.deleteLike_query, ret. simpl.
    split; [exact Hn|].
    assert (Hext : forall l,
               filter (fun r => negb (TweetService.is_like g1 userId
                                        tweetId r)) l
               = filter (fun r => negb (TweetService.is_like g userId
                                          tweetId r)) l).
    { intros l. apply filter_ext. intros r.
      now rewrite (@tweet_is_like_nodes g g1 userId tweetId r Hn). }
    rewrite Hr, filter_app, !Hext.
    rewrite (@filter_none_nil _ _ (rels g) Hnone).
    rewrite (@filter_all_false _ _ rs); [apply app_nil_r|].
    intros r Hin. rewrite Forall_forall in Hall.
    destruct (Hall _ Hin) as [_ Hl]. cbv beta. now rewrite Hl.
Qed.

(* ===================================================================== *)
(** * What the list operations show *)
(* ===================================================================== *)

Lemma RelationshipType_eqb_eq (a b : RelationshipType) :
  RelationshipType_eqb a b = true <-> a = b.
Proof. destruct a, b; simpl; split; intros H; congruence. Qed.

Lemma posters_same (g g' : Graph) (k : nat) :
  nodes g' = nodes g -> incoming g' POSTED k = incoming g POSTED k ->
  TweetService.posters g' k = TweetService.posters g k.
Proof.
  intros Hn Hi. unfold TweetService.posters. rewrite Hi.
  apply flat_map_ext. intros r. now rewrite (@user_at_nodes g g' (rfrom r) Hn).
Qed.

Section Listings.

Context {platform : Platform}.

Lemma listLikedTweets_query_In (userId : string) (g : Graph) (r : Rel)
      (t : TweetNode) (a : UserNode) :
  In (r, (t, a)) (TweetService.listLikedTweets_query userId g)
  <-> In r (rels g) /\ rtype r = LIKES_TWEET
      /\ from_user g userId r = true
      /\ tweet_at g (rto r) = Some t
      /\ In a (TweetService.posters g (rto r)).
Proof.
  unfold TweetService.listLikedTweets_query.
  rewrite orderBy_In, in_flat_map. split.
  - intros [r' [Hr' Hin]]. apply filter_In in Hr'.
    destruct Hr' as [Hr' Hc]. apply andb_true_iff in Hc.
    destruct Hc as [Hty Hfrom]. apply RelationshipType_eqb_eq in Hty.
    destruct (tweet_at g (rto r')) as [t'|] eqn:Et; [|contradiction].
    apply in_map_iff in Hin. destruct Hin as [a' [E Ha]].
    inversion E; subst. tauto.
  - intros [Hr [Hty [Hfrom [Ht Ha]]]]. exists r. split.
    + apply filter_In. split; [exact Hr|].
      apply andb_true_iff. split; [now apply RelationshipType_eqb_eq|exact Hfrom].
    + rewrite Ht. apply in_map_iff. now exists a.
Qed.

(** [listLikedTweets] follows the likes.  After [unlikeTweet] the list of
    the user has no tweet with the id.  After a [likeTweet] that found no
    like, for a user that exists and a tweet that has a poster, the list of
    the user has a tweet with the id. *)
Theorem listLikedTweets_follows_the_likes :
  forall (datetime : Temporal) (tweetId userId : string) (g : Graph),
    wf g ->
    (exists tws g',
        TweetService.unlikeTweet tweetId userId g = (Return true, g')
        /\ TweetService.listLikedTweets userId g' = (Return tws, g')
        /\ Forall (fun tw => Tweet.id tw <> tweetId) tws)
    /\ (TweetService.existingLike_query userId tweetId g = [] ->
        users_by_id g userId <> [] ->
        TweetService.fetchTweet_query tweetId g <> [] ->
        exists tws g1,
          TweetService.likeTweet datetime tweetId userId g
          = (Return true, g1)
          /\ TweetService.listLikedTweets userId g1 = (Return tws, g1)
          /\ Exists (fun tw => Tweet.id tw = tweetId) tws).
Proof.
  intros datetime tweetId userId g Hwf. split.
  - eexists. eexists. split; [reflexivity|]. split; [reflexivity|].
    apply Forall_forall. intros tw Htw. apply in_map_iff in Htw.
    destruct Htw as [[r [t a]] [E Hin]]. subst tw. simpl.
    apply listLikedTweets_query_In in Hin.
    destruct Hin as [Hr [Hty [Hfrom [Ht _]]]].
    intros Hid. simpl in Hr. apply filter_In in Hr.
    destruct Hr as [_ Hr]. apply negb_true_iff in Hr.
    unfold TweetService.is_like in Hr.
    unfold from_user in Hfrom. unfold tweet_at, node_at in Ht.
    simpl in Hfrom, Ht.
    unfold from_user, to_tweet, user_at, tweet_at, node_at in Hr.
    unfold user_at, node_at in Hfrom. simpl in Hfrom.
    rewrite Hty, Hfrom, Ht, Hid, String.eqb_refl in Hr. discriminate.
  - intros Hnone Hu Hposted.
    assert (Hex : exists p, In p (users_by_id g userId)).
    { destruct (users_by_id g userId) as [|p ps]; [congruence|].
      exists p. now left. }
    destruct Hex as [[uk u] Hin_u].
    assert (Hex : exists row,
               In row (TweetService.fetchTweet_query tweetId g)).
    { destruct (TweetService.fetchTweet_query tweetId g) as [|p ps];
        [congruence|]. exists p. now left. }
    destruct Hex as [[t a] Hrow].
    set (g1 := create_rels LIKES_TWEET (DVTemporal datetime)
                 (list_prod (map fst (users_by_id g userId))
                            (map fst (tweets_by_id g tweetId))) g).
    destruct (@created_likes_are_likes datetime userId tweetId g Hwf)
      as [rs [Hr [Hall [_ Hpairs]]]].
    fold g1 in Hr.
    assert (Hn : nodes g1 = nodes g) by apply create_rels_nodes.
    unfold TweetService.fetchTweet_query in Hrow.
    apply in_flat_map in Hrow. destruct Hrow as [[tk t'] [Ht Hrow]].
    simpl in Hrow. apply in_map_iff in Hrow. destruct Hrow as [a' [E Ha]].
    inversion E; subst t' a'. clear E.
    destruct (Hpairs (uk, u) (tk, t)) as [r [Hin [Hf Hto]]];
      [exact Hin_u | exact Ht |]. simpl in Hf, Hto.
    rewrite Forall_forall in Hall. destruct (Hall r Hin) as [Hty Hlike].
    exists (map (fun record => TweetService.listItem (fst (snd record))
                                 (snd (snd record)))
                (TweetService.listLikedTweets_query userId g1)), g1.
    split.
    { unfold TweetService.likeTweet, TweetService.withSession, try_catch,
        transaction, bind, query, update, TweetService.createLike_query,
        ret. rewrite Hnone. reflexivity. }
    split; [reflexivity|].
    apply Exists_exists. exists (TweetService.listItem t a). split.
    + apply in_map_iff. exists (r, (t, a)). split; [reflexivity|].
      apply listLikedTweets_query_In.
      unfold tweets_by_id in Ht. apply filter_In in Ht.
      destruct Ht as [Ht Hid]. simpl in Hid.
      split; [rewrite Hr; apply in_or_app; now right|].
      split; [exact Hty|].
      unfold TweetService.is_like in Hlike.
      apply andb_true_iff in Hlike. destruct Hlike as [Hlike _].
      apply andb_true_iff in Hlike. destruct Hlike as [_ Hfrom].
      split.
      { unfold from_user. rewrite (@user_at_nodes g g1 (rfrom r) Hn).
        exact Hfrom. }
      split.
      { rewrite (@tweet_at_nodes g g1 (rto r) Hn), Hto.
        now apply tweet_at_unique. }
      rewrite Hto. rewrite (@posters_same g g1 tk Hn); [exact Ha|].
      destruct g1 as [ns1 rs1 m1]. simpl in Hr, Hn. subst rs1.
      apply incoming_other_type with (ty' := LIKES_TWEET).
      * apply Forall_forall. intros x Hx. now destruct (Hall x Hx).
      * discriminate.
    + simpl. unfold tweets_by_id in Ht. apply filter_In in Ht.
      destruct Ht as [_ Hid]. simpl in Hid. now apply String.eqb_eq.
Qed.

(** A tweet that [createTweet] returns is listed: on the graph it leaves,
    both [listUserTweets] of the author and [listTweets] hold an item with
    the id of the returned tweet, its text and media and the author.  Every
    item of [listUserTweets] names the requested user as author. *)
Theorem created_tweet_is_listed :
  forall (now : Js.Date) (datetime : Temporal) (text : string)
         (media : list string) (authorId : string) (g : Graph),
    wf g ->
    Js.trim text <> "" ->
    users_by_id g authorId <> [] ->
    exists tw g' mine all,
      TweetService.createTweet now datetime text media authorId g
      = (Return tw, g')
      /\ TweetService.listUserTweets authorId g' = (Return mine, g')
      /\ TweetService.listTweets g' = (Return all, g')
      /\ Forall (fun item => Tweet.authorId item = authorId) mine
      /\ exists item,
          In item mine /\ In item all
          /\ Tweet.id item = Tweet.id tw
          /\ Tweet.text item = text
          /\ Tweet.media item = media
          /\ Tweet.authorId item = authorId.
Proof.
  intros now datetime text media authorId g Hwf Htext Huser.
  destruct (users_by_id g authorId) as [|[uk u] rest] eqn:Hu; [congruence|].
  destruct (createTweet_rows_head datetime text media authorId uk u rest g)
    as [rows [ns [rs [g' [Hrun [Hn [Hr [Hns Hrs]]]]]]]].
  set (t0 := TweetService.new_tweet datetime text media authorId g) in *.
  assert (Hby : In (uk, u) (users_by_id g authorId))
    by (rewrite Hu; now left).
  assert (Hwf' : wf g').
  { pose proof (@wf_createTweet_rows platform datetime text media authorId
                  ((uk, u) :: rest) g Hwf) as H.
    rewrite Hrun in H. apply H. rewrite <- Hu. apply users_by_id_has_nodes. }
  assert (Hin : In (uk, u) (users g)).
  { unfold users_by_id in Hby. now apply filter_In in Hby. }
  assert (Hid : String.eqb (u_id u) authorId = true).
  { unfold users_by_id in Hby. now apply filter_In in Hby. }
  assert (Hin' : In (uk, u) (users g')).
  { apply users_In. rewrite Hn. apply in_or_app. left. now apply users_In. }
  assert (Htw : In (next g, t0) (tweets g')).
  { apply tweets_In. rewrite Hn. apply in_or_app. right. now left. }
  assert (Hrel : In (mkRel (S (next g)) POSTED uk (next g) DVundefined)
                    (rels g')).
  { rewrite Hr. apply in_or_app. right. now left. }
  exists (TweetService.mapTweet now t0 u), g',
    (map (fun record => TweetService.listItem (fst record) (snd record))
         (TweetService.listUserTweets_query authorId g')),
    (map (fun record => TweetService.listItem (fst record) (snd record))
         (TweetService.listTweets_query g')).
  split.
  { unfold TweetService.createTweet. rewrite (trim_truthy _ Htext). simpl.
    unfold TweetService.withSession, try_catch, transaction, bind, update,
      TweetService.createTweet_query.
    rewrite Hu, Hrun. reflexivity. }
  split; [reflexivity|]. split; [reflexivity|]. split.
  { apply Forall_forall. intros item Hitem. apply in_map_iff in Hitem.
    destruct Hitem as [[t a] [E Hrow]]. subst item. simpl.
    unfold TweetService.listUserTweets_query in Hrow.
    apply orderBy_In in Hrow. apply in_flat_map in Hrow.
    destruct Hrow as [[k a'] [Ha Hrow]]. apply in_flat_map in Hrow.
    destruct Hrow as [r [_ Hrow]]. simpl in Hrow.
    destruct (tweet_at g' (rto r)); [|contradiction].
    destruct Hrow as [E|[]]. inversion E; subst.
    unfold users_by_id in Ha. apply filter_In in Ha.
    destruct Ha as [_ Ha]. now apply String.eqb_eq. }
  exists (TweetService.listItem t0 u).
  split.
  { apply in_map_iff. exists (t0, u). split; [reflexivity|].
    unfold TweetService.listUserTweets_query. apply orderBy_In.
    apply in_flat_map. exists (uk, u). split.
    - unfold users_by_id. apply filter_In. split; [exact Hin'|exact Hid].
    - apply in_flat_map.
      exists (mkRel (S (next g)) POSTED uk (next g) DVundefined). split.
      + unfold outgoing. apply filter_In. split; [exact Hrel|].
        simpl. now rewrite Nat.eqb_refl.
      + simpl. rewrite (@tweet_at_unique g' (next g) t0 Hwf' Htw).
        now left. }
  split.
  { apply in_map_iff. exists (t0, u). split; [reflexivity|].
    unfold TweetService.listTweets_query. apply orderBy_In.
    unfold TweetService.posted. apply in_flat_map.
    exists (next g, t0). split; [exact Htw|]. simpl.
    apply in_map_iff. exists u. split; [reflexivity|].
    unfold TweetService.posters. apply in_flat_map.
    exists (mkRel (S (next g)) POSTED uk (next g) DVundefined). split.
    - unfold incoming. apply filter_In. split; [exact Hrel|].
      simpl. now rewrite Nat.eqb_refl.
    - simpl. rewrite (@user_at_unique g' uk u Hwf' Hin'). now left. }
  simpl. repeat split; try reflexivity. now apply String.eqb_eq.
Qed.

End Listings.

(* ===================================================================== *)
(** * Comments: creating, listing, deleting *)
(* ===================================================================== *)

Lemma users_comments_nil (ns : list Node) (rs : list Rel) (m : nat) :
  Forall is_comment ns -> users (mkGraph ns rs m) = [].
Proof.
  unfold users. simpl. induction 1 as [|n ns Hn _ IH]; [reflexivity|].
  simpl. rewrite IH. unfold is_comment in Hn.
  destruct (props n); [contradiction | contradiction | reflexivity].
Qed.

Lemma users_app (ns ns' : list Node) (rs : list Rel) (m : nat) :
  users (mkGraph (ns ++ ns') rs m)
  = users (mkGraph ns rs m) ++ users (mkGraph ns' rs m).
Proof. unfold users. simpl. apply flat_map_app. Qed.

Lemma in_nodes_app_l (g g' : Graph) (ns : list Node) (n : Node) :
  nodes g' = nodes g ++ ns -> In n (nodes g) -> In n (nodes g').
Proof. intros ->. intros H. apply in_or_app. now left. Qed.

Section Comments.

Context {platform : Platform}.

(** [getCommentsForTweet] is complete: a comment node that has a
    COMMENTS_ON relationship to a tweet with the id and a POSTED
    relationship from a user node is in the result, with its id and text,
    the number of its likes and the [isLiked] flag of the viewer. *)
Theorem getCommentsForTweet_lists_linked_comments :
  forall (tweetId : string) (viewer : option string) (g : Graph)
         (ck : nat) (c : CommentNode) (r1 r2 : Rel) (t : TweetNode)
         (u : UserNode),
    wf g ->
    In (ck, c) (comments g) ->
    In r1 (rels g) -> rtype r1 = COMMENTS_ON -> rfrom r1 = ck ->
    tweet_at g (rto r1) = Some t -> t_id t = tweetId ->
    In r2 (rels g) -> rtype r2 = POSTED -> rto r2 = ck ->
    user_at g (rfrom r2) = Some u ->
    exists cs,
      CommentService.getCommentsForTweet tweetId viewer g = (Return cs, g)
      /\ exists item,
          In item cs
          /\ Comment.id item = c_id c
          /\ Comment.text item = c_text c
          /\ Comment.likesCount item
             = Z.of_nat (List.length (CommentService.likes_of g ck))
          /\ Comment.isLiked item
             = Some (CommentService.isLiked_column g viewer ck).
Proof.
  intros tweetId viewer g ck c r1 r2 t u Hwf Hc Hr1 Hty1 Hf1 Ht Hid
         Hr2 Hty2 Hto2 Hu.
  assert (Hrow : In ((ck, c), (rfrom r2, u), (rto r1, t))
                    (CommentService.comment_rows tweetId g)).
  { apply comment_rows_In; try assumption.
    - unfold outgoing. apply filter_In. split; [exact Hr1|].
      now rewrite Hty1, Hf1, Nat.eqb_refl.
    - unfold incoming. apply filter_In. split; [exact Hr2|].
      now rewrite Hty2, Hto2, Nat.eqb_refl. }
  destruct (@comment_row_is_returned tweetId viewer g _ Hwf Hrow)
    as [[[h n] b] [Hin [Hc' [Hn Hb]]]]. simpl in Hc', Hn, Hb.
  eexists. split; [reflexivity|].
  exists (CommentService.toComment (h, n, b)). split.
  - apply in_map_iff. now exists (h, n, b).
  - unfold CommentService.toComment. simpl.
    change (fst (fst h)) with (CommentService.row_c h).
    rewrite Hc'. unfold CommentService.row_c. simpl.
    now rewrite Hn, Hb.
Qed.

(** [createComment] needs a user with the author id and a tweet with the
    tweet id.  Without one of them the statement returns no record, reading
    the first record throws, and the caller sees the bare
    "Failed to execute database operation" with the store as it was. *)
Theorem createComment_without_a_match :
  forall (datetime : Temporal) (text authorId tweetId : string) (g : Graph),
    users_by_id g authorId = [] \/ tweets_by_id g tweetId = [] ->
    CommentService.createComment datetime text authorId tweetId g
    = (Throw (Js.ApolloError "Failed to execute database operation"
                             None None), g).
Proof.
  intros datetime text authorId tweetId g H.
  unfold CommentService.createComment, CommentService.withSession,
    try_catch, transaction, bind, update,
    CommentService.createComment_query.
  destruct H as [-> | ->]; simpl; [reflexivity|].
  rewrite list_prod_nil_r. reflexivity.
Qed.

(** With a user and a tweet, [createComment] returns a comment with a fresh
    id, the text, the author id and the tweet id, and no likes.  The graph
    it leaves is well formed and has the tweets of before, so no
    [commentsCount] has moved.  [getCommentsForTweet] of the tweet on that
    graph lists the comment with no likes, not liked by the viewer. *)
Theorem createComment_then_getCommentsForTweet :
  forall (datetime : Temporal) (text authorId tweetId : string)
         (viewer : option string) (g : Graph),
    wf g ->
    users_by_id g authorId <> [] ->
    tweets_by_id g tweetId <> [] ->
    exists c g' cs,
      CommentService.createComment datetime text authorId tweetId g
      = (Return c, g')
      /\ Comment.id c = randomUUID (next g)
      /\ Comment.text c = text
      /\ Comment.authorId c = authorId
      /\ Comment.tweetId c = Some tweetId
      /\ Comment.likesCount c = 0%Z
      /\ wf g'
      /\ tweets g' = tweets g
      /\ CommentService.getCommentsForTweet tweetId viewer g'
         = (Return cs, g')
      /\ exists item,
          In item cs
          /\ Comment.id item = Comment.id c
          /\ Comment.text item = text
          /\ Comment.likesCount item = 0%Z
          /\ Comment.isLiked item = Some false.
Proof.
  intros datetime text authorId tweetId viewer g Hwf Hu Ht.
  destruct (users_by_id g authorId) as [|[uk u] us] eqn:Eu; [congruence|].
  destruct (tweets_by_id g tweetId) as [|[tk t] ts] eqn:Et; [congruence|].
  assert (Hmatched : exists rest,
             list_prod ((uk, u) :: us) ((tk, t) :: ts)
             = ((uk, u), (tk, t)) :: rest).
  { simpl. eexists. reflexivity. }
  destruct Hmatched as [rest Hmatched].
  destruct (createComment_rows_head datetime text authorId (Some tweetId)
              uk tk u t rest g)
    as [rows [ns [rs [g' [Hrun [Hn [Hr [Hns Hrs]]]]]]]].
  set (c0 := TweetService.new_comment datetime text authorId
               (Some tweetId) g) in *.
  assert (Hinu : In (uk, u) (users_by_id g authorId))
    by (rewrite Eu; now left).
  assert (Hint : In (tk, t) (tweets_by_id g tweetId))
    by (rewrite Et; now left).
  assert (Hwf' : wf g').
  { pose proof (@wf_createComment_rows platform datetime text authorId
                  (Some tweetId) (((uk, u), (tk, t)) :: rest) g Hwf) as H.
    rewrite Hrun in H. apply H. rewrite <- Hmatched, <- Eu, <- Et.
    apply Forall_forall. intros [p q] Hpq. apply in_prod_iff in Hpq.
    simpl. split.
    - now apply (@has_node_users_by_id g authorId p).
    - now apply (@has_node_tweets_by_id g tweetId q). }
  assert (Htweets : tweets g' = tweets g).
  { destruct g' as [ns' rs' m']. simpl in Hn. subst ns'.
    rewrite tweets_app.
    rewrite (@tweets_comments_nil (_ :: ns)).
    - apply app_nil_r.
    - constructor; [exact I|].
      eapply Forall_impl; [|exact Hns]. now intros n [_ H]. }
  assert (Hlikes : incoming g' LIKES_COMMENT (next g) = []).
  { unfold incoming. rewrite Hr. apply filter_all_false. intros r Hin.
    apply in_app_or in Hin. destruct Hin as [Hin|[<-|[<-|Hin]]].
    - destruct (@wf_ends_lt g r Hwf Hin) as [_ Hlt].
      replace (rto r =? next g) with false
        by (symmetry; apply Nat.eqb_neq; lia).
      apply andb_false_r.
    - reflexivity.
    - reflexivity.
    - rewrite Forall_forall in Hrs.
      destruct (Hrs r Hin) as [[-> _]| ->]; reflexivity. }
  assert (Hc : In (next g, c0) (comments g')).
  { apply comments_In. rewrite Hn. apply in_or_app. right. now left. }
  assert (Htat : tweet_at g' tk = Some t).
  { apply tweet_at_unique; [exact Hwf'|]. rewrite Htweets.
    unfold tweets_by_id in Hint. now apply filter_In in Hint. }
  assert (Huat : user_at g' uk = Some u).
  { apply user_at_unique; [exact Hwf'|]. apply users_In.
    apply (@in_nodes_app_l g g' _ _ Hn). apply users_In.
    unfold users_by_id in Hinu. now apply filter_In in Hinu. }
  assert (Hrow : In ((next g, c0), (uk, u), (tk, t))
                    (CommentService.comment_rows tweetId g')).
  { apply (@comment_rows_In tweetId g' (next g) c0
             (mkRel (S (S (next g))) COMMENTS_ON (next g) tk DVundefined)
             (mkRel (S (next g)) POSTED uk (next g) DVundefined) t u).
    - exact Hc.
    - unfold outgoing. apply filter_In. split.
      + rewrite Hr. apply in_or_app. right. right. now left.
      + simpl. now rewrite Nat.eqb_refl.
    - exact Htat.
    - unfold tweets_by_id in Hint. apply filter_In in Hint.
      destruct Hint as [_ Hid]. now apply String.eqb_eq.
    - unfold incoming. apply filter_In. split.
      + rewrite Hr. apply in_or_app. right. now left.
      + simpl. now rewrite Nat.eqb_refl.
    - exact Huat. }
  destruct (@comment_row_is_returned tweetId viewer g' _ Hwf' Hrow)
    as [[[h n] b] [Hin [Hc' [Hcount Hb]]]]. simpl in Hc', Hcount, Hb.
  exists (CommentService.mapComment c0 u t), g',
    (map CommentService.toComment
         (CommentService.getCommentsForTweet_query tweetId viewer g')).
  split.
  { unfold CommentService.createComment, CommentService.withSession,
      try_catch, transaction, bind, update,
      CommentService.createComment_query.
    rewrite Eu, Et, Hmatched, Hrun. reflexivity. }
  repeat (split; [reflexivity|]).
  split; [exact Hwf'|]. split; [exact Htweets|].
  split; [reflexivity|].
  exists (CommentService.toComment (h, n, b)). split.
  { apply in_map_iff. now exists (h, n, b). }
  unfold CommentService.toComment. simpl.
  change (fst (fst h)) with (CommentService.row_c h).
  rewrite Hc'. unfold CommentService.row_c. simpl.
  split; [reflexivity|]. split; [reflexivity|].
  rewrite Hcount, Hb. unfold CommentService.likes_of.
  rewrite Hlikes. simpl. split; [reflexivity|].
  unfold CommentService.isLiked_column, CommentService.liked_by.
  rewrite Hlikes. simpl.
  destruct viewer as [uid|]; [|reflexivity].
  now destruct (Js.truthy uid).
Qed.

End Comments.

Lemma tweets_delete_comments (commentId : string) (ns : list Node)
      (rs rs' : list Rel) (m m' : nat) :
  tweets (mkGraph (filter (fun n => negb (CommentService.is_comment_with
                                            commentId n)) ns) rs m)
  = tweets (mkGraph ns rs' m').
Proof.
  unfold tweets. simpl. induction ns as [|n ns IH]; [reflexivity|].
  simpl. unfold CommentService.is_comment_with at 1.
  destruct (props n) as [u|t|c] eqn:E; simpl; rewrite ?E; simpl.
  - exact IH.
  - now rewrite IH.
  - destruct (String.eqb (c_id c) commentId); simpl; rewrite ?E; exact IH.
Qed.

Lemma users_delete_comments (commentId : string) (ns : list Node)
      (rs rs' : list Rel) (m m' : nat) :
  users (mkGraph (filter (fun n => negb (CommentService.is_comment_with
                                           commentId n)) ns) rs m)
  = users (mkGraph ns rs' m').
Proof.
  unfold users. simpl. induction ns as [|n ns IH]; [reflexivity|].
  simpl. unfold CommentService.is_comment_with at 1.
  destruct (props n) as [u|t|c] eqn:E; simpl; rewrite ?E; simpl.
  - now rewrite IH.
  - exact IH.
  - destruct (String.eqb (c_id c) commentId); simpl; rewrite ?E; exact IH.
Qed.

Lemma existsb_eqb_In (k : nat) (l : list nat) :
  existsb (Nat.eqb k) l = true <-> In k l.
Proof.
  rewrite existsb_exists. split.
  - intros [x [Hx E]]. apply Nat.eqb_eq in E. now subst.
  - intros H. exists k. split; [exact H | apply Nat.eqb_refl].
Qed.

Section CommentLife.

Context {platform : Platform}.

(** [deleteComment] first looks for a POSTED relationship from a user with
    the caller's id to a comment with the id.  Without one it throws, and
    what the caller sees is the bare "Failed to execute database
    operation", not "Comment not found or not authorized"; the store is as
    it was.  With one it returns true and leaves a well-formed graph from
    which every comment node with the id is gone together with the
    relationships that started or ended there; users and tweets, and so
    every [commentsCount], are as before. *)
Theorem deleteComment_checks_the_owner_then_detaches :
  forall (commentId userId : string) (g : Graph),
    wf g ->
    (CommentService.ownedComment_query userId commentId g = [] ->
     CommentService.deleteComment commentId userId g
     = (Throw (Js.ApolloError "Failed to execute database operation"
                              None None), g))
    /\ (CommentService.ownedComment_query userId commentId g <> [] ->
        exists g',
          CommentService.deleteComment commentId userId g
          = (Return true, g')
          /\ wf g'
          /\ comments_by_id g' commentId = []
          /\ nodes g'
             = filter (fun n => negb (CommentService.is_comment_with
                                        commentId n)) (nodes g)
          /\ (forall r,
                 In r (rels g')
                 <-> In r (rels g)
                     /\ forall p, In p (comments_by_id g commentId) ->
                                  rfrom r <> fst p /\ rto r <> fst p)
          /\ tweets g' = tweets g
          /\ users g' = users g).
Proof.
  intros commentId userId g Hwf. split.
  - intros Hnone.
    unfold CommentService.deleteComment, CommentService.withSession,
      try_catch, transaction, bind, query. rewrite Hnone. reflexivity.
  - intros Hsome.
    set (doomed := map fst (comments_by_id g commentId)).
    set (dr := fun r : Rel => existsb (Nat.eqb (rfrom r)) doomed
                              || existsb (Nat.eqb (rto r)) doomed).
    set (g1 := delete_rels dr g).
    exists (delete_nodes (CommentService.is_comment_with commentId) g1).
    assert (Hdr : forall r, dr r = false <->
                    forall p, In p (comments_by_id g commentId) ->
                              rfrom r <> fst p /\ rto r <> fst p).
    { intros r. unfold dr. rewrite orb_false_iff. split.
      - intros [H1 H2] p Hp. split; intros E.
        + assert (H : existsb (Nat.eqb (rfrom r)) doomed = true).
          { apply existsb_eqb_In. rewrite E. unfold doomed.
            now apply in_map. }
          congruence.
        + assert (H : existsb (Nat.eqb (rto r)) doomed = true).
          { apply existsb_eqb_In. rewrite E. unfold doomed.
            now apply in_map. }
          congruence.
      - intros H. split.
        + destruct (existsb (Nat.eqb (rfrom r)) doomed) eqn:E;
            [|reflexivity]. apply existsb_eqb_In in E. unfold doomed in E.
          apply in_map_iff in E. destruct E as [p [E Hp]].
          destruct (H p Hp) as [H1 _]. congruence.
        + destruct (existsb (Nat.eqb (rto r)) doomed) eqn:E;
            [|reflexivity]. apply existsb_eqb_In in E. unfold doomed in E.
          apply in_map_iff in E. destruct E as [p [E Hp]].
          destruct (H p Hp) as [_ H2]. congruence. }
    split.
    { unfold CommentService.deleteComment, CommentService.withSession,
        try_catch, transaction, bind, query, update,
        CommentService.detachDelete_query, ret.
      destruct (CommentService.ownedComment_query userId commentId g);
        [congruence | reflexivity]. }
    split.
    { apply wf_delete_nodes; [now apply wf_delete_rels|].
      intros n Hn Hd. simpl in Hn.
      destruct (attached g1 (nid n)) eqn:Ea; [|reflexivity]. exfalso.
      unfold attached in Ea. apply existsb_exists in Ea.
      destruct Ea as [r [Hr Hk]]. simpl in Hr. apply filter_In in Hr.
      destruct Hr as [_ Hr]. apply negb_true_iff in Hr.
      pose proof (proj1 (Hdr r) Hr) as Hr'.
      unfold CommentService.is_comment_with in Hd.
      destruct n as [k [u|t|c]]; simpl in Hd; try discriminate.
      assert (Hp : In (k, c) (comments_by_id g commentId)).
      { unfold comments_by_id. apply filter_In. split; [|exact Hd].
        now apply comments_In. }
      destruct (Hr' _ Hp) as [H1 H2]. simpl in H1, H2, Hk.
      apply orb_true_iff in Hk.
      destruct Hk as [Hk|Hk]; apply Nat.eqb_eq in Hk; congruence. }
    split.
    { unfold comments_by_id. apply filter_all_false. intros [k c] Hc.
      apply comments_In in Hc. simpl in Hc. apply filter_In in Hc.
      destruct Hc as [_ Hc]. apply negb_true_iff in Hc. exact Hc. }
    split; [reflexivity|]. split.
    { intros r. simpl. rewrite filter_In, negb_true_iff, Hdr.
      reflexivity. }
    split.
    + unfold delete_nodes, g1, delete_rels. simpl.
      rewrite (@tweets_delete_comments commentId (nodes g) _ (rels g)
                 (next g) (next g)). now destruct g.
    + unfold delete_nodes, g1, delete_rels. simpl.
      rewrite (@users_delete_comments commentId (nodes g) _ (rels g)
                 (next g) (next g)). now destruct g.
Qed.

(** The life of a like on a comment, for a user id and a comment id that
    one node each carries.  Without a like, [unlikeComment] returns false
    and writes nothing, and [likeComment] returns true and adds one
    LIKES_COMMENT relationship: the comment has one like more and the user
    has liked it.  A second [likeComment] returns false and writes nothing,
    and [unlikeComment] returns true and brings back the relationships of
    before. *)
Theorem comment_like_lifecycle :
  forall (commentId userId : string) (g : Graph) (uk ck : nat)
         (u : UserNode) (c : CommentNode),
    wf g ->
    users_by_id g userId = [(uk, u)] ->
    comments_by_id g commentId = [(ck, c)] ->
    CommentService.existingLike_query userId commentId g = [] ->
    CommentService.unlikeComment commentId userId g = (Return false, g)
    /\ exists g1,
        CommentService.likeComment commentId userId g = (Return true, g1)
        /\ nodes g1 = nodes g
        /\ rels g1
           = rels g ++ [mkRel (next g) LIKES_COMMENT uk ck DVundefined]
        /\ List.length (CommentService.likes_of g1 ck)
           = S (List.length (CommentService.likes_of g ck))
        /\ CommentService.liked_by g1 userId ck = true
        /\ CommentService.likeComment commentId userId g1
           = (Return false, g1)
        /\ exists g2,
            CommentService.unlikeComment commentId userId g1
            = (Return true, g2)
            /\ nodes g2 = nodes g /\ rels g2 = rels g.
Proof.
  intros commentId userId g uk ck u c Hwf Hu Hc Hnone.
  assert (Hby : In (uk, u) (users_by_id g userId))
    by (rewrite Hu; now left).
  assert (Hcy : In (ck, c) (comments_by_id g commentId))
    by (rewrite Hc; now left).
  unfold users_by_id in Hby. apply filter_In in Hby.
  unfold comments_by_id in Hcy. apply filter_In in Hcy.
  destruct Hby as [Hin_u Hid_u], Hcy as [Hin_c Hid_c].
  simpl in Hid_u, Hid_c.
  pose proof (@user_at_unique g uk u Hwf Hin_u) as Huat.
  pose proof (@comment_at_unique g ck c Hwf Hin_c) as Hcat.
  set (r0 := mkRel (next g) LIKES_COMMENT uk ck DVundefined).
  set (g1 := create_rel LIKES_COMMENT uk ck DVundefined g).
  assert (Hlike0 : CommentService.is_like g userId commentId r0 = true).
  { unfold CommentService.is_like, from_user, to_comment. simpl.
    now rewrite Huat, Hcat, Hid_u, Hid_c. }
  assert (Hex1 : CommentService.existingLike_query userId commentId g1
                 = [r0]).
  { unfold CommentService.existingLike_query. simpl. rewrite filter_app.
    change (CommentService.is_like g1 userId commentId)
      with (CommentService.is_like g userId commentId).
    unfold CommentService.existingLike_query in Hnone. rewrite Hnone.
    simpl. fold r0. now rewrite Hlike0. }
  split.
  { unfold CommentService.unlikeComment, CommentService.withSession,
      try_catch, transaction, bind, query. rewrite Hnone. reflexivity. }
  exists g1. split.
  { assert (Hg1 : create_rels LIKES_COMMENT DVundefined
                     (list_prod (map fst (users_by_id g userId))
                                (map fst (comments_by_id g commentId))) g
                   = g1) by (rewrite Hu, Hc; reflexivity).
    unfold CommentService.likeComment, CommentService.withSession,
      try_catch, transaction, bind, query, update,
      CommentService.createLike_query, ret.
    rewrite Hnone, <- Hg1. reflexivity. }
  split; [reflexivity|]. split; [reflexivity|]. split.
  { unfold CommentService.likes_of.
    change (incoming g1 LIKES_COMMENT ck)
      with (filter (fun r => RelationshipType_eqb (rtype r) LIKES_COMMENT
                             && (rto r =? ck)) (rels g ++ [r0])).
    rewrite filter_app. simpl. rewrite Nat.eqb_refl. simpl.
    rewrite filter_app, length_app. simpl.
    change (user_at g1 uk) with (user_at g uk). rewrite Huat. simpl.
    unfold incoming. rewrite Nat.add_1_r. f_equal. }
  split.
  { unfold CommentService.liked_by.
    change (incoming g1 LIKES_COMMENT ck)
      with (filter (fun r => RelationshipType_eqb (rtype r) LIKES_COMMENT
                             && (rto r =? ck)) (rels g ++ [r0])).
    rewrite filter_app, existsb_app. simpl. rewrite Nat.eqb_refl. simpl.
    unfold from_user. simpl.
    change (user_at g1 uk) with (user_at g uk).
    rewrite Huat, Hid_u. simpl. apply orb_true_r. }
  split.
  { unfold CommentService.likeComment, CommentService.withSession,
      try_catch, transaction, bind, query. rewrite Hex1. reflexivity. }
  eexists. split.
  { unfold CommentService.unlikeComment, CommentService.withSession,
      try_catch, transaction, bind, query, update,
      CommentService.deleteLike_query, ret. rewrite Hex1. reflexivity. }
  split; [reflexivity|]. simpl. rewrite filter_app.
  change (CommentService.is_like g1 userId commentId)
    with (CommentService.is_like g userId commentId).
  rewrite (@filter_none_nil _ _ (rels g) Hnone). simpl. fold r0.
  rewrite Hlike0. simpl. apply app_nil_r.
Qed.

End CommentLife.

(* ===================================================================== *)
(** * The resolvers *)
(* ===================================================================== *)

Section Resolvers.

Context {platform : Platform}.

(** What [commentOnTweet] of the service returns on a tweet that
    [fetchTweet] finds, whoever the author is: the first row of the fetch
    with one more in [commentsCount]; and the fetch on the graph it leaves
    gives the rows of before with the counts raised. *)
Lemma commentOnTweet_returns (now : Js.Date) (datetime : Temporal)
      (text authorId tweetId : string) (g : Graph) (t0 : TweetNode)
      (u0 : UserNode) (more : list (TweetNode * UserNode)) :
  wf g ->
  TweetService.fetchTweet_query tweetId g = (t0, u0) :: more ->
  exists g',
    TweetService.commentOnTweet now datetime text authorId tweetId g
    = (Return (Some (TweetService.mapTweet
                       now (TweetService.bump_tweet tweetId t0) u0)), g')
    /\ TweetService.fetchTweet_query tweetId g'
       = map (fun row => (TweetService.bump_tweet tweetId (fst row),
                          snd row))
             (TweetService.fetchTweet_query tweetId g).
Proof.
  intros Hwf Hfetch.
  destruct (TweetService.createComment_query datetime text authorId
              tweetId g) as [rows g1] eqn:Ec.
  pose proof Ec as Egrow. unfold TweetService.createComment_query in Egrow.
  apply createComment_rows_grows in Egrow.
  destruct Egrow as [ns [rs [Hn [Hr [Hns Hrs]]]]].
  pose proof (@fetchTweet_query_after_comments tweetId tweetId g g1 ns rs
                Hwf Hn Hr Hns Hrs) as Hafter.
  exists (set_props (TweetService.bump_commentsCount tweetId) g1).
  split; [|exact Hafter].
  unfold TweetService.commentOnTweet, TweetService.commentOnTweet_under,
      run.
  unfold TweetService.withSession at 1. unfold try_catch at 1 2.
  unfold bind at 1.
  unfold TweetService.fetchTweet at 1, TweetService.withSession at 1,
    try_catch at 1, bind at 1, query at 1.
  rewrite Hfetch. cbn [ret].
  unfold bind, transaction, update, TweetService.incrementComments_query.
  rewrite Ec. cbn [ret].
  unfold TweetService.fetchTweet, TweetService.withSession, try_catch,
    bind, query.
  rewrite Hafter, Hfetch. reflexivity.
Qed.

(** Without a caller in the context the mutations that read it do not
    reach the service and leave the store alone: each throws its own code
    around UNAUTHORIZED.  [createTweet] looks at the text before it looks
    at the caller, so a blank text is what an anonymous caller is told
    about first. *)
Theorem anonymous_mutations_are_rejected :
  forall (now : Js.Date) (datetime : Temporal)
         (context : UserResolver.Context) (g : Graph),
    TweetResolver.callerId context = None ->
    let unauthorized :=
      Js.ApolloError "Authentication required" (Some "UNAUTHORIZED") None in
    (forall input,
        TweetResolver.likeTweet datetime context input g
        = (Throw (Js.ApolloError "Failed to like tweet" (Some "LIKE_ERROR")
                                 (Some unauthorized)), g))
    /\ (forall input,
           TweetResolver.unlikeTweet context input g
           = (Throw (Js.ApolloError "Failed to unlike tweet"
                                    (Some "UNLIKE_ERROR")
                                    (Some unauthorized)), g))
    /\ (forall input,
           TweetResolver.commentOnTweet now datetime context input g
           = (Throw (Js.ApolloError "Failed to add comment"
                                    (Some "COMMENT_ERROR")
                                    (Some unauthorized)), g))
    /\ (forall input,
           TweetResolver.createTweet now datetime context input g
           = (Throw (Js.ApolloError "Failed to create tweet"
                       (Some "TWEET_CREATION_ERROR")
                       (Some (if Js.truthy
                                   (Js.trim (CreateTweetInput.text input))
                              then unauthorized
                              else Js.mkError "Tweet text cannot be empty"))),
              g)).
Proof.
  intros now datetime context g H unauthorized.
  repeat split; intros input.
  - unfold TweetResolver.likeTweet, TweetResolver.wrap, try_catch.
    rewrite H. reflexivity.
  - unfold TweetResolver.unlikeTweet, TweetResolver.wrap, try_catch.
    rewrite H. reflexivity.
  - unfold TweetResolver.commentOnTweet, TweetResolver.wrap, try_catch.
    rewrite H. reflexivity.
  - unfold TweetResolver.createTweet, TweetResolver.wrap, try_catch.
    rewrite H.
    destruct (Js.truthy (Js.trim (CreateTweetInput.text input)));
      reflexivity.
Qed.

(** [createTweet] of the resolver for a caller with an id: the tweet is
    created for the caller, with the text of the input and its media, or no
    media when the input has none.  When no user node carries the caller's
    id the error is TWEET_CREATION_ERROR around DATABASE_ERROR around the
    TWEET_CREATION_ERROR of the service, and nothing is written. *)
Theorem resolver_createTweet_for_the_caller :
  forall (now : Js.Date) (datetime : Temporal)
         (context : UserResolver.Context) (input : CreateTweetInput.t)
         (userId : string) (g : Graph),
    TweetResolver.callerId context = Some userId ->
    Js.trim (CreateTweetInput.text input) <> "" ->
    (users_by_id g userId <> [] ->
     exists tw g',
       TweetResolver.createTweet now datetime context input g
       = (Return tw, g')
       /\ TweetService.createTweet now datetime
            (CreateTweetInput.text input)
            (Js.nullish (CreateTweetInput.media input) []) userId g
          = (Return tw, g')
       /\ Tweet.authorId tw = userId
       /\ Tweet.text tw = CreateTweetInput.text input
       /\ Tweet.media tw = Js.nullish (CreateTweetInput.media input) []
       /\ option_map BaseUser.id (Tweet.author tw) = Some userId)
    /\ (users_by_id g userId = [] ->
        TweetResolver.createTweet now datetime context input g
        = (Throw (Js.ApolloError "Failed to create tweet"
                    (Some "TWEET_CREATION_ERROR")
                    (Some (Js.ApolloError
                             "Failed to execute database operation"
                             (Some "DATABASE_ERROR")
                             (Some (Js.ApolloError "Failed to create tweet"
                                      (Some "TWEET_CREATION_ERROR")
                                      None))))), g)).
Proof.
  intros now datetime context input userId g Hc Htext. split.
  - intros Hu.
    destruct (users_by_id g userId) as [|[uk u] rest] eqn:Eu; [congruence|].
    destruct (createTweet_rows_head datetime (CreateTweetInput.text input)
                (Js.nullish (CreateTweetInput.media input) []) userId
                uk u rest g)
      as [rows [ns [rs [g' [Hrun _]]]]].
    assert (Hsvc : TweetService.createTweet now datetime
                     (CreateTweetInput.text input)
                     (Js.nullish (CreateTweetInput.media input) []) userId g
                   = (Return (TweetService.mapTweet now
                                (TweetService.new_tweet datetime
                                   (CreateTweetInput.text input)
                                   (Js.nullish (CreateTweetInput.media input)
                                               [])
                                   userId g) u), g')).
    { unfold TweetService.createTweet. rewrite (trim_truthy _ Htext).
      simpl. unfold TweetService.withSession, try_catch, transaction, bind,
        update, TweetService.createTweet_query.
      rewrite Eu, Hrun. reflexivity. }
    eexists. exists g'. split.
    { unfold TweetResolver.createTweet, TweetResolver.wrap, try_catch.
      rewrite (trim_truthy _ Htext), Hc. cbn [negb]. cbv iota.
      rewrite Hsvc. reflexivity. }
    split; [exact Hsvc|]. simpl.
    repeat split; try reflexivity.
    assert (Hin : In (uk, u) (users_by_id g userId))
      by (rewrite Eu; now left).
    unfold users_by_id in Hin. apply filter_In in Hin.
    destruct Hin as [_ Hid]. simpl in Hid. apply String.eqb_eq in Hid.
    now rewrite Hid.
  - intros Hu.
    unfold TweetResolver.createTweet, TweetResolver.wrap, try_catch.
    rewrite (trim_truthy _ Htext), Hc. cbn [negb]. cbv iota.
    unfold TweetService.createTweet. rewrite (trim_truthy _ Htext).
    cbn [negb]. cbv iota.
    unfold TweetService.withSession, try_catch, transaction, bind, update,
      TweetService.createTweet_query.
    rewrite Hu. reflexivity.
Qed.

(** [deleteTweet] of the resolver reads no caller from the context.  It
    fetches the tweet and compares the [authorId] property stored on it
    with the [authorId] that the input names: a tweet that is not found and
    an [authorId] that differs are refused with nothing written; with the
    stored [authorId] in the input the tweet is deleted, and a fetch of the
    id afterwards finds nothing. *)
Theorem resolver_deleteTweet_compares_with_the_input :
  forall (now : Js.Date) (input : DeleteTweetInput.t) (g : Graph),
    wf g ->
    (TweetService.fetchTweet_query (DeleteTweetInput.id input) g = [] ->
     TweetResolver.deleteTweet now input g
     = (Throw (Js.ApolloError "Failed to delete tweet"
                 (Some "TWEET_DELETION_ERROR")
                 (Some (Js.mkError "Tweet not found"))), g))
    /\ (forall t u more,
           TweetService.fetchTweet_query (DeleteTweetInput.id input) g
           = (t, u) :: more ->
           (t_authorId t <> DeleteTweetInput.authorId input ->
            TweetResolver.deleteTweet now input g
            = (Throw (Js.ApolloError "Failed to delete tweet"
                        (Some "TWEET_DELETION_ERROR")
                        (Some (Js.mkError
                 "Unauthorized: You can only delete your own tweets"))), g))
           /\ (t_authorId t = DeleteTweetInput.authorId input ->
               (forall r p,
                   In r (rels g) ->
                   In p (tweets_by_id g (DeleteTweetInput.id input)) ->
                   rfrom r = fst p ->
                   to_tweet g (DeleteTweetInput.id input) r = true) ->
               exists g',
                 TweetResolver.deleteTweet now input g = (Return true, g')
                 /\ tweets_by_id g' (DeleteTweetInput.id input) = []
                 /\ TweetResolver.fetchTweet now (DeleteTweetInput.id input)
                                             g'
                    = (Return None, g'))).
Proof.
  intros now input g Hwf. split.
  - intros Hnone.
    unfold TweetResolver.deleteTweet, TweetResolver.wrap, try_catch, bind,
      TweetService.fetchTweet, TweetService.withSession, try_catch, bind,
      query.
    rewrite Hnone. reflexivity.
  - intros t u more Hfetch. split.
    + intros Hne.
      unfold TweetResolver.deleteTweet, TweetResolver.wrap, try_catch, bind,
        TweetService.fetchTweet, TweetService.withSession, try_catch, bind,
        query.
      rewrite Hfetch. cbn [ret]. change (Tweet.authorId (TweetService.mapTweet now t u))
        with (t_authorId t).
      apply String.eqb_neq in Hne. rewrite Hne. reflexivity.
    + intros Heq Hcond.
      pose proof (@tweets_detached_after_deleteIncoming
                    (DeleteTweetInput.id input) g Hwf Hcond) as Hno.
      set (g' := delete_nodes
                   (TweetService.is_tweet (DeleteTweetInput.id input))
                   (delete_rels (to_tweet g (DeleteTweetInput.id input)) g)).
      assert (Hgone : tweets_by_id g' (DeleteTweetInput.id input) = [])
        by apply tweets_by_id_deleted.
      exists g'. split; [|split; [exact Hgone|]].
      * unfold TweetResolver.deleteTweet, TweetResolver.wrap.
        unfold try_catch at 1. unfold bind at 1.
        unfold TweetService.fetchTweet, TweetService.withSession at 1,
          try_catch at 1, bind at 1, query.
        rewrite Hfetch. cbn [ret]. change (Tweet.authorId (TweetService.mapTweet now t u))
        with (t_authorId t).
        apply String.eqb_eq in Heq. rewrite Heq. cbn [negb]. cbv iota.
        unfold TweetService.deleteTweet, TweetService.withSession,
          try_catch, transaction, bind, update,
          TweetService.deleteIncoming_query, TweetService.deleteNode_query,
          ret.
        rewrite Hno. reflexivity.
      * unfold TweetResolver.fetchTweet, TweetResolver.wrap, try_catch,
          TweetService.fetchTweet, TweetService.withSession, try_catch,
          bind, query, TweetService.fetchTweet_query.
        rewrite Hgone. reflexivity.
Qed.

(** [commentOnTweet] of the resolver for a caller with an id.  A tweet
    that [fetchTweet] does not find is refused by the resolver itself, with
    nothing written.  Otherwise the call returns the tweet as fetched after
    the comment: the id asked for and one more in [commentsCount] than the
    tweet had. *)
Theorem resolver_commentOnTweet_returns_the_updated_tweet :
  forall (now : Js.Date) (datetime : Temporal)
         (context : UserResolver.Context) (input : CommentOnTweetInput.t)
         (userId : string) (g : Graph),
    wf g ->
    TweetResolver.callerId context = Some userId ->
    (TweetService.fetchTweet_query (CommentOnTweetInput.tweetId input) g
     = [] ->
     TweetResolver.commentOnTweet now datetime context input g
     = (Throw (Js.ApolloError "Failed to add comment" (Some "COMMENT_ERROR")
                              (Some (Js.mkError "Tweet not found"))), g))
    /\ (forall t0 u0 more,
           TweetService.fetchTweet_query (CommentOnTweetInput.tweetId input)
                                         g
           = (t0, u0) :: more ->
           exists tw g',
             TweetResolver.commentOnTweet now datetime context input g
             = (Return (Some tw), g')
             /\ Tweet.id tw = CommentOnTweetInput.tweetId input
             /\ Tweet.commentsCount tw
                = Some (Js.nullish (t_commentsCount t0) 0 + 1)%Z
             /\ TweetService.fetchTweet now
                  (CommentOnTweetInput.tweetId input) g'
                = (Return (Some tw), g')).
Proof.
  intros now datetime context input userId g Hwf Hc. split.
  - intros Hnone.
    unfold TweetResolver.commentOnTweet, TweetResolver.wrap, try_catch.
    rewrite Hc. unfold bind, TweetService.fetchTweet,
      TweetService.withSession, try_catch, bind, query.
    rewrite Hnone. reflexivity.
  - intros t0 u0 more Hfetch.
    destruct (@commentOnTweet_returns now datetime
                (CommentOnTweetInput.text input) userId
                (CommentOnTweetInput.tweetId input) g t0 u0 more Hwf Hfetch)
      as [g' [Hrun Hafter]].
    assert (Hid : t_id t0 = CommentOnTweetInput.tweetId input).
    { assert (Hin : In (t0, u0)
                       (TweetService.fetchTweet_query
                          (CommentOnTweetInput.tweetId input) g))
        by (rewrite Hfetch; now left).
      unfold TweetService.fetchTweet_query in Hin.
      apply in_flat_map in Hin. destruct Hin as [[k t] [Hk Hin]].
      apply in_map_iff in Hin. destruct Hin as [u [E _]].
      inversion E; subst. unfold tweets_by_id in Hk.
      apply filter_In in Hk. destruct Hk as [_ Hk]. simpl in *.
      now apply String.eqb_eq. }
    assert (Hfetch' : TweetService.fetchTweet now
                        (CommentOnTweetInput.tweetId input) g'
                      = (Return (Some (TweetService.mapTweet now
                           (TweetService.bump_tweet
                              (CommentOnTweetInput.tweetId input) t0) u0)),
                         g')).
    { unfold TweetService.fetchTweet, TweetService.withSession, try_catch,
        bind, query. rewrite Hafter, Hfetch. reflexivity. }
    eexists. exists g'. split; [|split; [|split; [|exact Hfetch']]].
    + unfold TweetResolver.commentOnTweet, TweetResolver.wrap.
      unfold try_catch at 1. rewrite Hc. unfold bind at 1.
      assert (Hfirst : TweetService.fetchTweet now
                         (CommentOnTweetInput.tweetId input) g
                       = (Return (Some (TweetService.mapTweet now t0 u0)),
                          g)).
      { unfold TweetService.fetchTweet, TweetService.withSession, try_catch,
          bind, query. rewrite Hfetch. reflexivity. }
      rewrite Hfirst. unfold bind at 1. rewrite Hrun, Hfetch'.
      reflexivity.
    + simpl. now rewrite bump_tweet_id.
    + simpl. unfold TweetService.bump_tweet.
      rewrite Hid, String.eqb_refl. reflexivity.
Qed.

End Resolvers.

(** ** Follow and unfollow *)

Lemma try_catch_wraps {A : Type} (body : Async A) (message : string)
      (code : option string) (g g' : Graph) (e : Js.Error) :
  try_catch body
    (fun error => throw (Js.ApolloError message code (Some error))) g
  = (Throw e, g') ->
  exists cause, e = Js.ApolloError message code (Some cause).
Proof.
  unfold try_catch, throw. destruct (body g) as [[a|e0] g0]; intros H;
    inversion H; subst. now exists e0.
Qed.

Section FollowOutcomes.

Variables FollowResult UnfollowResult : Type.
Variable getFollowings : string -> Async (list User.t).
Variable followService : string -> string -> Async FollowResult.
Variable unfollowService : string -> string -> Async UnfollowResult.

(** Whatever the user service does, an error that leaves [followUser] is
    "Failed to follow user" with the code FOLLOW_ERROR and the cause as
    [originalError], and one that leaves [unfollowUser] is "Failed to
    unfollow user" with UNFOLLOW_USER_ERROR: no other code reaches the
    caller.  A value that [followUser] returns is true, and then the caller
    had an id other than the target, [getFollowings] returned a list
    without the target, and the service was called for the two. *)
Theorem follow_and_unfollow_outcomes :
  forall (context : UserResolver.Context)
         (input : UserResolver.FollowUserInput)
         (uinput : UserResolver.UnfollowUserInput.t) (g : Graph),
    (forall e g',
        UserResolver.followUser getFollowings followService context input g
        = (Throw e, g') ->
        exists cause,
          e = Js.ApolloError "Failed to follow user" (Some "FOLLOW_ERROR")
                             (Some cause))
    /\ (forall e g',
           UserResolver.unfollowUser unfollowService context uinput g
           = (Throw e, g') ->
           exists cause,
             e = Js.ApolloError "Failed to unfollow user"
                                (Some "UNFOLLOW_USER_ERROR") (Some cause))
    /\ (forall b g',
           UserResolver.followUser getFollowings followService context
                                   input g
           = (Return b, g') ->
           b = true
           /\ exists caller followings g1 x,
               UserResolver.user context = Some caller
               /\ User.id caller <> UserResolver.targetUserId input
               /\ getFollowings (User.id caller) g = (Return followings, g1)
               /\ Forall (fun f => User.id f
                                   <> UserResolver.targetUserId input)
                         followings
               /\ followService (UserResolver.targetUserId input)
                                (User.id caller) g1
                  = (Return x, g')).
Proof.
  intros context input uinput g. split; [|split].
  - intros e g' H. unfold UserResolver.followUser in H.
    now apply try_catch_wraps in H.
  - intros e g' H. unfold UserResolver.unfollowUser in H.
    now apply try_catch_wraps in H.
  - intros b g'. unfold UserResolver.followUser, try_catch.
    destruct (UserResolver.user context) as [caller|]; simpl;
      [|discriminate].
    destruct (Js.truthy (User.id caller)); simpl; [|discriminate].
    destruct (String.eqb (User.id caller) (UserResolver.targetUserId input))
      eqn:Eself; [discriminate|].
    unfold bind.
    destruct (getFollowings (User.id caller) g) as [[fs|e1] g1] eqn:Eg;
      [|discriminate].
    destruct (existsb _ fs) eqn:Eex; [discriminate|].
    destruct (followService (UserResolver.targetUserId input)
                            (User.id caller) g1) as [[x|e2] g2] eqn:Ef;
      [|discriminate].
    intros H. inversion H; subst. split; [reflexivity|].
    exists caller, fs, g1, x. split; [reflexivity|].
    split; [now apply String.eqb_neq|]. split; [exact Eg|].
    split; [|exact Ef].
    apply Forall_forall. intros f Hf.
    pose proof (@existsb_false_forall _ _ fs Eex f Hf) as Hne.
    now apply String.eqb_neq.
Qed.

End FollowOutcomes.

(* ===================================================================== *)
(** * Relationships by id *)
(* ===================================================================== *)

(** What [create_rels] appends: one relationship for every pair, in the
    order of the pairs, each of the type and with the date given. *)
Lemma create_rels_exactly (ty : RelationshipType) (dv : DateValue)
      (pairs : list (nat * nat)) :
  forall g : Graph,
  exists rs,
    rels (create_rels ty dv pairs g) = rels g ++ rs
    /\ map (fun r => (rfrom r, rto r)) rs = pairs
    /\ Forall (fun r => rtype r = ty /\ r_createdAt r = dv) rs.
Proof.
  induction pairs as [|[a b] ps IH]; intros g.
  - exists []. simpl. now rewrite app_nil_r.
  - destruct (IH (create_rel ty a b dv g)) as [rs [H1 [H2 H3]]].
    exists (mkRel (next g) ty a b dv :: rs). split; [|split].
    + change (create_rels ty dv ((a, b) :: ps) g)
        with (create_rels ty dv ps (create_rel ty a b dv g)).
      rewrite H1. simpl. now rewrite <- app_assoc.
    + simpl. now rewrite H2.
    + constructor; [now split | exact H3].
Qed.

Lemma skipn_length_app {A : Type} (l l' : list A) :
  skipn (List.length l) (l ++ l') = l'.
Proof. induction l as [|x l IH]; simpl; [reflexivity | exact IH]. Qed.

Lemma nodes_by_id_end (g : Graph) (id : string) (n : Node) :
  wf g -> In n (Neo4jService.nodes_by_id g id) ->
  Neo4jService.end_has_id g id (nid n) = true.
Proof.
  intros Hwf Hin. unfold Neo4jService.nodes_by_id in Hin.
  apply filter_In in Hin. destruct Hin as [Hin Hid].
  unfold Neo4jService.end_has_id.
  now rewrite (@node_at_unique g n (wf_nids Hwf) Hin).
Qed.

(** [createRelationship] links every node that carries [fromId] to every
    node that carries [toId], whatever their labels and whether or not
    such a relationship exists already: it returns as many relationships
    as there are pairs, each of the type asked for, dated with the ISO
    string of the clock, and each one a match of [deleteRelationship] for
    the same ids and type.  [deleteRelationship] afterwards removes them
    together with the matches that were there before, so with none before
    it brings back the relationships of before.  Both calls keep the
    store well formed. *)
Theorem createRelationship_then_deleteRelationship :
  forall (isoNow fromId toId : string) (relType : RelationshipType)
         (g : Graph),
    wf g ->
    exists rs g1 g2,
      Neo4jService.createRelationship isoNow fromId toId relType g
      = (Return rs, g1)
      /\ wf g1 /\ wf g2
      /\ nodes g1 = nodes g
      /\ rels g1 = rels g ++ rs
      /\ List.length rs
         = List.length (Neo4jService.nodes_by_id g fromId)
           * List.length (Neo4jService.nodes_by_id g toId)
      /\ Forall (fun r =>
                   rtype r = relType
                   /\ r_createdAt r = DVString isoNow
                   /\ Neo4jService.is_relationship g1 fromId toId relType r
                      = true) rs
      /\ Neo4jService.deleteRelationship fromId toId relType g1
         = (Return tt, g2)
      /\ nodes g2 = nodes g
      /\ rels g2
         = filter (fun r => negb (Neo4jService.is_relationship
                                    g fromId toId relType r)) (rels g)
      /\ (filter (Neo4jService.is_relationship g fromId toId relType)
                 (rels g) = [] ->
          rels g2 = rels g).
Proof.
  intros isoNow fromId toId relType g Hwf.
  set (pairs := list_prod (map nid (Neo4jService.nodes_by_id g fromId))
                          (map nid (Neo4jService.nodes_by_id g toId))).
  set (g1 := create_rels relType (DVString isoNow) pairs g).
  destruct (@create_rels_exactly relType (DVString isoNow) pairs g)
    as [rs [Hr [Hpairs Hall]]]. fold g1 in Hr.
  assert (Hn : nodes g1 = nodes g) by apply create_rels_nodes.
  assert (Hsame : forall r,
             Neo4jService.is_relationship g1 fromId toId relType r
             = Neo4jService.is_relationship g fromId toId relType r).
  { intros r. unfold Neo4jService.is_relationship,
      Neo4jService.end_has_id, node_at. now rewrite Hn. }
  assert (Hmatch : Forall (fun r =>
                     Neo4jService.is_relationship g fromId toId relType r
                     = true) rs).
  { apply Forall_forall. intros r Hin.
    assert (Hp : In (rfrom r, rto r) pairs).
    { rewrite <- Hpairs.
      apply (in_map (fun r => (rfrom r, rto r)) rs r Hin). }
    unfold pairs in Hp. apply in_prod_iff in Hp. destruct Hp as [Ha Hb].
    apply in_map_iff in Ha, Hb.
    destruct Ha as [a [Ea Ha]], Hb as [b [Eb Hb]].
    rewrite Forall_forall in Hall. destruct (Hall r Hin) as [Hty _].
    unfold Neo4jService.is_relationship.
    rewrite Hty, <- Ea, <- Eb,
      (@nodes_by_id_end g fromId a Hwf Ha),
      (@nodes_by_id_end g toId b Hwf Hb).
    destruct relType; reflexivity. }
  exists rs, g1.
  exists (delete_rels (Neo4jService.is_relationship g1 fromId toId relType)
                      g1).
  split.
  { unfold Neo4jService.createRelationship, transaction, update.
    fold pairs. fold g1. rewrite Hr, skipn_length_app. reflexivity. }
  assert (Hwf1 : wf g1).
  { apply wf_create_rels; [exact Hwf|]. apply Forall_forall.
    intros [a b] Hp. unfold pairs in Hp. apply in_prod_iff in Hp.
    destruct Hp as [Ha Hb]. simpl. unfold has_node.
    apply in_map_iff in Ha, Hb.
    destruct Ha as [x [Ex Hx]], Hb as [y [Ey Hy]]. subst a b.
    unfold Neo4jService.nodes_by_id in Hx, Hy.
    apply filter_In in Hx, Hy. split; apply in_map; tauto. }
  split; [exact Hwf1|]. split; [now apply wf_delete_rels|].
  split; [exact Hn|]. split; [exact Hr|]. split.
  { rewrite <- (length_map (fun r => (rfrom r, rto r)) rs), Hpairs.
    unfold pairs. now rewrite length_prod, !length_map. }
  split.
  { apply Forall_forall. intros r Hin. rewrite Forall_forall in Hall, Hmatch.
    destruct (Hall r Hin) as [Hty Hdate].
    split; [exact Hty|]. split; [exact Hdate|].
    rewrite Hsame. now apply Hmatch. }
  split; [reflexivity|]. split; [exact Hn|].
  assert (Hrels : filter (fun r => negb (Neo4jService.is_relationship
                                           g1 fromId toId relType r))
                         (rels g1)
                  = filter (fun r => negb (Neo4jService.is_relationship
                                             g fromId toId relType r))
                           (rels g)).
  { rewrite Hr, filter_app.
    rewrite (filter_ext _ (fun r => negb (Neo4jService.is_relationship
                                            g fromId toId relType r)))
      by (intros r; now rewrite Hsame).
    rewrite (@filter_all_false _ _ rs); [apply app_nil_r|].
    intros r Hin. rewrite Hsame. rewrite Forall_forall in Hmatch.
    now rewrite (Hmatch r Hin). }
  split; [exact Hrels|].
  intros Hnone. simpl. rewrite Hrels. now apply filter_none_nil.
Qed.

(** [findUserById] and [findUserByUsername] do not throw and do not
    write.  Each returns null exactly when no user node carries the id,
    respectively the username, and otherwise the properties of a user node
    that does. *)
Theorem findUser_by_id_and_by_username :
  forall (key : string) (g : Graph),
    (exists o,
        Neo4jService.findUserById key g = (Return o, g)
        /\ (o = None <-> forall k u, In (k, u) (users g) -> u_id u <> key)
        /\ (forall u, o = Some u ->
                      u_id u = key /\ exists k, In (k, u) (users g)))
    /\ (exists o,
           Neo4jService.findUserByUsername key g = (Return o, g)
           /\ (o = None
               <-> forall k u, In (k, u) (users g) -> u_username u <> key)
           /\ (forall u, o = Some u ->
                         u_username u = key
                         /\ exists k, In (k, u) (users g))).
Proof.
  intros key g. split.
  - unfold Neo4jService.findUserById, try_catch, transaction, bind, query,
      users_by_id.
    destruct (filter _ (users g)) as [|[k u] l] eqn:E; cbn [ret].
    + exists None. split; [reflexivity|]. split; [|discriminate].
      split; [|reflexivity]. intros _ k u Hin Hid.
      assert (H : In (k, u)
                     (filter (fun p => String.eqb (u_id (snd p)) key)
                             (users g))).
      { apply filter_In. split; [exact Hin|]. now apply String.eqb_eq. }
      rewrite E in H. contradiction.
    + assert (H : In (k, u)
                     (filter (fun p => String.eqb (u_id (snd p)) key)
                             (users g))) by (rewrite E; now left).
      apply filter_In in H. destruct H as [Hin Hid]. simpl in Hid.
      apply String.eqb_eq in Hid.
      exists (Some u). split; [reflexivity|]. split.
      * split; [discriminate|]. intros H. destruct (H k u Hin Hid).
      * intros v Hv. inversion Hv; subst. split; [reflexivity|].
        now exists k.
  - unfold Neo4jService.findUserByUsername, try_catch, transaction, bind,
      query.
    destruct (filter _ (users g)) as [|[k u] l] eqn:E; cbn [ret].
    + exists None. split; [reflexivity|]. split; [|discriminate].
      split; [|reflexivity]. intros _ k u Hin Hid.
      assert (H : In (k, u)
                     (filter (fun p => String.eqb (u_username (snd p)) key)
                             (users g))).
      { apply filter_In. split; [exact Hin|]. now apply String.eqb_eq. }
      rewrite E in H. contradiction.
    + assert (H : In (k, u)
                     (filter (fun p => String.eqb (u_username (snd p)) key)
                             (users g))) by (rewrite E; now left).
      apply filter_In in H. destruct H as [Hin Hid]. simpl in Hid.
      apply String.eqb_eq in Hid.
      exists (Some u). split; [reflexivity|]. split.
      * split; [discriminate|]. intros H. destruct (H k u Hin Hid).
      * intros v Hv. inversion Hv; subst. split; [reflexivity|].
        now exists k.
Qed.

(* ===================================================================== *)
(** * The caller of a request *)
(* ===================================================================== *)

Lemma split_no_sep (sep : ascii) (s : string) :
  ~ In sep (list_ascii_of_string s) -> Auth.split sep s = [s].
Proof.
  induction s as [|c s IH]; intros H; simpl; [reflexivity|].
  simpl in H. destruct (Ascii.eqb c sep) eqn:E.
  - apply Ascii.eqb_eq in E. tauto.
  - rewrite IH; [reflexivity | tauto].
Qed.

Lemma split_first_word (sep : ascii) (w rest : string) :
  ~ In sep (list_ascii_of_string w) ->
  Auth.split sep (String.append w (String sep rest))
  = w :: Auth.split sep rest.
Proof.
  induction w as [|c w IH]; intros H; simpl.
  - now rewrite Ascii.eqb_refl.
  - simpl in H. destruct (Ascii.eqb c sep) eqn:E.
    + apply Ascii.eqb_eq in E. tauto.
    + rewrite IH; [reflexivity | tauto].
Qed.

Section Caller.

Variable verifyJwt : string -> option Auth.Decoded.

(** The middleware and the context function agree on every request: the
    middleware calls [next] with a user exactly when the context gets that
    user, and every other request is answered with status 401. *)
Theorem middleware_and_context_agree :
  forall (req : Auth.Request) (g : Graph),
    (forall u, Auth.authenticateUser verifyJwt req g = Auth.Next u
               <-> Auth.contextUser verifyJwt req g = Some u)
    /\ (Auth.contextUser verifyJwt req g = None
        <-> exists message,
            Auth.authenticateUser verifyJwt req g
            = Auth.Respond 401 message).
Proof.
  intros req g. split.
  - intros u. unfold Auth.authenticateUser, Auth.contextUser.
    destruct (Auth.token req) as [t|]; [|split; discriminate].
    destruct (Js.truthy t); simpl; [|split; discriminate].
    destruct (verifyJwt t) as [d|]; [|split; discriminate].
    destruct (Auth.userData d g) as [|[k v] l]; [split; discriminate|].
    split; intros H; inversion H; reflexivity.
  - unfold Auth.authenticateUser, Auth.contextUser.
    destruct (Auth.token req) as [t|];
      [|split; [eexists; reflexivity | reflexivity]].
    destruct (Js.truthy t); simpl;
      [|split; [eexists; reflexivity | reflexivity]].
    destruct (verifyJwt t) as [d|];
      [|split; [eexists; reflexivity | reflexivity]].
    destruct (Auth.userData d g) as [|[k v] l];
      [split; [eexists; reflexivity | reflexivity]|].
    split; [discriminate|]. intros [m H]. discriminate.
Qed.

(** The token is the second word of the authorization header, whatever
    the first word is, and the cookie is not looked at when that word is
    there: with a header of two words, the second of which the verifier
    accepts for the id of a user node, that user is the caller whatever the
    cookie holds.  A header of one word leaves the token to the cookie. *)
Theorem header_token_names_the_caller :
  forall (scheme tok : string) (cookie : option string)
         (decoded : Auth.Decoded) (i : string) (k : nat) (u : UserNode)
         (others : list (nat * UserNode)) (g : Graph),
    ~ In " "%char (list_ascii_of_string scheme) ->
    ~ In " "%char (list_ascii_of_string tok) ->
    tok <> "" ->
    verifyJwt tok = Some decoded ->
    Auth.id decoded = Some i ->
    users_by_id g i = (k, u) :: others ->
    Auth.token (Auth.mkRequest
                  (Some (String.append scheme (String " " tok))) cookie)
    = Some tok
    /\ Auth.authenticateUser verifyJwt
         (Auth.mkRequest (Some (String.append scheme (String " " tok)))
                         cookie) g
       = Auth.Next u
    /\ u_id u = i
    /\ Auth.token (Auth.mkRequest (Some tok) cookie) = cookie.
Proof.
  intros scheme tok cookie decoded i k u others g Hs Ht Hne Hv Hi Hu.
  assert (Htok : Auth.token
                   (Auth.mkRequest
                      (Some (String.append scheme (String " " tok))) cookie)
                 = Some tok).
  { unfold Auth.token. cbn [Auth.authorization].
    rewrite (@split_first_word " "%char scheme tok Hs),
      (@split_no_sep " "%char tok Ht). simpl.
    destruct tok; [congruence | reflexivity]. }
  split; [exact Htok|]. split; [|split].
  - unfold Auth.authenticateUser. rewrite Htok.
    assert (Htruthy : Js.truthy tok = true)
      by (destruct tok; [congruence | reflexivity]).
    rewrite Htruthy, Hv. simpl. unfold Auth.userData.
    now rewrite Hi, Hu.
  - assert (Hin : In (k, u) (users_by_id g i)) by (rewrite Hu; now left).
    unfold users_by_id in Hin. apply filter_In in Hin.
    destruct Hin as [_ Hid]. now apply String.eqb_eq.
  - unfold Auth.token. cbn [Auth.authorization].
    rewrite (@split_no_sep " "%char tok Ht). reflexivity.
Qed.

End Caller.

(* ===================================================================== *)
(** * Accounts and updates *)
(* ===================================================================== *)

Lemma rethrow_or_wrap_throws {A : Type} (message code : string)
      (body : Async A) (g g' : Graph) (e : Js.Error) :
  UserResolver.rethrow_or_wrap message code body g = (Throw e, g') ->
  exists m c o, e = Js.ApolloError m c o.
Proof.
  unfold UserResolver.rethrow_or_wrap, try_catch, throw.
  destruct (body g) as [[a|[m|m c o]] g0]; intros H; inversion H; subst;
    eauto.
Qed.

Section AccountOutcomes.

Variable validatePassword : string -> string -> Async (option User.t).
Variable findUserByUsername : string -> Async (option User.t).
Variable CreateUserInput : Type.
Variable input_username : CreateUserInput -> string.
Variable CreateUserResult : Type.
Variable result_user : CreateUserResult -> User.t.
Variable createUser : CreateUserInput -> Async CreateUserResult.
Variable deleteService : string -> Async bool.
Variable signJwt : string -> Outcome string.

(** [deleteUser] deletes the caller's own account and no other.  Whatever
    the user service does, a call that returns has returned true and
    cleared the token cookie, and then the caller in the context carried
    the [userId] asked for, the service accepted the password for the
    caller's username, and the service's [deleteUser] ran for that id and
    returned true.  Without a caller, and for another user's id, the call
    throws UNAUTHENTICATED, respectively FORBIDDEN, as such, and reaches
    no service. *)
Theorem deleteUser_only_the_callers_own_account :
  forall (userId password : string) (context : UserResolver.Context)
         (g : Graph),
    (forall v g',
        UserResolver.deleteUser validatePassword deleteService userId
                                password context g
        = (Return v, g') ->
        v = (true, ["token"])
        /\ exists caller validated g1,
            UserResolver.user context = Some caller
            /\ User.id caller = userId
            /\ validatePassword (User.username caller) password g
               = (Return (Some validated), g1)
            /\ deleteService userId g1 = (Return true, g'))
    /\ (UserResolver.user context = None ->
        UserResolver.deleteUser validatePassword deleteService userId
                                password context g
        = (Throw (Js.ApolloError "Authentication required"
                                 (Some "UNAUTHENTICATED") None), g))
    /\ (forall caller,
           UserResolver.user context = Some caller ->
           User.id caller <> userId ->
           UserResolver.deleteUser validatePassword deleteService userId
                                   password context g
           = (Throw (Js.ApolloError "You can only delete your own account"
                                    (Some "FORBIDDEN") None), g)).
Proof.
  intros userId password context g. split; [|split].
  - intros v g'.
    unfold UserResolver.deleteUser, UserResolver.rethrow_or_wrap, try_catch.
    destruct (UserResolver.user context) as [caller|]; [|discriminate].
    destruct (String.eqb (User.id caller) userId) eqn:Eid;
      [|discriminate]. cbn [negb]. cbv iota. unfold bind.
    destruct (validatePassword (User.username caller) password g)
      as [[[validated|]|[m|m c o]] g1] eqn:Ev; try discriminate.
    destruct (deleteService userId g1) as [[[|]|[m|m c o]] g2] eqn:Ed;
      try discriminate.
    simpl. intros H. inversion H; subst. split; [reflexivity|].
    exists caller, validated, g1. split; [reflexivity|].
    split; [now apply String.eqb_eq|]. split; [exact Ev | exact Ed].
  - intros H.
    unfold UserResolver.deleteUser, UserResolver.rethrow_or_wrap, try_catch.
    rewrite H. reflexivity.
  - intros caller H Hne.
    unfold UserResolver.deleteUser, UserResolver.rethrow_or_wrap, try_catch.
    rewrite H. apply String.eqb_neq in Hne. rewrite Hne. reflexivity.
Qed.

(** [loginUser] and [registerUser] let the errors with a code through as
    they are and wrap only the others: every error that leaves them is an
    ApolloError; rejected credentials reach the caller as
    INVALID_CREDENTIALS and a taken username as USER_EXISTS, with
    [createUser] not called; an ApolloError of the service passes
    unchanged and a plain error of the service ends inside LOGIN_ERROR.  A
    login that the service accepts returns the user with the token signed
    for the user's id and puts the user into the context. *)
Theorem login_and_register_outcomes :
  forall (username password : string) (input : CreateUserInput)
         (context : UserResolver.Context) (g : Graph),
    (forall e g',
        UserResolver.loginUser validatePassword signJwt username password
                               context g
        = (Throw e, g') ->
        exists m c o, e = Js.ApolloError m c o)
    /\ (forall e g',
           UserResolver.registerUser findUserByUsername input_username
             result_user createUser signJwt input context g
           = (Throw e, g') ->
           exists m c o, e = Js.ApolloError m c o)
    /\ (forall g1,
           validatePassword username password g = (Return None, g1) ->
           UserResolver.loginUser validatePassword signJwt username
                                  password context g
           = (Throw (Js.ApolloError "Invalid credentials"
                                    (Some "INVALID_CREDENTIALS") None), g1))
    /\ (forall m c o g1,
           validatePassword username password g
           = (Throw (Js.ApolloError m c o), g1) ->
           UserResolver.loginUser validatePassword signJwt username
                                  password context g
           = (Throw (Js.ApolloError m c o), g1))
    /\ (forall m g1,
           validatePassword username password g
           = (Throw (Js.mkError m), g1) ->
           UserResolver.loginUser validatePassword signJwt username
                                  password context g
           = (Throw (Js.ApolloError "Login failed" (Some "LOGIN_ERROR")
                                    (Some (Js.mkError m))), g1))
    /\ (forall u token g1,
           validatePassword username password g = (Return (Some u), g1) ->
           signJwt (User.id u) = Return token ->
           UserResolver.loginUser validatePassword signJwt username
                                  password context g
           = (Return (UserResolver.LoginResponse.mk u token,
                      UserResolver.mkContext (Some u)), g1))
    /\ (forall existing g1,
           findUserByUsername (input_username input) g
           = (Return (Some existing), g1) ->
           UserResolver.registerUser findUserByUsername input_username
             result_user createUser signJwt input context g
           = (Throw (Js.ApolloError "Username already exists"
                                    (Some "USER_EXISTS") None), g1))
    /\ (forall created token g1 g2,
           findUserByUsername (input_username input) g
           = (Return None, g1) ->
           createUser input g1 = (Return created, g2) ->
           signJwt (User.id (result_user created)) = Return token ->
           UserResolver.registerUser findUserByUsername input_username
             result_user createUser signJwt input context g
           = (Return (UserResolver.RegisterResponse.mk
                        (result_user created) token,
                      UserResolver.mkContext (Some (result_user created))),
              g2)).
Proof.
  intros username password input context g.
  split; [intros e g' H; unfold UserResolver.loginUser in H;
          now apply rethrow_or_wrap_throws in H|].
  split; [intros e g' H; unfold UserResolver.registerUser in H;
          now apply rethrow_or_wrap_throws in H|].
  split; [|split; [|split; [|split; [|split]]]].
  - intros g1 H.
    unfold UserResolver.loginUser, UserResolver.rethrow_or_wrap, try_catch,
      bind. rewrite H. reflexivity.
  - intros m c o g1 H.
    unfold UserResolver.loginUser, UserResolver.rethrow_or_wrap, try_catch,
      bind. rewrite H. reflexivity.
  - intros m g1 H.
    unfold UserResolver.loginUser, UserResolver.rethrow_or_wrap, try_catch,
      bind. rewrite H. reflexivity.
  - intros u token g1 H Hs.
    unfold UserResolver.loginUser, UserResolver.rethrow_or_wrap, try_catch,
      bind. rewrite H, Hs. reflexivity.
  - intros existing g1 H.
    unfold UserResolver.registerUser, UserResolver.rethrow_or_wrap,
      try_catch, bind. rewrite H. reflexivity.
  - intros created token g1 g2 H Hc Hs.
    unfold UserResolver.registerUser, UserResolver.rethrow_or_wrap,
      try_catch, bind. rewrite H, Hc, Hs. reflexivity.
Qed.

End AccountOutcomes.

Section UpdateOutcomes.

Variable updateService
  : string -> string -> list string -> Async (option Tweet.t).

(** [updateTweet] of the resolver refuses an input without a text that is
    not blank and without a medium before it reaches the service.  An
    input with media and no text reaches the service with the empty
    string for the text; what the service returns for it is returned, and
    its null becomes TWEET_UPDATE_ERROR around "Tweet not found or update
    failed". *)
Theorem resolver_updateTweet_outcomes :
  forall (id : string) (media : list string) (g : Graph),
    (forall text,
        match text with
        | Some t => Js.trim t = ""
        | None => True
        end ->
        TweetResolver.updateTweet updateService
          (UpdateTweetInput.mk id text None) g
        = (Throw (Js.ApolloError "Failed to update tweet"
                    (Some "TWEET_UPDATE_ERROR")
                    (Some (Js.mkError
          "At least one field (text or media) must be provided for update"))),
           g)
        /\ TweetResolver.updateTweet updateService
             (UpdateTweetInput.mk id text (Some [])) g
           = (Throw (Js.ApolloError "Failed to update tweet"
                       (Some "TWEET_UPDATE_ERROR")
                       (Some (Js.mkError
          "At least one field (text or media) must be provided for update"))),
              g))
    /\ (media <> [] ->
        TweetResolver.updateTweet updateService
          (UpdateTweetInput.mk id None (Some media)) g
        = match updateService id "" media g with
          | (Return (Some tw), g') => (Return (Some tw), g')
          | (Return None, g') =>
              (Throw (Js.ApolloError "Failed to update tweet"
                        (Some "TWEET_UPDATE_ERROR")
                        (Some (Js.mkError
                                 "Tweet not found or update failed"))), g')
          | (Throw e, g') =>
              (Throw (Js.ApolloError "Failed to update tweet"
                        (Some "TWEET_UPDATE_ERROR") (Some e)), g')
          end).
Proof.
  intros id media g. split.
  - intros text Hblank.
    assert (Hfalse : match text with
                     | Some t => Js.truthy (Js.trim t)
                     | None => false
                     end = false).
    { destruct text as [t|]; [|reflexivity]. now rewrite Hblank. }
    unfold TweetResolver.updateTweet, TweetResolver.wrap, try_catch.
    cbn [UpdateTweetInput.text UpdateTweetInput.media].
    rewrite Hfalse. split; reflexivity.
  - intros Hne.
    unfold TweetResolver.updateTweet, TweetResolver.wrap, try_catch, bind.
    cbn [UpdateTweetInput.text UpdateTweetInput.media UpdateTweetInput.id
         Js.or_string Js.nullish].
    destruct media as [|x l]; [congruence|]. simpl.
    destruct (updateService id "" (x :: l) g) as [[[tw|]|e] g'];
      reflexivity.
Qed.

End UpdateOutcomes.

(* ===================================================================== *)
(** * The facts at concrete graphs *)
(* ===================================================================== *)

Lemma distinct_NoDup (l : list nat) : distinct l = true -> NoDup l.
Proof.
  induction l as [|x l IH]; simpl; [constructor|].
  intros H. apply andb_true_iff in H. destruct H as [H1 H2].
  constructor; [|now apply IH].
  intros Hin. apply negb_true_iff in H1.
  assert (He : existsb (Nat.eqb x) l = true).
  { apply existsb_exists. exists x. split; [exact Hin | apply Nat.eqb_refl]. }
  congruence.
Defined.

Lemma wfb_wf (g : Graph) : wfb g = true -> wf g.
Proof.
  unfold wfb. intros H.
  apply andb_true_iff in H. destruct H as [H H5].
  apply andb_true_iff in H. destruct H as [H H4].
  apply andb_true_iff in H. destruct H as [H H3].
  apply andb_true_iff in H. destruct H as [H1 H2].
  constructor.
  - now apply distinct_NoDup.
  - apply Forall_forall. intros n Hn.
    rewrite forallb_forall in H2. apply Nat.ltb_lt. now apply H2.
  - now apply distinct_NoDup.
  - apply Forall_forall. intros r Hr.
    rewrite forallb_forall in H4. apply Nat.ltb_lt. now apply H4.
  - apply Forall_forall. intros r Hr.
    rewrite forallb_forall in H5. specialize (H5 _ Hr).
    apply andb_true_iff in H5. destruct H5 as [Ha Hb].
    apply existsb_exists in Ha, Hb.
    destruct Ha as [a [Ha Ea]], Hb as [b [Hb Eb]].
    apply Nat.eqb_eq in Ea, Eb. unfold has_node. rewrite Ea, Eb. tauto.
Defined.

(** Alice has posted and follows nobody: her own tweet is among her tweets
    and her timeline is empty. *)
Lemma timeline_of_a_user_who_follows_nobody_witness :
  fst (TweetService.listUserTweets (platform := Example.platform)
         "u1" Example.both_tweeted) <> Return []
  /\ TweetService.listTimelineTweets (platform := Example.platform)
       "u1" Example.both_tweeted
     = (Return [], Example.both_tweeted).
Proof.
  split.
  - vm_compute. discriminate.
  - apply (@timeline_of_a_user_who_follows_nobody
             Example.platform "u1" Example.both_tweeted).
    vm_compute. reflexivity.
Defined.

(** Alice likes Bob's fresh tweet: the relationship is there, and
    [fetchTweet] reports no like. *)
Lemma likeTweet_leaves_the_counter_witness :
  exists g' tw,
    TweetService.likeTweet (Example.at_noon 4) "uuid-3" "u1"
                           Example.bob_tweeted = (Return true, g')
    /\ TweetService.existingLike_query "u1" "uuid-3" g' <> []
    /\ nodes g' = nodes Example.bob_tweeted
    /\ TweetService.fetchTweet (platform := Example.platform)
         Example.now "uuid-3" g' = (Return (Some tw), g')
    /\ Tweet.likesCount tw = Some 0%Z
    /\ Tweet.isLiked tw = Some false.
Proof.
  eapply (@likeTweet_leaves_the_counter Example.platform).
  - apply wfb_wf. vm_compute. reflexivity.
  - vm_compute. reflexivity.
  - reflexivity.
  - reflexivity.
  - vm_compute. discriminate.
  - vm_compute. reflexivity.
Defined.

(** Alice has liked Bob's tweet and Carol's comment, and likes both
    again. *)
Lemma like_when_already_liked_witness :
  TweetService.likeTweet (Example.at_noon 6) "uuid-3" "u1"
                         Example.comment_liked
  = (Throw (Js.ApolloError "Failed to execute database operation"
                           (Some "DATABASE_ERROR")
                           (Some (Js.mkError "Tweet already liked"))),
     Example.comment_liked)
  /\ CommentService.likeComment "uuid-6" "u1" Example.comment_liked
     = (Return false, Example.comment_liked).
Proof.
  destruct (@like_when_already_liked (Example.at_noon 6) "uuid-3" "uuid-6"
              "u1" Example.comment_liked) as [H1 H2].
  split.
  - apply H1. vm_compute. discriminate.
  - apply H2. vm_compute. discriminate.
Defined.

(** C4.  It is not so that [unlikeTweet] returns false whenever the user
    has no like on the tweet: Alice has never liked Bob's tweet, and
    [unlikeTweet] returns true. *)
Lemma unlikeTweet_never_liked_returns_true :
  ~ (forall (tweetId userId : string) (g : Graph),
        TweetService.existingLike_query userId tweetId g = [] ->
        fst (TweetService.unlikeTweet tweetId userId g) = Return false).
Proof.
  intros H.
  specialize (H "uuid-3" "u1" Example.bob_tweeted).
  assert (Hnone : TweetService.existingLike_query "u1" "uuid-3"
                    Example.bob_tweeted = [])
    by (vm_compute; reflexivity).
  specialize (H Hnone). vm_compute in H. discriminate.
Qed.

Lemma unlike_when_not_liked_witness :
  TweetService.unlikeTweet "uuid-3" "u3" Example.carol_commented
  = (Return true, Example.carol_commented)
  /\ CommentService.unlikeComment "uuid-6" "u3" Example.carol_commented
     = (Return false, Example.carol_commented).
Proof.
  apply (@unlike_when_not_liked "uuid-3" "uuid-6" "u3"
                                Example.carol_commented).
  - vm_compute. reflexivity.
  - vm_compute. reflexivity.
Defined.

(** Alice asks to follow herself. *)
Lemma followUser_self_witness :
  exists e,
    UserResolver.followUser Example.example_getFollowings
      Example.example_followUser
      (UserResolver.mkContext (Some Example.alice_caller))
      (UserResolver.mkFollowUserInput "u1") Example.three_users
    = (Throw e, Example.three_users)
    /\ Js.code e = Some "FOLLOW_ERROR"
    /\ Js.originalError e
       = Some (Js.ApolloError "Cannot follow yourself"
                              (Some "INVALID_OPERATION") None).
Proof.
  apply (@followUser_self unit Example.example_getFollowings
           Example.example_followUser Example.alice_caller
           Example.three_users).
  reflexivity.
Defined.

(** Carol comments on Bob's tweet, which had no comment yet; and the
    same call when the store takes the comment and rejects the count. *)
Lemma commentOnTweet_creates_and_counts_witness :
  (exists tw g' ck c,
      TweetService.commentOnTweet (platform := Example.platform) Example.now
        (Example.at_noon 5) "nice" "u3" "uuid-3" Example.alice_liked
      = (Return (Some tw), g')
      /\ Tweet.commentsCount tw = Some 1%Z
      /\ In (mkNode ck (Comment c)) (nodes g')
      /\ c_authorId c = "u3")
  /\ TweetService.commentOnTweet_under (platform := Example.platform)
       None (Some (Js.mkError "connection lost")) Example.now
       (Example.at_noon 5) "nice" "u3" "uuid-3" Example.alice_liked
     = (Throw (Js.ApolloError "Failed to execute database operation"
                 (Some "DATABASE_ERROR")
                 (Some (Js.ApolloError "Failed to create comment"
                          (Some "COMMENT_CREATION_ERROR")
                          (Some (Js.mkError "connection lost"))))),
        Example.alice_liked).
Proof.
  destruct (@commentOnTweet_creates_and_counts
              Example.platform Example.now Example.now
              (Example.at_noon 5) "nice" "u3" "uuid-3" Example.alice_liked
              (TweetService.new_tweet (platform := Example.platform)
                 (Example.at_noon 2) "hello" [] "u2" Example.three_users)
              Example.bob [])
    as [Hdone [Hatomic _]].
  - apply wfb_wf. vm_compute. reflexivity.
  - vm_compute. reflexivity.
  - split.
    + destruct Hdone
        as [tw [g' [ck [c [uk [u [tk [t [tw' [Hrun [_ [Hnode [_ [_
             [Hauthor [_ [_ [_ [_ [_ [_ [_ [_ [Hone
             _]]]]]]]]]]]]]]]]]]]]]]]];
        [vm_compute; discriminate|].
      exists tw, g', ck, c. split; [exact Hrun|].
      split; [apply Hone; reflexivity|].
      split; [exact Hnode | exact Hauthor].
    + apply Hatomic. right. split; reflexivity.
Defined.

(** Bob posts [hello] on the graph of the three users. *)
Lemma createTweet_then_fetchTweet_witness :
  exists tw g' tw',
    TweetService.createTweet (platform := Example.platform) Example.now
      (Example.at_noon 2) "hello" ["a.png"] "u2" Example.three_users
    = (Return tw, g')
    /\ TweetService.fetchTweet (platform := Example.platform) Example.now
         (Tweet.id tw) g' = (Return (Some tw'), g')
    /\ Tweet.text tw' = "hello"
    /\ Tweet.media tw' = ["a.png"]
    /\ Tweet.authorId tw' = "u2"
    /\ Tweet.likesCount tw' = Some 0%Z
    /\ Tweet.commentsCount tw' = Some 0%Z
    /\ Tweet.retweetsCount tw' = Some 0%Z.
Proof.
  destruct (@createTweet_then_fetchTweet
              Example.platform Example.now Example.now
              (Example.at_noon 2) "hello" ["a.png"] "u2"
              Example.three_users)
    as [tw [g' [tw' H]]].
  - apply wfb_wf. vm_compute. reflexivity.
  - vm_compute. discriminate.
  - vm_compute. discriminate.
  - vm_compute. reflexivity.
  - exists tw, g', tw'. intuition.
Defined.

(** Bob's tweet, liked by Alice and commented by Carol, is deleted. *)
Lemma deleteTweet_leaves_no_trace_witness :
  (forall n, In n (nodes (Example.after (TweetService.deleteTweet "uuid-3")
                            Example.comment_liked)) ->
             TweetService.is_tweet "uuid-3" n = false)
  /\ (exists tws,
         TweetService.listLikedTweets (platform := Example.platform) "u1"
           (Example.after (TweetService.deleteTweet "uuid-3")
                          Example.comment_liked)
         = (Return tws,
            Example.after (TweetService.deleteTweet "uuid-3")
                          Example.comment_liked)
         /\ Forall (fun tw => Tweet.id tw <> "uuid-3") tws).
Proof.
  destruct (@deleteTweet_leaves_no_trace
              Example.platform "uuid-3" Example.comment_liked
              (Example.after (TweetService.deleteTweet "uuid-3")
                             Example.comment_liked))
    as [H1 [_ [_ H4]]].
  - vm_compute. reflexivity.
  - split; [exact H1 | apply H4].
Defined.

(** The comments on Bob's tweet, read by Alice after she and Bob liked
    Carol's comment: the comment comes back with two likes, and a like by
    Carol writes to no node. *)
Lemma comment_likes_are_counted_on_read_witness :
  nodes (snd (CommentService.likeComment "uuid-6" "u3"
                Example.comment_liked))
  = nodes Example.comment_liked
  /\ exists records,
      CommentService.getCommentsForTweet (platform := Example.platform)
        "uuid-3" (Some "u1") Example.comment_liked
      = (Return (map (CommentService.toComment
                        (platform := Example.platform)) records),
         Example.comment_liked)
      /\ exists record,
          In record records
          /\ Comment.id (CommentService.toComment
                           (platform := Example.platform) record)
             = "uuid-6"
          /\ Comment.likesCount (CommentService.toComment
                                   (platform := Example.platform) record)
             = 2%Z.
Proof.
  destruct (@comment_likes_are_counted_on_read
              Example.platform Example.comment_liked
              "uuid-3" "uuid-6" "u3" (Some "u1"))
    as [H0 [_ [_ [_ [records [H1 [_ H3]]]]]]].
  - apply wfb_wf. vm_compute. reflexivity.
  - split; [exact H0|]. exists records. split; [exact H1|].
    destruct (H3 6
                (TweetService.new_comment (platform := Example.platform)
                   (Example.at_noon 5) "nice" "u3" None Example.alice_liked)
                (mkRel 8 COMMENTS_ON 6 3 DVundefined)
                (mkRel 7 POSTED 2 6 DVundefined)
                (TweetService.bump_tweet "uuid-3"
                   (TweetService.new_tweet (platform := Example.platform)
                      (Example.at_noon 2) "hello" [] "u2"
                      Example.three_users))
                Example.carol)
      as [record [Hin [_ [Hid Hcount]]]];
      [vm_compute; tauto .. |].
    exists record. split; [exact Hin|]. split; [exact Hid | exact Hcount].
Defined.

(** On that graph the comment has two likes. *)
Example comment_liked_twice :
  match fst (CommentService.getCommentsForTweet
               (platform := Example.platform) "uuid-3" (Some "u1")
               Example.comment_liked) with
  | Return cs => map (fun c => (Comment.likesCount c, Comment.isLiked c)) cs
  | Throw _ => []
  end = [(2%Z, Some true)].
Proof. vm_compute. reflexivity. Qed.

(** The list operations and [fetchTweet] on tweets with odd dates. *)
Example odd_dates_listed_and_fetched :
  map (fun tw => Tweet.createdAt tw)
      match fst (TweetService.listUserTweets (platform := Example.platform)
                   "u1" Example.odd_dates) with
      | Return tws => tws
      | Throw _ => []
      end
  = [Js.Invalid; Js.Invalid]
  /\ option_map (fun tw => Tweet.createdAt tw)
       match fst (TweetService.fetchTweet (platform := Example.platform)
                    Example.now "tweet2" Example.odd_dates) with
       | Return tw => tw
       | Throw _ => None
       end
     = Some Example.now.
Proof. split; vm_compute; reflexivity. Qed.

(** The graph of the examples is well formed, and stays so when Bob's
    tweet is deleted from it and when Carol comments once more. *)
Lemma services_keep_the_store_well_formed_witness :
  wf Example.comment_liked
  /\ wf (snd (TweetService.deleteTweet "uuid-3" Example.comment_liked))
  /\ wf (snd (TweetService.commentOnTweet (platform := Example.platform)
                Example.now (Example.at_noon 7) "again" "u3" "uuid-3"
                Example.comment_liked)).
Proof.
  assert (Hwf : wf Example.comment_liked)
    by (apply wfb_wf; vm_compute; reflexivity).
  destruct (@services_keep_the_store_well_formed
              Example.platform Example.now (Example.at_noon 7) "again" []
              "u3" "uuid-3" "uuid-6" None Example.comment_liked Hwf)
    as [_ [_ [_ [H4 [H5 _]]]]].
  split; [exact Hwf|]. split; [exact H4 | exact H5].
Defined.

(** Alice follows Bob and Carol: her own tweet comes twice in her timeline,
    once for each of the two, and Bob's tweet once; Carol, who follows
    nobody, has an empty timeline. *)
Example timeline_repeats_own_tweets :
  match fst (TweetService.listTimelineTweets (platform := Example.platform)
               "u1" Example.alice_follows_two) with
  | Return tws => map (fun tw => Tweet.id tw) tws
  | Throw _ => []
  end = ["uuid-5"; "uuid-5"; "uuid-3"]
  /\ fst (TweetService.listTimelineTweets (platform := Example.platform)
            "u3" Example.alice_follows_two) = Return [].
Proof. split; vm_compute; reflexivity. Qed.

(** ** The services at their edges, run *)

Lemma wf_three_users : wf Example.three_users.
Proof. apply wfb_wf. vm_compute. reflexivity. Defined.

Lemma wf_bob_tweeted : wf Example.bob_tweeted.
Proof. apply wfb_wf. vm_compute. reflexivity. Defined.

Lemma wf_carol_commented : wf Example.carol_commented.
Proof. apply wfb_wf. vm_compute. reflexivity. Defined.

Lemma wf_comment_liked : wf Example.comment_liked.
Proof. apply wfb_wf. vm_compute. reflexivity. Defined.

Lemma wf_tweet_has_comment : wf Example.tweet_has_comment.
Proof. apply wfb_wf. vm_compute. reflexivity. Defined.

(** Carol comments on a tweet that does not exist. *)
Lemma commentOnTweet_on_a_missing_tweet_witness :
  TweetService.commentOnTweet (platform := Example.platform) Example.now
    (Example.at_noon 5) "nice" "u3" "uuid-9" Example.bob_tweeted
  = (Throw (Js.ApolloError "Failed to execute database operation"
              (Some "DATABASE_ERROR")
              (Some (Js.ApolloError "Failed to create comment"
                       (Some "COMMENT_CREATION_ERROR")
                       (Some (Js.mkError "Tweet not found"))))),
     Example.bob_tweeted).
Proof.
  apply (@commentOnTweet_on_a_missing_tweet Example.platform Example.now
           (Example.at_noon 5) "nice" "u3" "uuid-9" Example.bob_tweeted).
  vm_compute. reflexivity.
Defined.

(** Somebody who is no user comments on Bob's tweet: the count goes to 1
    and there is no comment. *)
Lemma commentOnTweet_by_an_unknown_author_witness :
  exists tw g',
    TweetService.commentOnTweet (platform := Example.platform) Example.now
      (Example.at_noon 5) "nice" "nobody" "uuid-3" Example.bob_tweeted
    = (Return (Some tw), g')
    /\ Tweet.commentsCount tw = Some 1%Z
    /\ comments g' = [].
Proof.
  destruct (@commentOnTweet_by_an_unknown_author Example.platform
              Example.now (Example.at_noon 5) "nice" "nobody" "uuid-3"
              Example.bob_tweeted
              (TweetService.new_tweet (platform := Example.platform)
                 (Example.at_noon 2) "hello" [] "u2" Example.three_users)
              Example.bob [] wf_bob_tweeted)
    as [tw [g' [H1 [H2 [H3 _]]]]].
  - vm_compute. reflexivity.
  - vm_compute. reflexivity.
  - exists tw, g'. split; [exact H1|]. split; [exact H2|].
    rewrite H3. vm_compute. reflexivity.
Defined.

(** Bob's tweet with its like and its comment is deleted; with the
    HAS_COMMENT relationship that starts at it, it is not. *)
Lemma deleteTweet_exactly_witness :
  fst (TweetService.deleteTweet "uuid-3" Example.comment_liked)
  = Return true
  /\ fst (TweetService.deleteTweet "uuid-3" Example.tweet_has_comment)
     = Throw (Js.ApolloError "Failed to execute database operation"
                (Some "DATABASE_ERROR")
                (Some (Js.ApolloError "Failed to delete tweet"
                         (Some "TWEET_DELETION_ERROR")
                         (Some (Js.mkError
               "Cannot delete node, because it still has relationships"))))).
Proof.
  split.
  - destruct (@deleteTweet_exactly "uuid-3" Example.comment_liked
                wf_comment_liked) as [H _].
    destruct H as [g' [H _]]; [|now rewrite H].
    intros r p Hr Hp E. vm_compute in Hr, Hp.
    destruct Hp as [<-|[]].
    repeat (destruct Hr as [<-|Hr]; [discriminate E|]). contradiction.
  - destruct (@deleteTweet_exactly "uuid-3" Example.tweet_has_comment
                wf_tweet_has_comment) as [_ H].
    rewrite H; [reflexivity|].
    exists (last (rels Example.tweet_has_comment)
                 (mkRel 0 FOLLOWS 0 0 DVundefined)),
      (hd (0, Example.undated_tweet)
          (tweets_by_id Example.tweet_has_comment "uuid-3")).
    split; [vm_compute; tauto|]. split; [vm_compute; tauto|].
    split; vm_compute; reflexivity.
Defined.

(** Alice likes Bob's tweet, cannot like it twice, and unlikes it. *)
Lemma tweet_like_lifecycle_witness :
  exists g1,
    TweetService.likeTweet (Example.at_noon 4) "uuid-3" "u1"
                           Example.bob_tweeted
    = (Return true, g1)
    /\ TweetService.likeTweet (Example.at_noon 5) "uuid-3" "u1" g1
       = (Throw (Js.ApolloError "Failed to execute database operation"
                   (Some "DATABASE_ERROR")
                   (Some (Js.mkError "Tweet already liked"))), g1)
    /\ rels (snd (TweetService.unlikeTweet "uuid-3" "u1" g1))
       = rels Example.bob_tweeted.
Proof.
  destruct (@tweet_like_lifecycle (Example.at_noon 4) (Example.at_noon 5)
              "uuid-3" "u1" Example.bob_tweeted wf_bob_tweeted)
    as [_ H].
  destruct H as [g1 [H1 [H2 [_ [_ H5]]]]]; [vm_compute; reflexivity|].
  exists g1. split; [exact H1|]. split; [|exact H5].
  apply H2; vm_compute; discriminate.
Defined.

(** Alice likes Bob's tweet and finds it among her liked tweets. *)
Lemma listLikedTweets_follows_the_likes_witness :
  exists tws g1,
    TweetService.likeTweet (Example.at_noon 4) "uuid-3" "u1"
                           Example.bob_tweeted
    = (Return true, g1)
    /\ TweetService.listLikedTweets (platform := Example.platform) "u1" g1
       = (Return tws, g1)
    /\ Exists (fun tw => Tweet.id tw = "uuid-3") tws.
Proof.
  destruct (@listLikedTweets_follows_the_likes Example.platform
              (Example.at_noon 4) "uuid-3" "u1" Example.bob_tweeted
              wf_bob_tweeted) as [_ H].
  apply H.
  - vm_compute. reflexivity.
  - vm_compute. discriminate.
  - vm_compute. discriminate.
Defined.

(** Bob's first tweet is in his list and in the list of all. *)
Lemma created_tweet_is_listed_witness :
  exists tw g' mine all,
    TweetService.createTweet (platform := Example.platform) Example.now
      (Example.at_noon 2) "hello" [] "u2" Example.three_users
    = (Return tw, g')
    /\ TweetService.listUserTweets (platform := Example.platform) "u2" g'
       = (Return mine, g')
    /\ TweetService.listTweets (platform := Example.platform) g'
       = (Return all, g')
    /\ exists item,
        In item mine /\ In item all /\ Tweet.id item = Tweet.id tw.
Proof.
  destruct (@created_tweet_is_listed Example.platform Example.now
              (Example.at_noon 2) "hello" [] "u2" Example.three_users
              wf_three_users)
    as [tw [g' [mine [all [H1 [H2 [H3 [_ [item [H5 [H6 [H7 _]]]]]]]]]]]].
  - vm_compute. discriminate.
  - vm_compute. discriminate.
  - exists tw, g', mine, all. split; [exact H1|]. split; [exact H2|].
    split; [exact H3|]. exists item. tauto.
Defined.

(** Carol's comment on Bob's tweet is listed for Alice, with its two
    likes, one of them hers. *)
Lemma getCommentsForTweet_lists_linked_comments_witness :
  exists cs,
    CommentService.getCommentsForTweet (platform := Example.platform)
      "uuid-3" (Some "u1") Example.comment_liked
    = (Return cs, Example.comment_liked)
    /\ exists item,
        In item cs
        /\ Comment.id item = "uuid-6"
        /\ Comment.text item = "nice"
        /\ Comment.likesCount item = 2%Z
        /\ Comment.isLiked item = Some true.
Proof.
  apply (@getCommentsForTweet_lists_linked_comments Example.platform
           "uuid-3" (Some "u1") Example.comment_liked 6
           (TweetService.new_comment (platform := Example.platform)
              (Example.at_noon 5) "nice" "u3" None Example.alice_liked)
           (mkRel 8 COMMENTS_ON 6 3 DVundefined)
           (mkRel 7 POSTED 2 6 DVundefined)
           (TweetService.bump_tweet "uuid-3"
              (TweetService.new_tweet (platform := Example.platform)
                 (Example.at_noon 2) "hello" [] "u2" Example.three_users))
           Example.carol wf_comment_liked);
    vm_compute; tauto.
Defined.

(** A comment by Alice on a tweet that does not exist. *)
Lemma createComment_without_a_match_witness :
  CommentService.createComment (platform := Example.platform)
    (Example.at_noon 5) "nice" "u1" "uuid-9" Example.three_users
  = (Throw (Js.ApolloError "Failed to execute database operation"
                           None None), Example.three_users).
Proof.
  apply (@createComment_without_a_match Example.platform
           (Example.at_noon 5) "nice" "u1" "uuid-9" Example.three_users).
  right. vm_compute. reflexivity.
Defined.

(** Carol comments on Bob's tweet through the comment service: the comment
    is listed, and the tweet still counts no comment. *)
Lemma createComment_then_getCommentsForTweet_witness :
  exists c g' cs,
    CommentService.createComment (platform := Example.platform)
      (Example.at_noon 5) "nice" "u3" "uuid-3" Example.bob_tweeted
    = (Return c, g')
    /\ Comment.tweetId c = Some "uuid-3"
    /\ tweets g' = tweets Example.bob_tweeted
    /\ CommentService.getCommentsForTweet (platform := Example.platform)
         "uuid-3" None g'
       = (Return cs, g')
    /\ exists item, In item cs /\ Comment.id item = Comment.id c.
Proof.
  destruct (@createComment_then_getCommentsForTweet Example.platform
              (Example.at_noon 5) "nice" "u3" "uuid-3" None
              Example.bob_tweeted wf_bob_tweeted)
    as [c [g' [cs [H1 [_ [_ [_ [H5 [_ [_ [H8 [H9 [item [H10 [H11 _]]]]]]]]]]]]]]].
  - vm_compute. discriminate.
  - vm_compute. discriminate.
  - exists c, g', cs. split; [exact H1|]. split; [exact H5|].
    split; [exact H8|]. split; [exact H9|]. exists item. tauto.
Defined.

(** Carol deletes her comment; Alice cannot. *)
Lemma deleteComment_checks_the_owner_then_detaches_witness :
  (exists g',
      CommentService.deleteComment "uuid-6" "u3" Example.comment_liked
      = (Return true, g')
      /\ wf g'
      /\ comments_by_id g' "uuid-6" = []
      /\ tweets g' = tweets Example.comment_liked)
  /\ CommentService.deleteComment "uuid-6" "u1" Example.comment_liked
     = (Throw (Js.ApolloError "Failed to execute database operation"
                              None None), Example.comment_liked).
Proof.
  split.
  - destruct (@deleteComment_checks_the_owner_then_detaches "uuid-6" "u3"
                Example.comment_liked wf_comment_liked) as [_ H].
    destruct H as [g' [H1 [H2 [H3 [_ [_ [H6 _]]]]]]];
      [vm_compute; discriminate|].
    exists g'. tauto.
  - destruct (@deleteComment_checks_the_owner_then_detaches "uuid-6" "u1"
                Example.comment_liked wf_comment_liked) as [H _].
    apply H. vm_compute. reflexivity.
Defined.

(** Alice likes Carol's comment, once. *)
Lemma comment_like_lifecycle_witness :
  exists g1,
    CommentService.likeComment "uuid-6" "u1" Example.carol_commented
    = (Return true, g1)
    /\ List.length (CommentService.likes_of g1 6) = 1
    /\ CommentService.likeComment "uuid-6" "u1" g1 = (Return false, g1).
Proof.
  destruct (@comment_like_lifecycle "uuid-6" "u1" Example.carol_commented
              0 6 Example.alice
              (TweetService.new_comment (platform := Example.platform)
                 (Example.at_noon 5) "nice" "u3" None Example.alice_liked)
              wf_carol_commented)
    as [_ [g1 [H1 [_ [_ [H4 [_ [H6 _]]]]]]]].
  - vm_compute. reflexivity.
  - vm_compute. reflexivity.
  - vm_compute. reflexivity.
  - exists g1. split; [exact H1|]. split; [|exact H6].
    rewrite H4. vm_compute. reflexivity.
Defined.

(** An anonymous caller with a blank text is told about the text. *)
Lemma anonymous_mutations_are_rejected_witness :
  TweetResolver.createTweet (platform := Example.platform) Example.now
    (Example.at_noon 2) (UserResolver.mkContext None)
    (CreateTweetInput.mk "  " None) Example.three_users
  = (Throw (Js.ApolloError "Failed to create tweet"
              (Some "TWEET_CREATION_ERROR")
              (Some (Js.mkError "Tweet text cannot be empty"))),
     Example.three_users).
Proof.
  destruct (@anonymous_mutations_are_rejected Example.platform Example.now
              (Example.at_noon 2) (UserResolver.mkContext None)
              Example.three_users eq_refl) as [_ [_ [_ H]]].
  exact (H (CreateTweetInput.mk "  " None)).
Defined.

(** Alice tweets through the resolver, without media. *)
Lemma resolver_createTweet_for_the_caller_witness :
  exists tw g',
    TweetResolver.createTweet (platform := Example.platform) Example.now
      (Example.at_noon 2) (UserResolver.mkContext (Some Example.alice_caller))
      (CreateTweetInput.mk "hi all" None) Example.three_users
    = (Return tw, g')
    /\ Tweet.authorId tw = "u1"
    /\ Tweet.media tw = [].
Proof.
  destruct (@resolver_createTweet_for_the_caller Example.platform
              Example.now (Example.at_noon 2)
              (UserResolver.mkContext (Some Example.alice_caller))
              (CreateTweetInput.mk "hi all" None) "u1" Example.three_users)
    as [H _].
  - vm_compute. reflexivity.
  - vm_compute. discriminate.
  - destruct H as [tw [g' [H1 [_ [H3 [_ [H5 _]]]]]]];
      [vm_compute; discriminate|].
    exists tw, g'. split; [exact H1|]. split; [exact H3 | exact H5].
Defined.

(** Bob's tweet is deleted for an input that names Bob as author, and not
    for one that names Alice. *)
Lemma resolver_deleteTweet_compares_with_the_input_witness :
  fst (TweetResolver.deleteTweet (platform := Example.platform) Example.now
         (DeleteTweetInput.mk "uuid-3" "u2") Example.bob_tweeted)
  = Return true
  /\ TweetResolver.deleteTweet (platform := Example.platform) Example.now
       (DeleteTweetInput.mk "uuid-3" "u1") Example.bob_tweeted
     = (Throw (Js.ApolloError "Failed to delete tweet"
                 (Some "TWEET_DELETION_ERROR")
                 (Some (Js.mkError
                   "Unauthorized: You can only delete your own tweets"))),
        Example.bob_tweeted).
Proof.
  split.
  - destruct (@resolver_deleteTweet_compares_with_the_input
                Example.platform Example.now
                (DeleteTweetInput.mk "uuid-3" "u2") Example.bob_tweeted
                wf_bob_tweeted) as [_ H].
    destruct (H (TweetService.new_tweet (platform := Example.platform)
                   (Example.at_noon 2) "hello" [] "u2" Example.three_users)
                Example.bob []) as [_ H2]; [vm_compute; reflexivity|].
    destruct H2 as [g' [H3 _]]; [reflexivity| |now rewrite H3].
    intros r p Hr Hp E. vm_compute in Hr, Hp.
    destruct Hp as [<-|[]].
    repeat (destruct Hr as [<-|Hr]; [discriminate E|]). contradiction.
  - destruct (@resolver_deleteTweet_compares_with_the_input
                Example.platform Example.now
                (DeleteTweetInput.mk "uuid-3" "u1") Example.bob_tweeted
                wf_bob_tweeted) as [_ H].
    destruct (H (TweetService.new_tweet (platform := Example.platform)
                   (Example.at_noon 2) "hello" [] "u2" Example.three_users)
                Example.bob []) as [H1 _]; [vm_compute; reflexivity|].
    apply H1. vm_compute. discriminate.
Defined.

(** Alice comments on Bob's tweet through the resolver. *)
Lemma resolver_commentOnTweet_returns_the_updated_tweet_witness :
  exists tw g',
    TweetResolver.commentOnTweet (platform := Example.platform) Example.now
      (Example.at_noon 5) (UserResolver.mkContext (Some Example.alice_caller))
      (CommentOnTweetInput.mk "uuid-3" "nice") Example.bob_tweeted
    = (Return (Some tw), g')
    /\ Tweet.id tw = "uuid-3"
    /\ Tweet.commentsCount tw = Some 1%Z.
Proof.
  destruct (@resolver_commentOnTweet_returns_the_updated_tweet
              Example.platform Example.now (Example.at_noon 5)
              (UserResolver.mkContext (Some Example.alice_caller))
              (CommentOnTweetInput.mk "uuid-3" "nice") "u1"
              Example.bob_tweeted wf_bob_tweeted eq_refl) as [_ H].
  destruct (H (TweetService.new_tweet (platform := Example.platform)
                 (Example.at_noon 2) "hello" [] "u2" Example.three_users)
              Example.bob [])
    as [tw [g' [H1 [H2 [H3 _]]]]]; [vm_compute; reflexivity|].
  exists tw, g'. split; [exact H1|]. split; [exact H2 | exact H3].
Defined.

(** The HAS_COMMENT relationship from Bob's tweet to Carol's comment is
    created, dated with a string, and deleted again. *)
Lemma createRelationship_then_deleteRelationship_witness :
  exists rs g1 g2,
    Neo4jService.createRelationship "2024-01-06T12:00:00.000Z" "uuid-3"
      "uuid-6" HAS_COMMENT Example.carol_commented
    = (Return rs, g1)
    /\ List.length rs = 1
    /\ Neo4jService.deleteRelationship "uuid-3" "uuid-6" HAS_COMMENT g1
       = (Return tt, g2)
    /\ rels g2 = rels Example.carol_commented.
Proof.
  destruct (@createRelationship_then_deleteRelationship
              "2024-01-06T12:00:00.000Z" "uuid-3" "uuid-6" HAS_COMMENT
              Example.carol_commented wf_carol_commented)
    as [rs [g1 [g2 [H1 [_ [_ [_ [_ [H5 [_ [H7 [_ [_ H10]]]]]]]]]]]]].
  exists rs, g1, g2. split; [exact H1|]. split; [exact H5|].
  split; [exact H7|]. apply H10. vm_compute. reflexivity.
Defined.

(** Alice's token in the header, with something else in the cookie. *)
Lemma header_token_names_the_caller_witness :
  Auth.authenticateUser Example.example_verifyJwt
    (Auth.mkRequest (Some "Bearer alice-token") (Some "other"))
    Example.three_users
  = Auth.Next Example.alice.
Proof.
  destruct (@header_token_names_the_caller Example.example_verifyJwt
              "Bearer" "alice-token" (Some "other")
              (Auth.mkDecoded (Some "u1")) "u1" 0 Example.alice
              [] Example.three_users)
    as [_ [H _]].
  - vm_compute. intros H. repeat (destruct H as [H|H]; [discriminate H|]).
    contradiction.
  - vm_compute. intros H. repeat (destruct H as [H|H]; [discriminate H|]).
    contradiction.
  - discriminate.
  - vm_compute. reflexivity.
  - reflexivity.
  - vm_compute. reflexivity.
  - exact H.
Defined.

(** A text of two spaces is refused as empty. *)
Lemma createTweet_rejections_witness :
  TweetService.createTweet (platform := Example.platform) Example.now
    (Example.at_noon 2) "  " [] "u1" Example.three_users
  = (Throw (Js.ApolloError "Tweet text cannot be empty"
                           (Some "INVALID_INPUT") None),
     Example.three_users).
Proof.
  destruct (@createTweet_rejections Example.platform Example.now
              (Example.at_noon 2) "  " [] "u1" Example.three_users)
    as [[_ H] _].
  apply H. repeat constructor.
Defined.

(** No tweet carries the id [uuid-9]. *)
Lemma fetchTweet_finds_posted_tweets_witness :
  TweetService.fetchTweet (platform := Example.platform) Example.now
    "uuid-9" Example.bob_tweeted
  = (Return None, Example.bob_tweeted).
Proof.
  destruct (@fetchTweet_finds_posted_tweets Example.platform Example.now
              "uuid-9" Example.bob_tweeted) as [_ [[_ H] _]].
  apply H. intros k t Hin Hid. vm_compute in Hin.
  destruct Hin as [E|[]]. inversion E; subst. discriminate Hid.
Defined.

(** Alice follows Bob: the call returns, so she did not name herself. *)
Lemma follow_and_unfollow_outcomes_witness :
  exists caller,
    UserResolver.user (UserResolver.mkContext (Some Example.alice_caller))
    = Some caller
    /\ User.id caller <> "u2".
Proof.
  destruct (@follow_and_unfollow_outcomes unit unit
              Example.example_getFollowings Example.example_followUser
              Example.example_followUser
              (UserResolver.mkContext (Some Example.alice_caller))
              (UserResolver.mkFollowUserInput "u2")
              (UserResolver.UnfollowUserInput.mk "u2") Example.three_users)
    as [_ [_ H]].
  destruct (H true (Example.after (Example.example_followUser "u2" "u1")
                                  Example.three_users))
    as [_ [caller [fs [g1 [x [H1 [H2 _]]]]]]].
  - vm_compute. reflexivity.
  - exists caller. split; [exact H1 | exact H2].
Defined.

(** Alice is found by her id. *)
Lemma findUser_by_id_and_by_username_witness :
  exists o,
    Neo4jService.findUserById "u1" Example.three_users
    = (Return o, Example.three_users)
    /\ forall u, o = Some u -> u_id u = "u1".
Proof.
  destruct (@findUser_by_id_and_by_username "u1" Example.three_users)
    as [[o [H1 [_ H3]]] _].
  exists o. split; [exact H1|]. intros u Hu. now destruct (H3 u Hu).
Defined.

(** Alice's token in the cookie: the middleware lets her through, and the
    context holds her. *)
Lemma middleware_and_context_agree_witness :
  Auth.contextUser Example.example_verifyJwt
    (Auth.mkRequest None (Some "alice-token")) Example.three_users
  = Some Example.alice.
Proof.
  destruct (@middleware_and_context_agree Example.example_verifyJwt
              (Auth.mkRequest None (Some "alice-token"))
              Example.three_users) as [H _].
  apply H. vm_compute. reflexivity.
Defined.

(** Alice deletes her account with her password. *)
Lemma deleteUser_only_the_callers_own_account_witness :
  fst (UserResolver.deleteUser Example.example_validatePassword
         Example.example_deleteUser "u1" "secret"
         (UserResolver.mkContext (Some Example.alice_caller))
         Example.three_users)
  = Return (true, ["token"])
  /\ UserResolver.deleteUser Example.example_validatePassword
       Example.example_deleteUser "u2" "secret"
       (UserResolver.mkContext (Some Example.alice_caller))
       Example.three_users
     = (Throw (Js.ApolloError "You can only delete your own account"
                              (Some "FORBIDDEN") None),
        Example.three_users).
Proof.
  split.
  - destruct (@deleteUser_only_the_callers_own_account
                Example.example_validatePassword Example.example_deleteUser
                "u1" "secret"
                (UserResolver.mkContext (Some Example.alice_caller))
                Example.three_users) as [H _].
    destruct (UserResolver.deleteUser _ _ _ _ _ _) as [[v|e] g'] eqn:E.
    + destruct (H v g' eq_refl) as [Hv _]. now rewrite Hv.
    + vm_compute in E. discriminate E.
  - destruct (@deleteUser_only_the_callers_own_account
                Example.example_validatePassword Example.example_deleteUser
                "u2" "secret"
                (UserResolver.mkContext (Some Example.alice_caller))
                Example.three_users) as [_ [_ H]].
    apply (H Example.alice_caller); [reflexivity | discriminate].
Defined.

(** A login with the wrong password. *)
Lemma login_and_register_outcomes_witness :
  UserResolver.loginUser Example.example_validatePassword
    Example.example_signJwt "alice" "guess" (UserResolver.mkContext None)
    Example.three_users
  = (Throw (Js.ApolloError "Invalid credentials"
                           (Some "INVALID_CREDENTIALS") None),
     Example.three_users).
Proof.
  destruct (@login_and_register_outcomes Example.example_validatePassword
              (fun username : string =>
                 Session.ret (A := option User.t) None)
              string (fun input : string => input)
              User.t (fun created : User.t => created)
              (fun input : string => Session.ret Example.alice_caller)
              Example.example_signJwt "alice" "guess" "alice"
              (UserResolver.mkContext None) Example.three_users)
    as [_ [_ [H _]]].
  apply H. reflexivity.
Defined.

(** An update that names neither a text nor media. *)
Lemma resolver_updateTweet_outcomes_witness :
  TweetResolver.updateTweet Example.example_updateTweet
    (UpdateTweetInput.mk "uuid-3" None None) Example.bob_tweeted
  = (Throw (Js.ApolloError "Failed to update tweet"
              (Some "TWEET_UPDATE_ERROR")
              (Some (Js.mkError
        "At least one field (text or media) must be provided for update"))),
     Example.bob_tweeted).
Proof.
  destruct (@resolver_updateTweet_outcomes Example.example_updateTweet
              "uuid-3" [] Example.bob_tweeted) as [H _].
  destruct (H None I) as [H1 _]. exact H1.
Defined.
